(** * nomad-driver-ch: network allocator, VM lifecycle bookkeeping,
      port-forwarding teardown, MAC derivation and VFIO allowlist

    A shallow embedding of the parts of the Cloud Hypervisor task driver
    that its specification makes claims about, and of the code around
    them:

    - [cloudhypervisor] (driver.go): [allocateIP], [deallocateIP],
      [deriveNetworkSettings], [generateMAC], [CreateDomain], [StopDomain],
      [DestroyDomain], [initializeNetworkConfig]; further the
      constructor with [validateNetworkConfig], the queries
      [GetNetworkInterfaces] and [GetInfo], the netmask writers
      [prefixBitsToNetmask], [netmaskDotted] and [maskStringFromPrefix],
      [envFileFromMap], [upsertFile] and [addVFIODevices];
    - [chnet] (controller.go): [VMTerminatedTeardown],
      [generateDeterministicMAC]; further [Init] with [ensureIPTables]
      and [ensureIPTablesChain], [VMStartedBuild] with
      [configureIPTables], and the conversions [ipv4ToUint32] and
      [uint32ToIPv4];
    - [net]: [NetworkInterfacesConfig.Validate]; [virt] (config.go):
      [initDefaults];
    - the VFIO allowlist matcher, whose source file is not part of the
      tree and which is therefore modelled from the specification and
      checked against the repository's test table.

    Go strings are [string] (a sequence of bytes), Go [int] is a 64-bit
    two's complement integer carried in [Z], Go maps are [gmap]s.  The
    standard library package [net/netip] is modelled in its IPv4 form,
    following its sources. *)

From Stdlib Require Import ZArith Lia Bool Ascii.
From Stdlib Require String.
From stdpp Require Import base option gmap strings list.

Local Open Scope Z_scope.

(** ** Bounded loops

    A Go [for] loop whose body either continues with a new loop state or
    leaves the loop with a result.  [iter_pos p] runs the body at most
    [p] times; the bound is binary so that it costs nothing to evaluate. *)

Section Loop.
Context {St Res : Type}.
Variable body : St → St + Res.

Fixpoint iter_nat (n : nat) (s : St) : St + Res :=
  match n with
  | O => inl s
  | S n' =>
      match body s with
      | inl s' => iter_nat n' s'
      | inr r => inr r
      end
  end.

Fixpoint iter_pos (p : positive) (s : St) : St + Res :=
  match p with
  | xH => body s
  | xO q =>
      match iter_pos q s with
      | inl s' => iter_pos q s'
      | inr r => inr r
      end
  | xI q =>
      match body s with
      | inl s' =>
          match iter_pos q s' with
          | inl s'' => iter_pos q s''
          | inr r => inr r
          end
      | inr r => inr r
      end
  end.
End Loop.

(** ** strconv *)

Module strconv.

Definition isDigit (c : ascii) : bool :=
  let n := Z.of_N (N_of_ascii c) in (48 <=? n) && (n <=? 57).

Fixpoint digits (s : string) (acc : Z) : option Z :=
  match s with
  | EmptyString => Some acc
  | String c rest =>
      if isDigit c
      then digits rest (acc * 10 + (Z.of_N (N_of_ascii c) - 48))
      else None
  end.

(** [strconv.Atoi]: an optional sign and at least one decimal digit;
    values outside the 64-bit [int] are a range error. *)
Definition Atoi (s : string) : option Z :=
  let body (neg : bool) (t : string) :=
    match t with
    | EmptyString => None
    | _ =>
        match digits t 0 with
        | Some n =>
            let n := if neg then - n else n in
            if (- 2 ^ 63 <=? n) && (n <? 2 ^ 63) then Some n else None
        | None => None
        end
    end in
  match s with
  | EmptyString => None
  | String c rest =>
      if Ascii.eqb c "-"%char then body true rest
      else if Ascii.eqb c "+"%char then body false rest
      else body false s
  end.

End strconv.

(** ** net/netip, IPv4 form *)

Module netip.

(** [netip.Addr]: the zero value (not a valid address) or a 32-bit IPv4
    address.  *)
Inductive Addr : Type :=
| AddrZero
| IPv4 (v : Z).

#[global] Instance Addr_eq_dec : EqDecision Addr.
Proof. solve_decision. Defined.

Definition IsValid (a : Addr) : bool :=
  match a with AddrZero => false | IPv4 _ => true end.

(** A well-formed address carries a value that fits 32 bits. *)
Definition wf (a : Addr) : Prop :=
  match a with AddrZero => True | IPv4 v => 0 <= v < 2 ^ 32 end.

(** [Addr.Next]: the following address, or the zero [Addr] on overflow. *)
Definition Next (a : Addr) : Addr :=
  match a with
  | AddrZero => AddrZero
  | IPv4 v =>
      let v' := (v + 1) mod 2 ^ 32 in
      if v' =? 0 then AddrZero else IPv4 v'
  end.

(** [Addr.Compare]: the zero [Addr] sorts before every IPv4 address. *)
Definition Compare (a b : Addr) : Z :=
  match a, b with
  | AddrZero, AddrZero => 0
  | AddrZero, IPv4 _ => -1
  | IPv4 _, AddrZero => 1
  | IPv4 x, IPv4 y => if x <? y then -1 else if y <? x then 1 else 0
  end.

(** [appendDecimal]: a byte in decimal, without leading zeros. *)
Definition digit (n : Z) : ascii := ascii_of_N (48 + Z.to_N n).

Definition appendDecimal (x : Z) : string :=
  (if 100 <=? x then String (digit (x / 100)) EmptyString else EmptyString) +:+
  (if 10 <=? x then String (digit (x / 10 mod 10)) EmptyString else EmptyString) +:+
  String (digit (x mod 10)) EmptyString.

Definition octet (v : Z) (i : Z) : Z := Z.land (Z.shiftr v (8 * (3 - i))) 255.

(** [Addr.String]: dotted decimal for IPv4, ["invalid IP"] for the zero
    [Addr]. *)
Definition String (a : Addr) : string :=
  match a with
  | AddrZero => "invalid IP"
  | IPv4 v =>
      appendDecimal (octet v 0) +:+ "." +:+ appendDecimal (octet v 1) +:+ "." +:+
      appendDecimal (octet v 2) +:+ "." +:+ appendDecimal (octet v 3)
  end.

(** [parseIPv4Fields]: the scanner state is the value and digit count of
    the current octet, the octets read so far and whether the previous
    byte was a dot. *)
Record scan := Scan {
  sc_val : Z;
  sc_digLen : Z;
  sc_fields : list Z;
  sc_prevDot : bool
}.

Definition is_digit (c : ascii) : bool :=
  let n := Z.of_N (N_of_ascii c) in (48 <=? n) && (n <=? 57).

Fixpoint parseIPv4Fields (first : bool) (s : string) (st : scan) : option (list Z) :=
  match s with
  | EmptyString =>
      if (Z.of_nat (length (sc_fields st)) <? 3) then None
      else Some (sc_fields st ++ [sc_val st])
  | String.String c rest =>
      if is_digit c then
        if (sc_digLen st =? 1) && (sc_val st =? 0) then None
        else
          let val := sc_val st * 10 + Z.of_N (N_of_ascii c) - 48 in
          if 255 <? val then None
          else parseIPv4Fields false rest
                 (Scan val (sc_digLen st + 1) (sc_fields st) false)
      else if Ascii.eqb c "."%char then
        if first || (match rest with EmptyString => true | _ => false end)
           || sc_prevDot st then None
        else if (Z.of_nat (length (sc_fields st)) =? 3) then None
        else parseIPv4Fields false rest
               (Scan 0 0 (sc_fields st ++ [sc_val st]) true)
      else None
  end.

Definition parseIPv4 (s : string) : option Addr :=
  match parseIPv4Fields true s (Scan 0 0 [] false) with
  | Some [a; b; c; d] =>
      Some (IPv4 (Z.lor (Z.lor (Z.lor (Z.shiftl a 24) (Z.shiftl b 16)) (Z.shiftl c 8)) d))
  | _ => None
  end.

(** [ParseAddr] dispatches on the first of ['.'], [':'], ['%'] in the
    input.  IPv6 literals are outside the IPv4 model and are reported
    as unparsable. *)
Fixpoint firstSep (s : string) : option ascii :=
  match s with
  | EmptyString => None
  | String.String c rest =>
      if Ascii.eqb c "."%char || Ascii.eqb c ":"%char || Ascii.eqb c "%"%char
      then Some c else firstSep rest
  end.

Definition ParseAddr (s : string) : option Addr :=
  match firstSep s with
  | Some c => if Ascii.eqb c "."%char then parseIPv4 s else None
  | None => None
  end.

(** [netip.Prefix]: an address and a prefix length; [Bits] is [-1] for
    the zero (invalid) prefix. *)
Record Prefix := MkPrefix {
  Addr_of : Addr;
  Bits : Z
}.

Definition PrefixZero : Prefix := MkPrefix AddrZero (-1).

Definition PrefixIsValid (p : Prefix) : bool :=
  IsValid (Addr_of p) && (0 <=? Bits p) && (Bits p <=? 32).

(** [Prefix.Contains]: the address and the prefix address agree on the
    leading [Bits] bits. *)
Definition Contains (p : Prefix) (ip : Addr) : bool :=
  if negb (PrefixIsValid p) then false
  else
    match Addr_of p, ip with
    | IPv4 pv, IPv4 v => Z.shiftr (Z.lxor v pv) (32 - Bits p) =? 0
    | _, _ => false
    end.

(** [Prefix.Masked]: the prefix with the host bits cleared. *)
Definition Masked (p : Prefix) : Prefix :=
  if negb (PrefixIsValid p) then PrefixZero
  else
    match Addr_of p with
    | IPv4 pv =>
        MkPrefix (IPv4 (Z.shiftl (Z.shiftr pv (32 - Bits p)) (32 - Bits p))) (Bits p)
    | AddrZero => PrefixZero
    end.

(** [ParsePrefix]: the text before the last ['/'] is the address, the
    text after it the prefix length, written without sign or leading
    zero. *)
Fixpoint splitLast (s : string) : option (string * string) :=
  match s with
  | EmptyString => None
  | String.String c rest =>
      match splitLast rest with
      | Some (l, r) => Some (String.String c l, r)
      | None => if Ascii.eqb c "/"%char then Some (EmptyString, rest) else None
      end
  end.

Definition ParsePrefix (s : string) : option Prefix :=
  match splitLast s with
  | None => None
  | Some (addrStr, bitsStr) =>
      match ParseAddr addrStr with
      | None => None
      | Some ip =>
          let badLead :=
            match bitsStr with
            | String.String c (String.String _ _) =>
                let n := Z.of_N (N_of_ascii c) in (n <? 49) || (57 <? n)
            | _ => false
            end in
          if badLead then None
          else
            match strconv.Atoi bitsStr with
            | None => None
            | Some bits =>
                if (bits <? 0) || (32 <? bits) then None else Some (MkPrefix ip bits)
            end
      end
  end.

(** [Addr.Is4] *)
Definition Is4 (a : Addr) : bool :=
  match a with AddrZero => false | IPv4 _ => true end.

(** [Addr.As4]: the four bytes of an IPv4 address, most significant
    first; the call panics on the zero [Addr] ([None]). *)
Definition As4 (a : Addr) : option (Z * Z * Z * Z) :=
  match a with
  | AddrZero => None
  | IPv4 v => Some (octet v 0, octet v 1, octet v 2, octet v 3)
  end.

(** [AddrFrom4] *)
Definition AddrFrom4 (b : Z * Z * Z * Z) : Addr :=
  let '(b0, b1, b2, b3) := b in
  IPv4 (Z.lor (Z.lor (Z.lor (Z.shiftl b0 24) (Z.shiftl b1 16)) (Z.shiftl b2 8)) b3).

End netip.

(** ** Configuration types ([internal/shared] and [virt/net]) *)

Module domain.

(** [domain.Network]: the driver-wide network block. *)
Record Network := MkNetwork {
  Bridge : string;
  SubnetCIDR : string;
  Gateway : string;
  IPPoolStart : string;
  IPPoolEnd : string;
  TAPPrefix : string
}.

(** [net.NetworkInterfaceBridgeConfig] *)
Record NetworkInterfaceBridgeConfig := MkBridge {
  Name : string;
  Ports : list string;
  StaticIP : string;
  BridgeGateway : string;
  Netmask : string;
  DNS : list string
}.

(** [net.NetworkInterfaceConfig]: [Bridge] is a pointer and may be nil. *)
Record NetworkInterfaceConfig := MkInterface {
  IfBridge : option NetworkInterfaceBridgeConfig
}.

(** [domain.File]: a file delivered to the guest. *)
Record File := MkFile {
  Path : string;
  Permissions : string;
  Encoding : string;
  Content : string
}.

(** [domain.Config]: the fields the lifecycle reads or writes; [Other]
    stands for the remaining payload (image, kernel, CPU and memory
    shape, mounts), which only the host-facing steps consume. *)
Record Config {Other : Type} := MkConfig {
  ConfigName : string;
  NetworkInterfaces : list NetworkInterfaceConfig;
  VFIODevices : list string;
  Files : list File;
  ConfigOther : Other
}.
Arguments Config : clear implicits.
Arguments MkConfig {Other}.

(** [domain.VFIO]: the driver-wide passthrough block. *)
Record VFIO := MkVFIO {
  Allowlist : list string;
  IOMMUAddressWidth : Z;
  PCISegments : Z
}.

(** [domain.CloudHypervisor]: the driver-wide hypervisor block. *)
Record CloudHypervisor := MkCloudHypervisor {
  Bin : string;
  RemoteBin : string;
  VirtiofsdBin : string;
  DefaultKernel : string;
  DefaultInitramfs : string;
  Firmware : string;
  Seccomp : string;
  LogFile : string
}.

(** [domain.NetworkInterface]: what the driver reports about the
    interface of a VM. *)
Record NetworkInterface := MkNetworkInterface {
  NetworkName : string;
  DeviceName : string;
  MAC : string;
  Model : string;
  Driver : string;
  Addrs : list netip.Addr
}.

(** [domain.VirtualizerInfo]: the fields [GetInfo] fills in. *)
Record VirtualizerInfo := MkVirtualizerInfo {
  InfoModel : string;
  EmulatorVersion : Z;
  RunningDomains : Z
}.

End domain.

(** ** The lifecycle driver ([cloudhypervisor]) *)

Inductive error : Type :=
| ErrAlreadyExists (name : string)
| ErrWorkDir
| ErrStaticOutsideSubnet (ip : string)
| ErrStaticAllocated (ip : string)
| ErrAllocateIP (cause : error)
| ErrPoolNotConfigured
| ErrOutsideSubnet (ip : string)
| ErrNoAvailableIPs (poolStart poolEnd : string)
| ErrCloudInit
| ErrNetworking
| ErrVirtiofsd
| ErrBuildVMConfig
| ErrVFIO
| ErrStartCH
| ErrBoot
| ErrNotFound (name : string)
| ErrLoopBound.

(** [VMProcess]; [VMC] is the type of the VMM configuration snapshot. *)
Record VMProcess {VMC : Type} := MkProc {
  Name : string;
  Pid : Z;
  APISocket : string;
  LogFile : string;
  WorkDir : string;
  TapName : string;
  MAC : string;
  IP : string;
  VirtiofsdPIDs : list Z;
  Config : option VMC;
  StartedAt : Z
}.
Arguments VMProcess : clear implicits.
Arguments MkProc {VMC}.

(** [Driver]: the registry, the allocation set and the parsed network
    configuration. *)
Record Driver {VMC : Type} := MkDriver {
  networkConfig : option domain.Network;
  vfioConfig : option domain.VFIO;
  dataDir : string;
  processes : gmap string (VMProcess VMC);
  allocatedIPs : gmap string bool;
  ipPoolStart : netip.Addr;
  ipPoolEnd : netip.Addr;
  subnet : netip.Prefix;
  gatewayIP : netip.Addr
}.
Arguments Driver : clear implicits.
Arguments MkDriver {VMC}.

Section Allocator.
Context {VMC : Type}.
Local Abbreviation Driver := (Driver VMC).

Definition set_allocatedIPs (d : Driver) (m : gmap string bool) : Driver :=
  MkDriver (networkConfig d) (vfioConfig d) (dataDir d) (processes d) m
           (ipPoolStart d) (ipPoolEnd d) (subnet d) (gatewayIP d).

Definition set_processes (d : Driver) (m : gmap string (VMProcess VMC)) : Driver :=
  MkDriver (networkConfig d) (vfioConfig d) (dataDir d) m (allocatedIPs d)
           (ipPoolStart d) (ipPoolEnd d) (subnet d) (gatewayIP d).

(** Reading a Go [map[string]bool]: a missing key reads [false]. *)
Definition isAllocated (d : Driver) (ip : string) : bool :=
  default false (allocatedIPs d !! ip).

Inductive alloc_exit : Type :=
| AllocReturn (ipStr : string)
| AllocError (e : error)
| AllocBreak.

(** One iteration of the scan in [allocateIP]. *)
Definition allocateIP_body (d : Driver) (ip : netip.Addr) : netip.Addr + alloc_exit :=
  if netip.PrefixIsValid (subnet d) && negb (netip.Contains (subnet d) ip) then
    inr (AllocError (ErrOutsideSubnet (netip.String ip)))
  else if netip.IsValid (gatewayIP d) && bool_decide (ip = gatewayIP d) then
    if bool_decide (ip = ipPoolEnd d) then inr AllocBreak
    else
      let next := netip.Next ip in
      if negb (netip.IsValid next) then inr AllocBreak else inl next
  else
    let ipStr := netip.String ip in
    if negb (isAllocated d ipStr) then inr (AllocReturn ipStr)
    else if bool_decide (ip = ipPoolEnd d) then inr AllocBreak
    else
      let next := netip.Next ip in
      if negb (netip.IsValid next) then inr AllocBreak else inl next.

(** The scan moves to the following address in every iteration, so it
    runs at most once per address from the pool start to the last IPv4
    address. *)
Definition remaining (a : netip.Addr) : positive :=
  match a with
  | netip.IPv4 v => Z.to_pos (2 ^ 32 - v)
  | netip.AddrZero => 1
  end.

Definition allocateIP_loop (d : Driver) : netip.Addr + alloc_exit :=
  iter_pos (allocateIP_body d) (remaining (ipPoolStart d)) (ipPoolStart d).

Definition allocateIP (d : Driver) : Driver * (string + error) :=
  if negb (netip.IsValid (ipPoolStart d)) || negb (netip.IsValid (ipPoolEnd d)) then
    (d, inr ErrPoolNotConfigured)
  else
    match allocateIP_loop d with
    | inr (AllocReturn ipStr) =>
        (set_allocatedIPs d (<[ipStr := true]> (allocatedIPs d)), inl ipStr)
    | inr (AllocError e) => (d, inr e)
    | inr AllocBreak =>
        (d, inr (ErrNoAvailableIPs (netip.String (ipPoolStart d))
                                   (netip.String (ipPoolEnd d))))
    | inl _ => (d, inr ErrLoopBound)
    end.

Definition deallocateIP (d : Driver) (ip : string) : Driver :=
  set_allocatedIPs d (delete ip (allocatedIPs d)).

End Allocator.

(** ** Driver start-up: parsing and validating the network block *)

Inductive config_error : Type :=
| CfgNoNetwork
| CfgNoBridge
| CfgNoSubnet
| CfgBadGateway
| CfgPoolUnset
| CfgPoolOutsideSubnet
| CfgPoolOrder
| CfgGatewayIsPoolStart.

Section Startup.
Context {VMC : Type}.
Local Abbreviation Driver := (Driver VMC).

Definition set_subnet (d : Driver) (p : netip.Prefix) : Driver :=
  MkDriver (networkConfig d) (vfioConfig d) (dataDir d) (processes d) (allocatedIPs d)
           (ipPoolStart d) (ipPoolEnd d) p (gatewayIP d).

Definition set_ipPoolStart (d : Driver) (a : netip.Addr) : Driver :=
  MkDriver (networkConfig d) (vfioConfig d) (dataDir d) (processes d) (allocatedIPs d)
           a (ipPoolEnd d) (subnet d) (gatewayIP d).

Definition set_ipPoolEnd (d : Driver) (a : netip.Addr) : Driver :=
  MkDriver (networkConfig d) (vfioConfig d) (dataDir d) (processes d) (allocatedIPs d)
           (ipPoolStart d) a (subnet d) (gatewayIP d).

Definition set_gatewayIP (d : Driver) (a : netip.Addr) : Driver :=
  MkDriver (networkConfig d) (vfioConfig d) (dataDir d) (processes d) (allocatedIPs d)
           (ipPoolStart d) (ipPoolEnd d) (subnet d) a.

(** [initializeNetworkConfig], first half: the four textual fields are
    parsed in turn; a field that is empty or fails to parse leaves its
    target at the zero value (a warning is logged). *)
Definition parseNetwork (nc : domain.Network) (d : Driver) : Driver :=
  let d :=
    if bool_decide (domain.SubnetCIDR nc ≠ "") then
      match netip.ParsePrefix (domain.SubnetCIDR nc) with
      | Some prefix => set_subnet d (netip.Masked prefix)
      | None => d
      end
    else d in
  let d :=
    if bool_decide (domain.IPPoolStart nc ≠ "") then
      match netip.ParseAddr (domain.IPPoolStart nc) with
      | Some addr => set_ipPoolStart d addr
      | None => d
      end
    else d in
  let d :=
    if bool_decide (domain.IPPoolEnd nc ≠ "") then
      match netip.ParseAddr (domain.IPPoolEnd nc) with
      | Some addr => set_ipPoolEnd d addr
      | None => d
      end
    else d in
  if bool_decide (domain.Gateway nc ≠ "") then
    match netip.ParseAddr (domain.Gateway nc) with
    | Some addr => set_gatewayIP d addr
    | None => d
    end
  else d.

(** Second half, run when the subnet is valid: the gateway defaults to
    the first address after the network address, and pool bounds outside
    the subnet are reset to the zero [Addr]. *)
Definition fitToSubnet (d : Driver) : Driver :=
  let d :=
    if negb (netip.IsValid (gatewayIP d)) then
      let next := netip.Next (netip.Addr_of (subnet d)) in
      if netip.IsValid next && netip.Contains (subnet d) next
      then set_gatewayIP d next else d
    else d in
  let d :=
    if netip.IsValid (ipPoolStart d) && negb (netip.Contains (subnet d) (ipPoolStart d))
    then set_ipPoolStart d netip.AddrZero else d in
  if netip.IsValid (ipPoolEnd d) && negb (netip.Contains (subnet d) (ipPoolEnd d))
  then set_ipPoolEnd d netip.AddrZero else d.

(** [initializeNetworkConfig] *)
Definition initializeNetworkConfig (d : Driver) : Driver :=
  match networkConfig d with
  | None => d
  | Some nc =>
      let d := parseNetwork nc d in
      if netip.PrefixIsValid (subnet d) then fitToSubnet d else d
  end.

(** [NewWithSkipValidation]: empty registry, empty allocation set, parsed
    network block. *)
Definition New (netConfig : option domain.Network) (vfio : option domain.VFIO)
    (dir : string) : Driver :=
  initializeNetworkConfig
    (MkDriver netConfig vfio dir ∅ ∅
              netip.AddrZero netip.AddrZero netip.PrefixZero netip.AddrZero).

(** [validateNetworkConfig]: [None] is Go's [nil] error. *)
Definition validateNetworkConfig (d : Driver) : option config_error :=
  match networkConfig d with
  | None => Some CfgNoNetwork
  | Some nc =>
      if bool_decide (domain.Bridge nc = "") then Some CfgNoBridge
      else if negb (netip.PrefixIsValid (subnet d)) then Some CfgNoSubnet
      else if negb (netip.IsValid (gatewayIP d)) || negb (netip.Contains (subnet d) (gatewayIP d))
      then Some CfgBadGateway
      else if negb (netip.IsValid (ipPoolStart d)) || negb (netip.IsValid (ipPoolEnd d))
      then Some CfgPoolUnset
      else if negb (netip.Contains (subnet d) (ipPoolStart d))
              || negb (netip.Contains (subnet d) (ipPoolEnd d))
      then Some CfgPoolOutsideSubnet
      else if netip.Compare (ipPoolEnd d) (ipPoolStart d) <? 0 then Some CfgPoolOrder
      else if bool_decide (gatewayIP d = ipPoolStart d) then Some CfgGatewayIsPoolStart
      else None
  end.

End Startup.

(** ** Derived per-VM network settings *)

Record networkSettings := MkSettings {
  address : string;
  gateway : string;
  cidrBits : Z;
  nameservers : list string;
  interfaceName : string
}.

Definition set_address (n : networkSettings) (a : string) : networkSettings :=
  MkSettings a (gateway n) (cidrBits n) (nameservers n) (interfaceName n).

Definition set_gateway (n : networkSettings) (g : string) : networkSettings :=
  MkSettings (address n) g (cidrBits n) (nameservers n) (interfaceName n).

Definition set_cidrBits (n : networkSettings) (b : Z) : networkSettings :=
  MkSettings (address n) (gateway n) b (nameservers n) (interfaceName n).

Definition set_nameservers (n : networkSettings) (l : list string) : networkSettings :=
  MkSettings (address n) (gateway n) (cidrBits n) l (interfaceName n).

Section Derive.
Context {VMC Other : Type}.
Local Abbreviation Driver := (Driver VMC).
Local Abbreviation VMProcess := (VMProcess VMC).

(** The blocks of [deriveNetworkSettings], in source order.  First the
    address the VMM process record carries. *)
Definition fromProc (proc : option VMProcess) (settings : networkSettings)
    : networkSettings :=
  match proc with
  | Some p => if bool_decide (IP p ≠ "") then set_address settings (IP p) else settings
  | None => settings
  end.

(** The driver-wide prefix length and gateway. *)
Definition fromDriver (d : Driver) (settings : networkSettings) : networkSettings :=
  let settings :=
    if netip.PrefixIsValid (subnet d)
    then set_cidrBits settings (netip.Bits (subnet d)) else settings in
  if netip.IsValid (gatewayIP d) then set_gateway settings (netip.String (gatewayIP d))
  else
    match networkConfig d with
    | Some nc =>
        if bool_decide (domain.Gateway nc ≠ "")
        then set_gateway settings (domain.Gateway nc) else settings
    | None => settings
    end.

(** The overrides of the task's bridge block. *)
Definition fromBridge (bridge : domain.NetworkInterfaceBridgeConfig)
    (settings : networkSettings) : networkSettings :=
  let settings :=
    if bool_decide (domain.StaticIP bridge ≠ "")
    then set_address settings (domain.StaticIP bridge) else settings in
  let settings :=
    if bool_decide (domain.BridgeGateway bridge ≠ "")
    then set_gateway settings (domain.BridgeGateway bridge) else settings in
  let settings :=
    if bool_decide (domain.Netmask bridge ≠ "") then
      match strconv.Atoi (domain.Netmask bridge) with
      | Some bits =>
          if (0 <=? bits) && (bits <=? 32)
          then set_cidrBits settings bits else settings
      | None => settings
      end
    else settings in
  match domain.DNS bridge with
  | [] => settings
  | dns => set_nameservers settings dns
  end.

(** [deriveNetworkSettings]; [config] and [proc] are pointers and may be
    nil.  The assignments are applied in source order, so a later one
    overrides an earlier one. *)
Definition deriveNetworkSettings (d : Driver) (config : option (domain.Config Other))
    (proc : option VMProcess) : networkSettings * bool :=
  let settings := MkSettings "" "" (-1) ["8.8.8.8"; "8.8.4.4"] "eth0" in
  let settings := fromProc proc settings in
  let settings := fromDriver d settings in
  let settings :=
    match config with
    | Some cfg =>
        match domain.NetworkInterfaces cfg with
        | iface :: _ =>
            match domain.IfBridge iface with
            | Some bridge => fromBridge bridge settings
            | None => settings
            end
        | [] => settings
        end
    | None => settings
    end in
  let settings :=
    if cidrBits settings <? 0 then set_cidrBits settings 24 else settings in
  if bool_decide (address settings = "") then (settings, false) else (settings, true).

End Derive.

(** ** Strings as rune sequences, and hexadecimal formatting *)

Module utf8.

Definition bytes (s : string) : list Z :=
  (λ c, Z.of_N (N_of_ascii c)) <$> String.list_ascii_of_string s.

Definition cont (b : Z) : bool := (128 <=? b) && (b <=? 191).

(** [decoderune] at a byte [b0 ≥ 0x80] followed by [rest]: the rune and
    its width; an ill-formed sequence yields U+FFFD and width 1. *)
Definition decoderune (b0 : Z) (rest : list Z) : Z * nat :=
  let bad := (65533, 1%nat) in
  if (192 <=? b0) && (b0 <? 224) then
    match rest with
    | b1 :: _ =>
        if cont b1 then
          let r := Z.lor (Z.shiftl (Z.land b0 31) 6) (Z.land b1 63) in
          if 127 <? r then (r, 2%nat) else bad
        else bad
    | _ => bad
    end
  else if (224 <=? b0) && (b0 <? 240) then
    match rest with
    | b1 :: b2 :: _ =>
        if cont b1 && cont b2 then
          let r := Z.lor (Z.lor (Z.shiftl (Z.land b0 15) 12) (Z.shiftl (Z.land b1 63) 6))
                         (Z.land b2 63) in
          if (2047 <? r) && negb ((55296 <=? r) && (r <=? 57343)) then (r, 3%nat) else bad
        else bad
    | _ => bad
    end
  else if (240 <=? b0) && (b0 <? 248) then
    match rest with
    | b1 :: b2 :: b3 :: _ =>
        if cont b1 && cont b2 && cont b3 then
          let r := Z.lor (Z.lor (Z.lor (Z.shiftl (Z.land b0 7) 18) (Z.shiftl (Z.land b1 63) 12))
                                (Z.shiftl (Z.land b2 63) 6)) (Z.land b3 63) in
          if (65535 <? r) && (r <=? 1114111) then (r, 4%nat) else bad
        else bad
    | _ => bad
    end
  else bad.

(** The runes a [for _, c := range s] loop yields.  [skip] counts the
    bytes already consumed by the rune decoded last. *)
Fixpoint range_go (skip : nat) (s : list Z) : list Z :=
  match s with
  | [] => []
  | b0 :: rest =>
      match skip with
      | S k => range_go k rest
      | O =>
          if b0 <? 128 then b0 :: range_go 0 rest
          else
            let '(r, width) := decoderune b0 rest in
            r :: range_go (width - 1) rest
      end
  end.

Definition range (s : string) : list Z := range_go 0 (bytes s).

End utf8.

Module fmt.

Definition hexdigit (n : Z) : ascii :=
  if n <? 10 then ascii_of_N (48 + Z.to_N n) else ascii_of_N (87 + Z.to_N n).

(** [%02x] of a byte. *)
Definition hex02 (b : Z) : string :=
  String (hexdigit (b / 16)) (String (hexdigit (b mod 16)) EmptyString).

(** [%x] of a byte array. *)
Definition hexbytes (l : list Z) : string :=
  foldr (λ b acc, hex02 b +:+ acc) EmptyString l.

End fmt.

(** Go's [int] on the 64-bit targets the driver is built for. *)
Definition wrap_int (z : Z) : Z := (z + 2 ^ 63) mod 2 ^ 64 - 2 ^ 63.

(** The [byte(x)] conversion. *)
Definition to_byte (z : Z) : Z := z mod 256.

(** [Driver.generateMAC] *)
Definition generateMAC (vmName : string) : string :=
  let hash := fold_left (λ hash c, wrap_int (hash * 31 + c)) (utf8.range vmName) 0 in
  "52:54:00:" +:+ fmt.hex02 (to_byte (Z.shiftr hash 16)) +:+ ":" +:+
  fmt.hex02 (to_byte (Z.shiftr hash 8)) +:+ ":" +:+ fmt.hex02 (to_byte hash).

(** ** Standard library pieces used by the lifecycle *)

Module gostr.

(** [sort.Strings]: byte-wise lexicographic order. *)
Fixpoint insert_sorted (x : string) (l : list string) : list string :=
  match l with
  | [] => [x]
  | y :: l' => if String.leb x y then x :: l else y :: insert_sorted x l'
  end.

Definition Sort (l : list string) : list string := foldr insert_sorted [] l.

(** [strings.Join] *)
Fixpoint Join (l : list string) (sep : string) : string :=
  match l with
  | [] => EmptyString
  | [x] => x
  | x :: l' => x +:+ sep +:+ Join l' sep
  end.

End gostr.

Module itoa.

Fixpoint go (fuel : nat) (n : Z) (acc : string) : string :=
  match fuel with
  | O => acc
  | S fuel' =>
      let acc := String (ascii_of_N (48 + Z.to_N (n mod 10))) acc in
      if n <? 10 then acc else go fuel' (n / 10) acc
  end.

(** [%d] of a 64-bit integer (at most 19 digits). *)
Definition FormatInt (n : Z) : string :=
  if n <? 0 then String "-"%char (go 20 (- n) EmptyString) else go 20 n EmptyString.

End itoa.

Module base64.

Definition alphabet : string :=
  "ABCDEFGHIJKLMNOPQRSTUVWXYZabcdefghijklmnopqrstuvwxyz0123456789+/".

Definition enc (n : Z) : ascii :=
  default "="%char (String.get (Z.to_nat n) alphabet).

(** [base64.StdEncoding.EncodeToString] *)
Fixpoint encode (l : list Z) : string :=
  match l with
  | a :: b :: c :: rest =>
      String (enc (a / 4))
        (String (enc (a mod 4 * 16 + b / 16))
           (String (enc (b mod 16 * 4 + c / 64))
              (String (enc (c mod 64)) (encode rest))))
  | [a; b] =>
      String (enc (a / 4))
        (String (enc (a mod 4 * 16 + b / 16))
           (String (enc (b mod 16 * 4)) (String "="%char EmptyString)))
  | [a] =>
      String (enc (a / 4))
        (String (enc (a mod 4 * 16)) (String "="%char (String "="%char EmptyString)))
  | [] => EmptyString
  end.

End base64.

Module sha256.

Definition add32 (a b : Z) : Z := (a + b) mod 2 ^ 32.

Definition rotr (n x : Z) : Z :=
  Z.lor (Z.shiftr x n) (Z.shiftl x (32 - n) mod 2 ^ 32).

Definition not32 (x : Z) : Z := 2 ^ 32 - 1 - x.

Definition K : list Z :=
  [
   1116352408; 1899447441; 3049323471; 3921009573; 961987163; 1508970993;
   2453635748; 2870763221; 3624381080; 310598401; 607225278; 1426881987;
   1925078388; 2162078206; 2614888103; 3248222580; 3835390401; 4022224774;
   264347078; 604807628; 770255983; 1249150122; 1555081692; 1996064986;
   2554220882; 2821834349; 2952996808; 3210313671; 3336571891; 3584528711;
   113926993; 338241895; 666307205; 773529912; 1294757372; 1396182291;
   1695183700; 1986661051; 2177026350; 2456956037; 2730485921; 2820302411;
   3259730800; 3345764771; 3516065817; 3600352804; 4094571909; 275423344;
   430227734; 506948616; 659060556; 883997877; 958139571; 1322822218;
   1537002063; 1747873779; 1955562222; 2024104815; 2227730452; 2361852424;
   2428436474; 2756734187; 3204031479; 3329325298].

Definition H0 : list Z :=
  [
   1779033703; 3144134277; 1013904242; 2773480762;
   1359893119; 2600822924; 528734635; 1541459225].

Fixpoint be_words (bs : list Z) : list Z :=
  match bs with
  | a :: b :: c :: d :: rest =>
      (a * 2 ^ 24 + b * 2 ^ 16 + c * 2 ^ 8 + d) :: be_words rest
  | _ => []
  end.

Definition be_bytes (w : Z) : list Z :=
  [w / 2 ^ 24 mod 256; w / 2 ^ 16 mod 256; w / 2 ^ 8 mod 256; w mod 256].

Definition sigma0 (x : Z) : Z := Z.lxor (Z.lxor (rotr 7 x) (rotr 18 x)) (Z.shiftr x 3).
Definition sigma1 (x : Z) : Z := Z.lxor (Z.lxor (rotr 17 x) (rotr 19 x)) (Z.shiftr x 10).
Definition Sigma0 (x : Z) : Z := Z.lxor (Z.lxor (rotr 2 x) (rotr 13 x)) (rotr 22 x).
Definition Sigma1 (x : Z) : Z := Z.lxor (Z.lxor (rotr 6 x) (rotr 11 x)) (rotr 25 x).
Definition Ch (e f g : Z) : Z := Z.lxor (Z.land e f) (Z.land (not32 e) g).
Definition Maj (a b c : Z) : Z := Z.lxor (Z.lxor (Z.land a b) (Z.land a c)) (Z.land b c).

Definition at_ (w : list Z) (i : nat) : Z := default 0 (w !! i).

(** The message schedule: 16 words extended to 64. *)
Fixpoint schedule (n : nat) (w : list Z) : list Z :=
  match n with
  | O => w
  | S n' =>
      let i := length w in
      schedule n'
        (w ++ [add32 (add32 (sigma1 (at_ w (i - 2))) (at_ w (i - 7)))
                     (add32 (sigma0 (at_ w (i - 15))) (at_ w (i - 16)))])
  end.

Definition round (st : list Z) (kw : Z * Z) : list Z :=
  match st with
  | [a; b; c; d; e; f; g; h] =>
      let t1 := add32 (add32 (add32 h (Sigma1 e)) (add32 (Ch e f g) (fst kw))) (snd kw) in
      let t2 := add32 (Sigma0 a) (Maj a b c) in
      [add32 t1 t2; a; b; c; add32 d t1; e; f; g]
  | _ => st
  end.

Definition block (h : list Z) (chunk : list Z) : list Z :=
  let w := schedule 48 (be_words chunk) in
  zip_with add32 h (fold_left round (zip K w) h).

Fixpoint blocks (fuel : nat) (h : list Z) (msg : list Z) : list Z :=
  match fuel, msg with
  | S fuel', _ :: _ => blocks fuel' (block h (take 64 msg)) (drop 64 msg)
  | _, _ => h
  end.

Definition pad (msg : list Z) : list Z :=
  let len := Z.of_nat (length msg) in
  let zeros := Z.to_nat ((55 - len) mod 64) in
  msg ++ [128] ++ replicate zeros 0 ++
  be_bytes (len * 8 / 2 ^ 32 mod 2 ^ 32) ++ be_bytes (len * 8 mod 2 ^ 32).

(** [sha256.Sum256]: the 32-byte digest. *)
Definition Sum256 (msg : list Z) : list Z :=
  let m := pad msg in
  mjoin (be_bytes <$> blocks (length m) H0 m).

End sha256.

(** ** The VMM configuration and the host *)

Record PlatformConfig := MkPlatform {
  NumPCISegments : Z;
  IOMMUSegments : list Z;
  PlatformIOMMUAddressWidth : Z
}.

Record DeviceConfig := MkDevice {
  DevicePath : string;
  ID : string;
  IOMMU : bool;
  PCISegment : Z
}.

(** [VMConfig]: the platform section and the passthrough list are the
    parts the driver edits after assembly; [Payload] stands for the CPU,
    memory, boot, disk, network, RNG, vsock, filesystem, console and
    serial sections. *)
Record VMConfig {Payload : Type} := MkVMConfig {
  Platform : option PlatformConfig;
  Devices : list DeviceConfig;
  VMPayload : Payload
}.
Arguments VMConfig : clear implicits.
Arguments MkVMConfig {Payload}.

(** What a call returns: Go's [nil] error, an error, or a run-time panic. *)
Inductive outcome : Type :=
| RetNil
| RetErr (e : error)
| Panic.

(** Modelled from the spec: the driver methods [createCloudInit],
    [setupNetworking], [startVirtiofsd], [buildVMConfig], [startCHProcess],
    [createAndBootVM], [shutdownVM], [cleanupNetworking], [stopVirtiofsd]
    and [cleanupProcess] and the VFIO manager live in source files that
    are not part of the tree.  Following sections 3 and 4.3 of the
    specification they act on host resources (guest volume, TAP
    interface, helper daemons, the VMM process and its control channel,
    device bindings) and fill in the process id and the helper-process
    ids of the [VMProcess]; the registry and the allocation set are
    touched by the lifecycle functions alone.  [World] is the state of the
    host; a [bool] result is [true] when the step returned an error.
    [os.MkdirAll], [os.FindProcess]/[Kill], [time.Now] and [filepath.Join]
    are the standard library calls the lifecycle makes directly. *)
Class Host (World Payload Other : Type) := {
  filepath_Join : string → string → string;
  os_MkdirAll : World → string → World * bool;
  os_Kill : World → Z → World;
  time_Now : World → World * Z;
  createCloudInit :
    World → domain.Config Other → VMProcess (VMConfig Payload) → string → World * bool;
  setupNetworking :
    World → domain.Config Other → VMProcess (VMConfig Payload) → World * bool;
  startVirtiofsd :
    World → domain.Config Other → VMProcess (VMConfig Payload) → World * list Z * bool;
  buildVMConfig :
    World → domain.Config Other → VMProcess (VMConfig Payload) → World * option (VMConfig Payload);
  startCHProcess : World → VMProcess (VMConfig Payload) → World * Z * bool;
  createAndBootVM : World → VMProcess (VMConfig Payload) → World * bool;
  shutdownVM : World → VMProcess (VMConfig Payload) → World * bool;
  cleanupNetworking :
    World → option (domain.Config Other) → VMProcess (VMConfig Payload) → World;
  stopVirtiofsd : World → VMProcess (VMConfig Payload) → World;
  cleanupProcess :
    World → option (domain.Config Other) → VMProcess (VMConfig Payload) → World;
  vfio_ValidateDevices : World → list string → list string → World * bool;
  vfio_CheckIOMMUGroups : World → list string → World * bool;
  vfio_BindDevices : World → list string → World * bool;
  vfio_GetVFIOGroupPaths : World → list string → World * option (list string);
  vfio_UnbindDevices : World → list string → World
}.

(** ** The environment hand-off file *)

Definition envFilePath : string := "/etc/profile.d/virt.sh".
Definition envFilePerms : string := "777".
Definition newline : string := String (ascii_of_N 10) EmptyString.

Definition envFileFromMap (env : gmap string string) : option domain.File :=
  if bool_decide (env = ∅) then None
  else
    let keys := gostr.Sort (fst <$> map_to_list env) in
    let lines := (λ k, "export " +:+ k +:+ "=" +:+ default "" (env !! k)) <$> keys in
    let encoded := base64.encode (utf8.bytes (gostr.Join lines newline)) in
    Some (domain.MkFile envFilePath envFilePerms "b64" encoded).

Fixpoint upsertFile (files : list domain.File) (file : domain.File) : list domain.File :=
  match files with
  | [] => [file]
  | f :: rest =>
      if bool_decide (domain.Path f = domain.Path file) then file :: rest
      else f :: upsertFile rest file
  end.

Definition cidrString (n : networkSettings) : string := itoa.FormatInt (cidrBits n).

Definition settingsEnv (env : gmap string string) (settings : networkSettings)
    : gmap string string :=
  let env := <["VM_IP" := address settings]> env in
  let env := <["VM_CIDR" := cidrString settings]> env in
  let env :=
    if bool_decide (gateway settings ≠ "")
    then <["VM_GATEWAY" := gateway settings]> env else delete "VM_GATEWAY" env in
  match nameservers settings with
  | [] => delete "VM_DNS" env
  | ns => <["VM_DNS" := gostr.Join ns " "]> env
  end.

(** ** VM lifecycle: [CreateDomain], [StopDomain], [DestroyDomain] *)

Section Lifecycle.
Context {World Payload Other : Type} `{!Host World Payload Other}.
Local Abbreviation VMConfig := (VMConfig Payload).
Local Abbreviation VMProcess := (VMProcess VMConfig).
Local Abbreviation Driver := (Driver VMConfig).
Local Abbreviation DConfig := (domain.Config Other).

Definition set_IP (p : VMProcess) (ip : string) : VMProcess :=
  MkProc (Name p) (Pid p) (APISocket p) (LogFile p) (WorkDir p) (TapName p) (MAC p)
         ip (VirtiofsdPIDs p) (Config p) (StartedAt p).

Definition set_MAC (p : VMProcess) (mac : string) : VMProcess :=
  MkProc (Name p) (Pid p) (APISocket p) (LogFile p) (WorkDir p) (TapName p) mac
         (IP p) (VirtiofsdPIDs p) (Config p) (StartedAt p).

Definition set_TapName (p : VMProcess) (tap : string) : VMProcess :=
  MkProc (Name p) (Pid p) (APISocket p) (LogFile p) (WorkDir p) tap (MAC p)
         (IP p) (VirtiofsdPIDs p) (Config p) (StartedAt p).

Definition set_VirtiofsdPIDs (p : VMProcess) (pids : list Z) : VMProcess :=
  MkProc (Name p) (Pid p) (APISocket p) (LogFile p) (WorkDir p) (TapName p) (MAC p)
         (IP p) pids (Config p) (StartedAt p).

Definition set_Config (p : VMProcess) (c : VMConfig) : VMProcess :=
  MkProc (Name p) (Pid p) (APISocket p) (LogFile p) (WorkDir p) (TapName p) (MAC p)
         (IP p) (VirtiofsdPIDs p) (Some c) (StartedAt p).

Definition set_Pid (p : VMProcess) (pid : Z) : VMProcess :=
  MkProc (Name p) pid (APISocket p) (LogFile p) (WorkDir p) (TapName p) (MAC p)
         (IP p) (VirtiofsdPIDs p) (Config p) (StartedAt p).

Definition set_Files (c : DConfig) (files : list domain.File) : DConfig :=
  domain.MkConfig (domain.ConfigName c) (domain.NetworkInterfaces c)
                  (domain.VFIODevices c) files (domain.ConfigOther c).

(** The task-supplied static IP, when the first interface has a bridge
    block with a non-empty [StaticIP]. *)
Definition staticIP (config : DConfig) : option string :=
  match domain.NetworkInterfaces config with
  | iface :: _ =>
      match domain.IfBridge iface with
      | Some bridge =>
          if bool_decide (domain.StaticIP bridge ≠ "")
          then Some (domain.StaticIP bridge) else None
      | None => None
      end
  | [] => None
  end.

(** The address step of [CreateDomain]: the static IP if one is given,
    an address from the pool otherwise. *)
Definition takeIP (d : Driver) (config : DConfig) : Driver * (string + error) :=
  match staticIP config with
  | Some ip =>
      if netip.PrefixIsValid (subnet d)
         && match netip.ParseAddr ip with
            | Some addr => negb (netip.Contains (subnet d) addr)
            | None => false
            end
      then (d, inr (ErrStaticOutsideSubnet ip))
      else if isAllocated d ip then (d, inr (ErrStaticAllocated ip))
      else (set_allocatedIPs d (<[ip := true]> (allocatedIPs d)), inl ip)
  | None =>
      match allocateIP d with
      | (d', inl ip) => (d', inl ip)
      | (d', inr e) => (d', inr (ErrAllocateIP e))
      end
  end.

(** The TAP interface name: prefix and the first eight hexadecimal digits
    of the SHA-256 of name and launch time. *)
Definition tapName (tapPrefix name : string) (nanos : Z) : string :=
  let uniqueStr := name +:+ "-" +:+ itoa.FormatInt nanos in
  let nameHash :=
    String.substring 0 8 (fmt.hexbytes (sha256.Sum256 (utf8.bytes uniqueStr))) in
  tapPrefix +:+ nameHash.

Definition vfioDeviceConfigs (groupPaths : list string) : list DeviceConfig :=
  imap (λ i groupPath,
          MkDevice groupPath ("vfio-" +:+ itoa.FormatInt (Z.of_nat i)) true 0)
       groupPaths.

(** [addVFIODevices]: validate, check groups, bind, resolve group paths
    (unbinding if that fails), then complete the platform section and
    append one passthrough entry per group path. *)
Definition addVFIODevices (w : World) (d : Driver) (config : DConfig) (vmConfig : VMConfig)
    : World * VMConfig * bool :=
  let vfioDevices := domain.VFIODevices config in
  match vfioDevices with
  | [] => (w, vmConfig, false)
  | _ =>
      let allowlist :=
        match vfioConfig d with
        | Some v => domain.Allowlist v
        | None => []
        end in
      let '(w, failed) := vfio_ValidateDevices w vfioDevices allowlist in
      if failed then (w, vmConfig, true) else
      let '(w, failed) := vfio_CheckIOMMUGroups w vfioDevices in
      if failed then (w, vmConfig, true) else
      let '(w, failed) := vfio_BindDevices w vfioDevices in
      if failed then (w, vmConfig, true) else
      let '(w, paths) := vfio_GetVFIOGroupPaths w vfioDevices in
      match paths with
      | None => (vfio_UnbindDevices w vfioDevices, vmConfig, true)
      | Some groupPaths =>
          let platform := default (MkPlatform 0 [] 0) (Platform vmConfig) in
          let segs :=
            if NumPCISegments platform =? 0 then
              match vfioConfig d with
              | Some v => if 0 <? domain.PCISegments v then domain.PCISegments v else 1
              | None => 1
              end
            else NumPCISegments platform in
          let width :=
            if PlatformIOMMUAddressWidth platform =? 0 then
              match vfioConfig d with
              | Some v =>
                  if 0 <? domain.IOMMUAddressWidth v then domain.IOMMUAddressWidth v else 48
              | None => 48
              end
            else PlatformIOMMUAddressWidth platform in
          let iommuSegs :=
            match IOMMUSegments platform with
            | [] => [0]
            | l => l
            end in
          (w,
           MkVMConfig (Some (MkPlatform segs iommuSegs width))
                      (Devices vmConfig ++ vfioDeviceConfigs groupPaths)
                      (VMPayload vmConfig),
           false)
      end
  end.

(** [CreateDomain].  The lock is held for the whole call, so the call is
    one transition of the pair of host state and driver state. *)
Definition CreateDomain (w : World) (d : Driver) (config : DConfig)
    (env : gmap string string) : World * Driver * outcome :=
  let name := domain.ConfigName config in
  if bool_decide (is_Some (processes d !! name)) then (w, d, RetErr (ErrAlreadyExists name))
  else
  let workDir := filepath_Join (dataDir d) name in
  let '(w, failed) := os_MkdirAll w workDir in
  if failed then (w, d, RetErr ErrWorkDir) else
  let '(w, startedAt) := time_Now w in
  let proc :=
    MkProc name 0 (filepath_Join workDir "api.sock") (filepath_Join workDir "vmm.log")
           workDir "" "" "" [] None startedAt in
  match takeIP d config with
  | (d, inr e) => (w, d, RetErr e)
  | (d, inl ip) =>
  let proc := set_IP proc ip in
  let env :=
    match deriveNetworkSettings d (Some config) (Some proc) with
    | (settings, true) => settingsEnv env settings
    | (_, false) => env
    end in
  let config :=
    match envFileFromMap env with
    | Some file => set_Files config (upsertFile (domain.Files config) file)
    | None => config
    end in
  let proc := set_MAC proc (generateMAC name) in
  let '(w, nanos) := time_Now w in
  match networkConfig d with
  | None => (w, d, Panic)
  | Some nc =>
  let proc := set_TapName proc (tapName (domain.TAPPrefix nc) name nanos) in
  let '(w, failed) := createCloudInit w config proc workDir in
  if failed then (w, deallocateIP d ip, RetErr ErrCloudInit) else
  let '(w, failed) := setupNetworking w config proc in
  if failed then (w, deallocateIP d ip, RetErr ErrNetworking) else
  let '(w, pids, failed) := startVirtiofsd w config proc in
  let proc := set_VirtiofsdPIDs proc pids in
  if failed then
    let d := deallocateIP d ip in
    let w := cleanupNetworking w (Some config) proc in
    let w := cleanupProcess w (Some config) proc in
    (w, d, RetErr ErrVirtiofsd)
  else
  let '(w, built) := buildVMConfig w config proc in
  match built with
  | None =>
      let d := deallocateIP d ip in
      let w := cleanupNetworking w (Some config) proc in
      let w := stopVirtiofsd w proc in
      let w := cleanupProcess w (Some config) proc in
      (w, d, RetErr ErrBuildVMConfig)
  | Some vmConfig =>
  let '(w, vmConfig, failed) := addVFIODevices w d config vmConfig in
  if failed then
    let d := deallocateIP d ip in
    let w := cleanupNetworking w (Some config) proc in
    let w := stopVirtiofsd w proc in
    (w, d, RetErr ErrVFIO)
  else
  let proc := set_Config proc vmConfig in
  let '(w, pid, failed) := startCHProcess w proc in
  let proc := set_Pid proc pid in
  if failed then
    let d := deallocateIP d ip in
    let w := cleanupNetworking w (Some config) proc in
    let w := stopVirtiofsd w proc in
    let w := cleanupProcess w (Some config) proc in
    (w, d, RetErr ErrStartCH)
  else
  let '(w, failed) := createAndBootVM w proc in
  if failed then
    let w := cleanupProcess w (Some config) proc in
    let d := deallocateIP d ip in
    (w, d, RetErr ErrBoot)
  else
  (w, set_processes d (<[name := proc]> (processes d)), RetNil)
  end
  end
  end.

(** [StopDomain]: graceful shutdown, a kill if that fails. *)
Definition StopDomain (w : World) (d : Driver) (name : string) : World * Driver * outcome :=
  match processes d !! name with
  | None => (w, d, RetErr (ErrNotFound name))
  | Some proc =>
      let '(w, failed) := shutdownVM w proc in
      let w :=
        if failed then (if 0 <? Pid proc then os_Kill w (Pid proc) else w) else w in
      (w, d, RetNil)
  end.

(** [DestroyDomain]: shutdown, cleanup, release of the address, removal
    from the registry. *)
Definition DestroyDomain (w : World) (d : Driver) (name : string) : World * Driver * outcome :=
  match processes d !! name with
  | None => (w, d, RetErr (ErrNotFound name))
  | Some proc =>
      let '(w, _) := shutdownVM w proc in
      let w := cleanupProcess w None proc in
      let d := deallocateIP d (IP proc) in
      let d := set_processes d (delete name (processes d)) in
      (w, d, RetNil)
  end.

(** A sequence of lifecycle calls. *)
Inductive op : Type :=
| OpCreate (config : DConfig) (env : gmap string string)
| OpStop (name : string)
| OpDestroy (name : string).

Definition step (s : World * Driver) (o : op) : World * Driver :=
  match o with
  | OpCreate config env => fst (CreateDomain s.1 s.2 config env)
  | OpStop name => fst (StopDomain s.1 s.2 name)
  | OpDestroy name => fst (DestroyDomain s.1 s.2 name)
  end.

Definition run (s : World * Driver) (ops : list op) : World * Driver :=
  fold_left step ops s.

End Lifecycle.

(** What a call comes to: a value, an error, or a run-time panic. *)
Inductive result (A E : Type) : Type :=
| Done (a : A)
| Failed (e : E)
| Panics.
Arguments Done {A E}.
Arguments Failed {A E}.
Arguments Panics {A E}.

(** ** The host packet filter, after [go-iptables] *)

Module iptables.

(** A rule as the driver records it: table, chain and argument list. *)
Record rule := MkRule {
  table : string;
  chain : string;
  rulespec : list string
}.

#[global] Instance rule_eq_dec : EqDecision rule.
Proof. solve_decision. Defined.

(** The packet filter of a host: whether the tool is installed
    ([iptables.New] succeeds), the tables the kernel offers, and the rules
    in place.  A chain may hold the same rule several times, so the
    rules are a list.  The tool fails on a rule of a table the kernel
    does not offer; a rule that is merely absent is reported as absent
    (exit status 1), which [Exists] turns into [false] without error.
    The rules looked up and deleted are rules the tool can parse: the
    driver records a rule only after the tool has accepted it. *)
Record IPTables := MkIPTables {
  installed : bool;
  tables : list string;
  rules : list rule
}.

Inductive ipt_error : Type :=
| ErrTable (t : string)
| ErrNoSuchRule (r : rule).

Definition Exists (h : IPTables) (r : rule) : bool * option ipt_error :=
  if bool_decide (table r ∈ tables h)
  then (bool_decide (r ∈ rules h), None)
  else (false, Some (ErrTable (table r))).

Fixpoint remove_first (r : rule) (l : list rule) : list rule :=
  match l with
  | [] => []
  | x :: l' => if bool_decide (x = r) then l' else x :: remove_first r l'
  end.

Definition Delete (h : IPTables) (r : rule) : IPTables * option ipt_error :=
  if bool_decide (table r ∈ tables h) then
    if bool_decide (r ∈ rules h)
    then (MkIPTables (installed h) (tables h) (remove_first r (rules h)), None)
    else (h, Some (ErrNoSuchRule r))
  else (h, Some (ErrTable (table r))).

(** [DeleteIfExists]: check, and delete only when the check succeeded and
    found the rule; the error of whichever ran last is returned. *)
Definition DeleteIfExists (h : IPTables) (r : rule) : IPTables * option ipt_error :=
  match Exists h r with
  | (true, None) => Delete h r
  | (_, err) => (h, err)
  end.

(** *** Chains

    The calls below also depend on the chains of a table and on what
    the tool makes of the arguments of a rule.  [Firewall] adds both to
    the host: the pairs of table and chain that exist, built-in chains
    included, and the rules the tool accepts, that is, those whose
    arguments (options, addresses, ports) it can parse.  Adding a rule
    fails on arguments the tool rejects (exit status 2, before the
    kernel is asked), on a table the kernel does not offer and on a
    chain that does not exist; creating a chain that exists already
    fails with exit status 1. *)
Record Firewall := MkFirewall {
  ipt : IPTables;
  chains : list (string * string);
  accepts : rule → bool
}.

Inductive chain_error : Type :=
| ErrNoTable (t : string)
| ErrChainExists (t c : string)
| ErrNoChain (t c : string)
| ErrPosition (pos : Z)
| ErrBadRule (r : rule).

(** [Error.ExitStatus] of the tool. *)
Definition ExitStatus (e : chain_error) : Z :=
  match e with
  | ErrNoTable _ => 3
  | ErrChainExists _ _ => 1
  | ErrNoChain _ _ => 1
  | ErrPosition _ => 2
  | ErrBadRule _ => 2
  end.

Definition set_rules (h : Firewall) (l : list rule) : Firewall :=
  MkFirewall (MkIPTables (installed (ipt h)) (tables (ipt h)) l) (chains h) (accepts h).

(** [ListChains]: the chains of a table, in the order the host lists
    them. *)
Definition ListChains (h : Firewall) (t : string) : option (list string) :=
  if bool_decide (t ∈ tables (ipt h))
  then Some (snd <$> filter (λ tc, tc.1 = t) (chains h))
  else None.

(** [NewChain] *)
Definition NewChain (h : Firewall) (t c : string) : Firewall * option chain_error :=
  if negb (bool_decide (t ∈ tables (ipt h))) then (h, Some (ErrNoTable t))
  else if bool_decide ((t, c) ∈ chains h) then (h, Some (ErrChainExists t c))
  else (MkFirewall (ipt h) (chains h ++ [(t, c)]) (accepts h), None).

(** Where the rule that becomes number [pos] of its chain goes in the
    list of all rules. *)
Fixpoint insert_at (r : rule) (pos : nat) (l : list rule) : option (list rule) :=
  match pos with
  | O => None
  | S O => Some (r :: l)
  | S (S p as pos') =>
      match l with
      | [] => None
      | x :: l' =>
          if bool_decide (table x = table r ∧ chain x = chain r)
          then cons x <$> insert_at r pos' l'
          else cons x <$> insert_at r pos l'
      end
  end.

(** [Insert]: the rule becomes number [pos] (counted from 1) of its
    chain. *)
Definition Insert (h : Firewall) (t c : string) (pos : Z) (rulespec : list string)
    : Firewall * option chain_error :=
  if negb (accepts h (MkRule t c rulespec)) then (h, Some (ErrBadRule (MkRule t c rulespec)))
  else if negb (bool_decide (t ∈ tables (ipt h))) then (h, Some (ErrNoTable t))
  else if negb (bool_decide ((t, c) ∈ chains h)) then (h, Some (ErrNoChain t c))
  else
    match insert_at (MkRule t c rulespec) (Z.to_nat pos) (rules (ipt h)) with
    | Some l => (set_rules h l, None)
    | None => (h, Some (ErrPosition pos))
    end.

(** [Append]: the rule becomes the last one of its chain. *)
Definition Append (h : Firewall) (t c : string) (rulespec : list string)
    : Firewall * option chain_error :=
  if negb (accepts h (MkRule t c rulespec)) then (h, Some (ErrBadRule (MkRule t c rulespec)))
  else if negb (bool_decide (t ∈ tables (ipt h))) then (h, Some (ErrNoTable t))
  else if negb (bool_decide ((t, c) ∈ chains h)) then (h, Some (ErrNoChain t c))
  else (set_rules h (rules (ipt h) ++ [MkRule t c rulespec]), None).

End iptables.

(** ** The network controller ([chnet]) *)

Module chnet.

Record TeardownSpec := MkTeardownSpec {
  IPTablesRules : list (list string);
  DHCPReservation : string;
  Network : string
}.

(** [VMTerminatedTeardownRequest]; [TeardownSpec] is a pointer. *)
Record VMTerminatedTeardownRequest := MkTeardownRequest {
  Spec : option TeardownSpec
}.

(** A failed deletion, with the table and chain it was reported for. *)
Record teardown_error := MkTeardownError {
  err_table : string;
  err_chain : string;
  err_cause : iptables.ipt_error
}.

(** What the call returns: the collected errors ([ErrorOrNil] is [nil]
    exactly when there are none), or a run-time panic on a recorded rule
    with fewer than two elements. *)
Inductive teardown_result : Type :=
| Returned (errors : list teardown_error)
| Panicked.

(** The loop over the recorded rules: errors are collected, never
    short-circuited. *)
Fixpoint teardownLoop (h : iptables.IPTables) (rules : list (list string))
    (errors : list teardown_error) : iptables.IPTables * teardown_result :=
  match rules with
  | [] => (h, Returned errors)
  | iptablesRule :: rest =>
      match iptablesRule with
      | t :: c :: args =>
          match iptables.DeleteIfExists h (iptables.MkRule t c args) with
          | (h', Some err) => teardownLoop h' rest (errors ++ [MkTeardownError t c err])
          | (h', None) => teardownLoop h' rest errors
          end
      | _ => (h, Panicked)
      end
  end.

(** [Controller.VMTerminatedTeardown] *)
Definition VMTerminatedTeardown (h : iptables.IPTables)
    (req : option VMTerminatedTeardownRequest) : iptables.IPTables * teardown_result :=
  match req with
  | None => (h, Returned [])
  | Some r =>
      match Spec r with
      | None => (h, Returned [])
      | Some spec =>
          if negb (iptables.installed h) then (h, Returned [])
          else teardownLoop h (IPTablesRules spec) []
      end
  end.

(** [Controller.generateDeterministicMAC] *)
Definition generateDeterministicMAC (domainName : string) : string :=
  let hash := fold_left (λ hash char, wrap_int (hash * 31 + char)) (utf8.range domainName) 0 in
  "52:54:00:" +:+ fmt.hex02 (to_byte (Z.shiftr hash 16)) +:+ ":" +:+
  fmt.hex02 (to_byte (Z.shiftr hash 8)) +:+ ":" +:+ fmt.hex02 (to_byte hash).

(** [ipv4ToUint32]; [None] is the panic of [As4] on the zero [Addr]. *)
Definition ipv4ToUint32 (addr : netip.Addr) : option Z :=
  match netip.As4 addr with
  | None => None
  | Some (b0, b1, b2, b3) =>
      Some (Z.lor (Z.lor (Z.lor (Z.shiftl b0 24 mod 2 ^ 32) (Z.shiftl b1 16 mod 2 ^ 32))
                         (Z.shiftl b2 8 mod 2 ^ 32)) b3)
  end.

(** [uint32ToIPv4] *)
Definition uint32ToIPv4 (val : Z) : netip.Addr :=
  netip.AddrFrom4 (to_byte (Z.shiftr val 24), to_byte (Z.shiftr val 16),
                   to_byte (Z.shiftr val 8), to_byte val).

(** *** Chain set-up and port forwarding *)

Definition preroutingIPTablesChainName : string := "NOMAD_CH_PRT".
Definition forwardIPTablesChainName : string := "NOMAD_CH_FW".
Definition iptablesNATTableName : string := "nat".
Definition iptablesFilterTableName : string := "filter".

(** [ensureIPTablesChain]: whether the chain was created, and the error.
    An error of exit status 1 from [NewChain] means the chain exists and
    is not reported. *)
Definition ensureIPTablesChain (h : iptables.Firewall) (table chain : string)
    : iptables.Firewall * bool * option iptables.chain_error :=
  match iptables.ListChains h table with
  | None => (h, false, Some (iptables.ErrNoTable table))
  | Some chains =>
      if bool_decide (chain ∈ chains) then (h, false, None)
      else
        match iptables.NewChain h table chain with
        | (h', Some e) =>
            if iptables.ExitStatus e =? 1 then (h', false, None) else (h', true, Some e)
        | (h', None) => (h', true, None)
        end
  end.

Inductive init_error : Type :=
| ErrCreateChain (chain : string) (cause : iptables.chain_error)
| ErrJumpRule (cause : iptables.chain_error).

(** [Controller.ensureIPTables], which is all [Controller.Init] does. *)
Definition ensureIPTables (h : iptables.Firewall) : iptables.Firewall * option init_error :=
  if negb (iptables.installed (iptables.ipt h)) then (h, None)
  else
    match ensureIPTablesChain h iptablesNATTableName preroutingIPTablesChainName with
    | (h, _, Some e) => (h, Some (ErrCreateChain preroutingIPTablesChainName e))
    | (h, natCreated, None) =>
        match (if natCreated
               then iptables.Insert h iptablesNATTableName "PREROUTING" 1
                                    ["-j"; preroutingIPTablesChainName]
               else (h, None)) with
        | (h, Some e) => (h, Some (ErrJumpRule e))
        | (h, None) =>
            match ensureIPTablesChain h iptablesFilterTableName forwardIPTablesChainName with
            | (h, _, Some e) => (h, Some (ErrCreateChain forwardIPTablesChainName e))
            | (h, filterCreated, None) =>
                match (if filterCreated
                       then iptables.Insert h iptablesFilterTableName "FORWARD" 1
                                            ["-j"; forwardIPTablesChainName]
                       else (h, None)) with
                | (h, Some e) => (h, Some (ErrJumpRule e))
                | (h, None) => (h, None)
                end
            end
        end
    end.

Definition Init (h : iptables.Firewall) : iptables.Firewall * option init_error :=
  ensureIPTables h.

(** [structs.AllocatedPortMapping] and [AllocatedPorts.Get] of Nomad. *)
Record AllocatedPortMapping := MkPort {
  Label : string;
  Value : Z;
  To : Z;
  HostIP : string
}.

Fixpoint Get (p : list AllocatedPortMapping) (label : string) : option AllocatedPortMapping :=
  match p with
  | [] => None
  | port :: rest => if bool_decide (Label port = label) then Some port else Get rest label
  end.

(** [drivers.Resources]: [Ports] is a pointer. *)
Record Resources := MkResources {
  Ports : option (list AllocatedPortMapping)
}.

(** The controller on its host.  [interfaceByIPGetter] is the controller's
    field of that name composed with [net.ParseIP]: the interface a host
    address belongs to, if one is found.  [links] are the interface
    names for which [ip link show] succeeds on the host. *)
Record Controller := MkController {
  networkConfig : option domain.Network;
  interfaceByIPGetter : string → option string;
  links : list string
}.

(** [Controller.bridgeExists] *)
Definition bridgeExists (c : Controller) (bridgeName : string) : bool :=
  if bool_decide (bridgeName = "") then false else bool_decide (bridgeName ∈ links c).

Inductive configure_error : Type :=
| ErrIdentifyInterface (hostIP : string)
| ErrAppend (cause : iptables.chain_error).

Definition preRouteArgs (reservedPort : AllocatedPortMapping) (iface ip : string)
    : list string :=
  [iptablesNATTableName; preroutingIPTablesChainName;
   "-d"; HostIP reservedPort; "-i"; iface; "-p"; "tcp"; "-m"; "tcp";
   "--dport"; itoa.FormatInt (Value reservedPort); "-j"; "DNAT";
   "--to-destination"; ip +:+ ":" +:+ itoa.FormatInt (To reservedPort)].

Definition filterArgs (reservedPort : AllocatedPortMapping) (ip : string) : list string :=
  [iptablesFilterTableName; forwardIPTablesChainName;
   "-d"; ip; "-p"; "tcp"; "-m"; "state"; "--state"; "NEW"; "-m"; "tcp";
   "--dport"; itoa.FormatInt (To reservedPort); "-j"; "ACCEPT"].

(** The loop of [configureIPTables] over the port labels of the bridge
    block.  [interfaceMapping] caches the interface found for a host
    address; [teardownRules] collects the rules added so far.  On an
    error the collected rules are dropped. *)
Fixpoint configureLoop (c : Controller) (ports : list AllocatedPortMapping) (ip : string)
    (labels : list string) (h : iptables.Firewall)
    (interfaceMapping : gmap string string) (teardownRules : list (list string))
    : iptables.Firewall * result (list (list string)) configure_error :=
  match labels with
  | [] => (h, Done teardownRules)
  | port :: rest =>
      match Get ports port with
      | None => configureLoop c ports ip rest h interfaceMapping teardownRules
      | Some reservedPort =>
          let found :=
            match interfaceMapping !! HostIP reservedPort with
            | Some iface => Some (iface, interfaceMapping)
            | None =>
                match interfaceByIPGetter c (HostIP reservedPort) with
                | Some iface =>
                    Some (iface, <[HostIP reservedPort := iface]> interfaceMapping)
                | None => None
                end
            end in
          match found with
          | None => (h, Failed (ErrIdentifyInterface (HostIP reservedPort)))
          | Some (iface, interfaceMapping) =>
              let pre := preRouteArgs reservedPort iface ip in
              match iptables.Append h iptablesNATTableName preroutingIPTablesChainName
                                    (drop 2 pre) with
              | (h, Some e) => (h, Failed (ErrAppend e))
              | (h, None) =>
                  let teardownRules := teardownRules ++ [pre] in
                  let fil := filterArgs reservedPort ip in
                  match iptables.Append h iptablesFilterTableName forwardIPTablesChainName
                                        (drop 2 fil) with
                  | (h, Some e) => (h, Failed (ErrAppend e))
                  | (h, None) =>
                      configureLoop c ports ip rest h interfaceMapping
                                    (teardownRules ++ [fil])
                  end
              end
          end
      end
  end.

(** [Controller.configureIPTables]; [cfg] is the bridge block of the
    interface and [res.Ports] the allocated ports, both pointers.  Without
    the packet-filter tool the call returns no rules and no error. *)
Definition configureIPTables (c : Controller) (h : iptables.Firewall) (res : Resources)
    (cfg : option domain.NetworkInterfaceBridgeConfig) (ip : string)
    : iptables.Firewall * result (list (list string)) configure_error :=
  if negb (iptables.installed (iptables.ipt h)) then (h, Done [])
  else
    match cfg with
    | None => (h, Panics)
    | Some cfg =>
        match domain.Ports cfg with
        | [] => (h, Done [])
        | labels =>
            match Ports res with
            | None => (h, Panics)
            | Some ports => configureLoop c ports ip labels h ∅ []
            end
        end
    end.

(** [net.VMStartedBuildRequest]: [NetConfig] points to a list of
    pointers, [Resources] is a pointer. *)
Record VMStartedBuildRequest := MkBuildRequest {
  DomainName : string;
  NetConfig : option (list (option domain.NetworkInterfaceConfig));
  ReqResources : option Resources;
  GuestIPs : list string
}.

(** [net.VMStartedBuildResponse]: the address of the [DriverNetwork] and
    the teardown specification, both absent in the empty response. *)
Record VMStartedBuildResponse := MkBuildResponse {
  DriverNetwork : option string;
  RespTeardownSpec : option TeardownSpec
}.

Inductive build_error : Type :=
| ErrNoRequest
| ErrBridgeNotFound (bridgeName : string)
| ErrBridgeNameEmpty
| ErrNoGuestIP (domainName : string)
| ErrPortMapping (cause : configure_error).

(** The first guest address the virtualizer reported, if it is not
    empty. *)
Definition firstGuestIP (req : VMStartedBuildRequest) : option string :=
  match GuestIPs req with
  | ip :: _ => if bool_decide (ip ≠ "") then Some ip else None
  | [] => None
  end.

(** [Controller.VMStartedBuild] *)
Definition VMStartedBuild (c : Controller) (h : iptables.Firewall)
    (req : option VMStartedBuildRequest)
    : iptables.Firewall * result VMStartedBuildResponse build_error :=
  match req with
  | None => (h, Failed ErrNoRequest)
  | Some req =>
  match NetConfig req, ReqResources req with
  | Some netConfig, Some res =>
  match netConfig with
  | [] => (h, Done (MkBuildResponse None None))
  | None :: _ => (h, Panics)
  | Some netInterface :: _ =>
  let bridge := domain.IfBridge netInterface in
  let fromDriver := domain.Bridge <$> networkConfig c in
  let bridgeName :=
    match bridge with
    | Some b => if bool_decide (domain.Name b ≠ "") then Some (domain.Name b) else fromDriver
    | None => fromDriver
    end in
  match bridgeName with
  | None => (h, Panics)
  | Some bridgeName =>
  if bool_decide (bridgeName = "") then (h, Failed ErrBridgeNameEmpty)
  else if negb (bridgeExists c bridgeName) then (h, Failed (ErrBridgeNotFound bridgeName))
  else
  let ipAddr :=
    match firstGuestIP req with
    | Some ip => inl ip
    | None =>
        match bridge with
        | Some b =>
            if bool_decide (domain.StaticIP b ≠ "") then inl (domain.StaticIP b)
            else inr tt
        | None => inr tt
        end
    end in
  let ipAddr :=
    match ipAddr with
    | inl ip => Some ip
    | inr _ =>
        let mac := generateDeterministicMAC (DomainName req) in
        match firstGuestIP req with
        | Some ip => Some ip
        | None => None
        end
    end in
  match ipAddr with
  | None => (h, Failed (ErrNoGuestIP (DomainName req)))
  | Some ipAddr =>
      match configureIPTables c h res bridge ipAddr with
      | (h, Failed e) => (h, Failed (ErrPortMapping e))
      | (h, Panics) => (h, Panics)
      | (h, Done teardownRules) =>
          (h, Done (MkBuildResponse (Some ipAddr)
                      (Some (MkTeardownSpec teardownRules "" bridgeName))))
      end
  end
  end
  end
  | _, _ => (h, Done (MkBuildResponse None None))
  end
  end.

End chnet.

(** ** The VFIO allowlist *)

Module vfio.

Definition lower (c : ascii) : ascii :=
  let n := N_of_ascii c in
  if ((65 <=? n) && (n <=? 90))%N then ascii_of_N (n + 32) else c.

Fixpoint ToLower (s : string) : string :=
  match s with
  | EmptyString => EmptyString
  | String c rest => String (lower c) (ToLower rest)
  end.

(** Modelled from the spec: [matchesAllowlist] of the VFIO manager,
    whose source file is not part of the tree.  Section 4.2: the
    device's [vendor:device] pair must match an allowlist entry exactly
    or via a [vendor:*] wildcard, case-insensitively.  The repository's
    test table ([TestMatchesAllowlist]) fixes the value on the empty
    list: no entry matches, so the result is [false]. *)
Definition matchesAllowlist (vendor device : string) (allowlist : list string) : bool :=
  existsb
    (λ entry,
       String.eqb (ToLower entry) (ToLower (vendor +:+ ":" +:+ device))
       || String.eqb (ToLower entry) (ToLower (vendor +:+ ":*")))
    allowlist.

(** Modelled from the spec: the allowlist test [ValidateDevices] applies
    to each device.  Section 4.2: the matcher is consulted only if an
    allowlist is supplied (non-empty); an empty allowlist permits
    everything ([TestVFIOManager_ValidateDevices], "empty allowlist
    allows all"). *)
Definition deviceAllowed (vendor device : string) (allowlist : list string) : bool :=
  match allowlist with
  | [] => true
  | _ => matchesAllowlist vendor device allowlist
  end.

End vfio.

(** ** Vocabulary for the allocator's properties *)

Section AllocatorSpec.
Context {VMC : Type}.
Local Abbreviation Driver := (Driver VMC).

(** A usable pool [s..e]: both bounds are IPv4 addresses, the start does
    not exceed the end, and both lie in the subnet when one is
    configured (which [initializeNetworkConfig] enforces by resetting
    bounds that do not). *)
Definition pool_ok (d : Driver) (s e : Z) : Prop :=
  ipPoolStart d = netip.IPv4 s ∧ ipPoolEnd d = netip.IPv4 e ∧
  0 <= s ∧ s <= e ∧ e < 2 ^ 32 ∧
  (netip.PrefixIsValid (subnet d) = true →
   netip.Contains (subnet d) (netip.IPv4 s) = true ∧
   netip.Contains (subnet d) (netip.IPv4 e) = true).

(** The scan passes over address [v]: it is the gateway or it is marked
    allocated. *)
Definition skipped (d : Driver) (v : Z) : bool :=
  bool_decide (gatewayIP d = netip.IPv4 v) || isAllocated d (netip.String (netip.IPv4 v)).

(** The first address not passed over among the [n] addresses from [v]. *)
Fixpoint scan (d : Driver) (n : nat) (v : Z) : alloc_exit :=
  match n with
  | O => AllocBreak
  | S n' =>
      if skipped d v then scan d n' (v + 1)
      else AllocReturn (netip.String (netip.IPv4 v))
  end.

(** [n] consecutive calls of [allocateIP]: the state each call started
    from, paired with what it returned. *)
Fixpoint allocateTrace (n : nat) (d : Driver) : list (Driver * (string + error)) :=
  match n with
  | O => []
  | S n' => let '(d', r) := allocateIP d in (d, r) :: allocateTrace n' d'
  end.

Definition successes (t : list (Driver * (string + error))) : list string :=
  omap (λ c, match c.2 with inl ip => Some ip | inr _ => None end) t.

(** What one call does on a pool [s..e], seen from the state [d] it
    started in: it returns the lowest address of the pool that is neither
    the gateway nor allocated, or, if there is none, the exhaustion
    error. *)
Definition call_ok (s e : Z) (c : Driver * (string + error)) : Prop :=
  let d := c.1 in
  match c.2 with
  | inl ip =>
      ∃ v, ip = netip.String (netip.IPv4 v) ∧ s <= v <= e ∧
           gatewayIP d ≠ netip.IPv4 v ∧ isAllocated d ip = false ∧
           ∀ u, s <= u < v → skipped d u = true
  | inr err =>
      err = ErrNoAvailableIPs (netip.String (netip.IPv4 s)) (netip.String (netip.IPv4 e)) ∧
      ∀ u, s <= u <= e → skipped d u = true
  end.

End AllocatorSpec.

(** ** Example configuration and an example host *)

(** The network block [initDefaults] fills in. *)
Definition defaultNetwork : domain.Network :=
  domain.MkNetwork "br0" "192.168.254.0/24" "192.168.254.1"
                   "192.168.254.10" "192.168.254.200" "tap".

(** An example host.  Its state is a clock and the names of the steps
    that fail on it; every other step succeeds.  Helper daemons and the
    VMM get process ids derived from the clock. *)
Record script := MkScript {
  clock : Z;
  failing : list string
}.

Definition fails (w : script) (stepName : string) : bool :=
  bool_decide (stepName ∈ failing w).

#[global] Instance scripted_host : Host script unit unit := {|
  filepath_Join := λ a b, a +:+ "/" +:+ b;
  os_MkdirAll := λ w _, (w, fails w "MkdirAll");
  os_Kill := λ w _, w;
  time_Now := λ w, (MkScript (clock w + 1) (failing w), clock w);
  createCloudInit := λ w _ _ _, (w, fails w "createCloudInit");
  setupNetworking := λ w _ _, (w, fails w "setupNetworking");
  startVirtiofsd := λ w _ _, (w, [], fails w "startVirtiofsd");
  buildVMConfig := λ w _ _,
    (w, if fails w "buildVMConfig" then None else Some (MkVMConfig None [] ()));
  startCHProcess := λ w _, (w, 4000 + clock w, fails w "startCHProcess");
  createAndBootVM := λ w _, (w, fails w "createAndBootVM");
  shutdownVM := λ w _, (w, fails w "shutdownVM");
  cleanupNetworking := λ w _ _, w;
  stopVirtiofsd := λ w _, w;
  cleanupProcess := λ w _ _, w;
  vfio_ValidateDevices := λ w _ _, (w, fails w "ValidateDevices");
  vfio_CheckIOMMUGroups := λ w _, (w, fails w "CheckIOMMUGroups");
  vfio_BindDevices := λ w _, (w, fails w "BindDevices");
  vfio_GetVFIOGroupPaths := λ w devices,
    (w, if fails w "GetVFIOGroupPaths" then None else Some devices);
  vfio_UnbindDevices := λ w _, w
|}.

(** The driver as started from the default network block. *)
Definition defaultDriver : Driver (VMConfig unit) :=
  New (Some defaultNetwork) None "/var/lib/nomad".

(** A task without network overrides, and one with a static address. *)
Definition plainTask (name : string) : domain.Config unit :=
  domain.MkConfig name [] [] [] ().

Definition staticTask (name ip : string) : domain.Config unit :=
  domain.MkConfig name
    [domain.MkInterface (Some (domain.MkBridge "br0" [] ip "" "" []))] [] [] ().

(** A host on which nothing fails, and the state after it has created
    the task ["web"] on the default driver. *)
Definition host0 : script := MkScript 0 [].

Definition afterWeb : script * Driver (VMConfig unit) :=
  (CreateDomain host0 defaultDriver (plainTask "web") ∅).1.

(** A host on which the VMM starts but the boot request fails. *)
Definition hostBootFails : script := MkScript 0 ["createAndBootVM"].

(** ** Vocabulary for the teardown properties *)

(** A recorded rule the packet-filter tool of host [h] can process: it
    has a table and a chain, and the table is one the kernel offers. *)
Definition processable (h : iptables.IPTables) (iptablesRule : list string) : Prop :=
  ∃ t c args, iptablesRule = t :: c :: args ∧ t ∈ iptables.tables h.

(** A recorded rule that is not in place on host [h]. *)
Definition absent (h : iptables.IPTables) (iptablesRule : list string) : Prop :=
  ∀ t c args, iptablesRule = t :: c :: args → iptables.MkRule t c args ∉ iptables.rules h.

(** A host with the two driver rules of one port mapping in place, and
    the teardown request that records them. *)
Definition natRule : list string :=
  ["nat"; "NOMAD_CH_PRT"; "-d"; "10.0.0.2"; "-i"; "eth0"; "-p"; "tcp"; "-m"; "tcp";
   "--dport"; "8080"; "-j"; "DNAT"; "--to-destination"; "192.168.254.10:80"].

Definition filterRule : list string :=
  ["filter"; "NOMAD_CH_FW"; "-d"; "192.168.254.10"; "-p"; "tcp"; "-m"; "state";
   "--state"; "NEW"; "-m"; "tcp"; "--dport"; "80"; "-j"; "ACCEPT"].

Definition ruleOf (l : list string) : iptables.rule :=
  match l with
  | t :: c :: args => iptables.MkRule t c args
  | _ => iptables.MkRule "" "" []
  end.

Definition mappedHost : iptables.IPTables :=
  iptables.MkIPTables true ["filter"; "nat"; "mangle"; "raw"]
                      [ruleOf natRule; ruleOf filterRule].

Definition mappedRequest : option chnet.VMTerminatedTeardownRequest :=
  Some (chnet.MkTeardownRequest
          (Some (chnet.MkTeardownSpec [natRule; filterRule] "" "br0"))).

(** ** Vocabulary for the derived settings *)

(** The bridge block of the first network interface of a task, if any. *)
Definition bridgeOf {Other : Type} (config : option (domain.Config Other))
    : option domain.NetworkInterfaceBridgeConfig :=
  match config with
  | Some cfg =>
      match domain.NetworkInterfaces cfg with
      | iface :: _ => domain.IfBridge iface
      | [] => None
      end
  | None => None
  end.

(** A non-empty string, or nothing. *)
Definition nonEmpty (s : string) : option string :=
  if bool_decide (s ≠ "") then Some s else None.

(** The prefix length a bridge block overrides with: its netmask, when
    that is the decimal text of a number from 0 to 32. *)
Definition netmaskBits (bridge : domain.NetworkInterfaceBridgeConfig) : option Z :=
  match nonEmpty (domain.Netmask bridge) with
  | Some text =>
      match strconv.Atoi text with
      | Some bits => if (0 <=? bits) && (bits <=? 32) then Some bits else None
      | None => None
      end
  | None => None
  end.

(** The driver as [TestDeriveNetworkSettingsOverrides] builds it, its
    task with all four overrides, and its VM process record. *)
Definition testDriver : Driver (VMConfig unit) :=
  MkDriver (Some (domain.MkNetwork "br0" "" "192.168.254.1" "" "" "")) None "" ∅ ∅
           netip.AddrZero netip.AddrZero
           (netip.MkPrefix (netip.IPv4 3232300544) 24) (netip.IPv4 3232300545).

Definition overridesTask : domain.Config unit :=
  domain.MkConfig ""
    [domain.MkInterface
       (Some (domain.MkBridge "" [] "10.0.0.50" "10.0.0.1" "25" ["1.1.1.1"; "9.9.9.9"]))]
    [] [] ().

Definition procWithIP (ip : string) : VMProcess (VMConfig unit) :=
  MkProc "" 0 "" "" "" "" "" ip [] None 0.

(** ** Vocabulary for the allocation invariant *)

Section InvariantSpec.
Context {World Payload Other : Type} `{!Host World Payload Other}.
Local Abbreviation Driver := (Driver (VMConfig Payload)).

(** [key] is the text of an address of the pool [s..e] other than the
    gateway, inside the subnet when one is configured. *)
Definition pool_address (d : Driver) (s e : Z) (key : string) : Prop :=
  ∃ v, key = netip.String (netip.IPv4 v) ∧ s <= v <= e ∧
       gatewayIP d ≠ netip.IPv4 v ∧
       (netip.PrefixIsValid (subnet d) = true →
        netip.Contains (subnet d) (netip.IPv4 v) = true).

(** The check a static IP has passed: if a subnet is configured and the
    text parses as an address, the subnet contains that address. *)
Definition static_checked (d : Driver) (key : string) : Prop :=
  netip.PrefixIsValid (subnet d) = true →
  ∀ addr, netip.ParseAddr key = Some addr → netip.Contains (subnet d) addr = true.

(** Drivers that agree on the parsed network configuration. *)
Definition same_network (d d' : Driver) : Prop :=
  ipPoolStart d' = ipPoolStart d ∧ ipPoolEnd d' = ipPoolEnd d ∧
  subnet d' = subnet d ∧ gatewayIP d' = gatewayIP d.

(** The static IPs the creation requests of a call sequence supply. *)
Definition staticIPs (ops : list (@op Other)) : list string :=
  omap (λ o, match o with
             | OpCreate config _ => staticIP config
             | _ => None
             end) ops.

(** Every allocated address is a pool address or one of the given static
    IPs that passed the static check. *)
Definition allocation_inv (d : Driver) (s e : Z) (statics : list string) : Prop :=
  ∀ key, isAllocated d key = true →
         pool_address d s e key ∨ (key ∈ statics ∧ static_checked d key).

End InvariantSpec.

(** A call sequence that mixes pool and static addresses, and a driver
    whose TAP prefix is the one the installation guide gives as an
    example. *)
Definition mixedOps : list (@op unit) :=
  [OpCreate (plainTask "web") ∅;
   OpCreate (staticTask "db" "192.168.254.250") ∅;
   OpStop "web";
   OpDestroy "web"].

Definition longPrefixDriver : Driver (VMConfig unit) :=
  New (Some (domain.MkNetwork "br0" "192.168.254.0/24" "192.168.254.1"
                              "192.168.254.10" "192.168.254.200" "nomad-tap"))
      None "/var/lib/nomad".

(** ** Netmask texts ([prefixBitsToNetmask], [maskStringFromPrefix]) *)

(** [%d] of the four bytes of a mask, dotted. *)
Definition dotted (b0 b1 b2 b3 : Z) : string :=
  itoa.FormatInt b0 +:+ "." +:+ itoa.FormatInt b1 +:+ "." +:+
  itoa.FormatInt b2 +:+ "." +:+ itoa.FormatInt b3.

(** [prefixBitsToNetmask]: the mask is a [uint32], so the shifted
    all-ones word is cut to 32 bits. *)
Definition prefixBitsToNetmask (bits : Z) : string :=
  if (bits <? 0) || (32 <? bits) then ""
  else
    let mask :=
      if bits =? 0 then 0
      else Z.shiftl (2 ^ 32 - 1) (32 - bits) mod 2 ^ 32 in
    dotted (to_byte (Z.shiftr mask 24)) (to_byte (Z.shiftr mask 16))
           (to_byte (Z.shiftr mask 8)) (to_byte mask).

(** [networkSettings.netmaskDotted] *)
Definition netmaskDotted (n : networkSettings) : string :=
  let mask := prefixBitsToNetmask (cidrBits n) in
  if bool_decide (mask = "") then "255.255.255.0" else mask.

Module gonet.

(** The byte loop of [net.CIDRMask]: [n] one-bits are still to be
    written into the remaining [l] bytes. *)
Fixpoint maskBytes (l : nat) (n : Z) : list Z :=
  match l with
  | O => []
  | S l' =>
      if 8 <=? n then 255 :: maskBytes l' (n - 8)
      else Z.lxor 255 (Z.shiftr 255 n) :: maskBytes l' 0
  end.

(** [net.CIDRMask]: [nil] (the empty mask) unless [bits] is 32 or 128 and
    [ones] lies between 0 and [bits]. *)
Definition CIDRMask (ones bits : Z) : list Z :=
  if negb (bits =? 32) && negb (bits =? 128) then []
  else if (ones <? 0) || (bits <? ones) then []
  else maskBytes (Z.to_nat (bits / 8)) ones.

End gonet.

(** [maskStringFromPrefix] *)
Definition maskStringFromPrefix (prefix : netip.Prefix) : string :=
  if negb (netip.PrefixIsValid prefix) then ""
  else if negb (netip.Is4 (netip.Addr_of prefix)) then ""
  else
    match gonet.CIDRMask (netip.Bits prefix) 32 with
    | [m0; m1; m2; m3] => dotted m0 m1 m2 m3
    | _ => ""
    end.

(** ** Queries on the registry ([GetNetworkInterfaces], [GetInfo]) *)

Section Queries.
Context {VMC : Type}.
Local Abbreviation Driver := (Driver VMC).

(** [GetNetworkInterfaces]: one interface per VM, described from the
    registry entry; the address is listed when the recorded text parses.
    The bridge name is read through the [networkConfig] pointer. *)
Definition GetNetworkInterfaces (d : Driver) (name : string)
    : result (list domain.NetworkInterface) error :=
  match processes d !! name with
  | None => Failed (ErrNotFound name)
  | Some proc =>
      match networkConfig d with
      | None => Panics
      | Some nc =>
          let addrs :=
            if bool_decide (IP proc ≠ "") then
              match netip.ParseAddr (IP proc) with
              | Some addr => [addr]
              | None => []
              end
            else [] in
          Done [domain.MkNetworkInterface (domain.Bridge nc) (TapName proc) (MAC proc)
                                          "virtio" "virtio-net" addrs]
      end
  end.

(** [strconv.ParseUint(s, 10, 32)]: decimal digits only, at least one,
    and a value that fits 32 bits. *)
Definition ParseUint32 (s : string) : option Z :=
  match s with
  | EmptyString => None
  | _ =>
      match strconv.digits s 0 with
      | Some n => if n <? 2 ^ 32 then Some n else None
      | None => None
      end
  end.

(** [GetInfo]; [version] is what [getCHVersion] returned, [None] when it
    failed.  The call itself never fails. *)
Definition GetInfo (version : option string) (d : Driver) : domain.VirtualizerInfo :=
  let emulatorVersion :=
    match version with
    | Some v => default 0 (ParseUint32 v)
    | None => 0
    end in
  domain.MkVirtualizerInfo "cloud-hypervisor" emulatorVersion
                           (Z.of_nat (size (processes d))).

End Queries.

(** ** Task interface validation ([virt/net]) *)

Module net.

Inductive validate_error : Type :=
| ErrOnlyOneInterface
| ErrBridgeNameRequired (i : nat).

(** The loop of [Validate] over the interfaces, which are pointers:
    reading the bridge block of a nil interface panics ([None]). *)
Fixpoint validateLoop (i : nat) (n : list (option domain.NetworkInterfaceConfig))
    (errors : list validate_error) : option (list validate_error) :=
  match n with
  | [] => Some errors
  | None :: _ => None
  | Some netInterface :: rest =>
      let errors :=
        match domain.IfBridge netInterface with
        | Some bridge =>
            if bool_decide (domain.Name bridge = "")
            then errors ++ [ErrBridgeNameRequired i] else errors
        | None => errors
        end in
      validateLoop (S i) rest errors
  end.

(** [NetworkInterfacesConfig.Validate]: the collected errors; the Go
    error is nil exactly when the list is empty. *)
Definition Validate (n : option (list (option domain.NetworkInterfaceConfig)))
    : result (list validate_error) unit :=
  match n with
  | None => Done []
  | Some l =>
      let errors := if (1 <? length l)%nat then [ErrOnlyOneInterface] else [] in
      match validateLoop 0 l errors with
      | Some errors => Done errors
      | None => Panics
      end
  end.

End net.

(** ** Plugin configuration defaults ([virt]) *)

Module virt.

(** [virt.Config] *)
Record Config := MkConfig {
  CloudHypervisor : domain.CloudHypervisor;
  Network : domain.Network;
  VFIO : domain.VFIO;
  DataDir : string;
  ImagePaths : list string;
  DisableAllocMounts : bool
}.

Definition orDefault (value fallback : string) : string :=
  if bool_decide (value = "") then fallback else value.

(** [Config.initDefaults] *)
Definition initDefaults (c : Config) : Config :=
  let n := Network c in
  let network :=
    domain.MkNetwork (orDefault (domain.Bridge n) "br0")
                     (orDefault (domain.SubnetCIDR n) "192.168.254.0/24")
                     (orDefault (domain.Gateway n) "192.168.254.1")
                     (orDefault (domain.IPPoolStart n) "192.168.254.10")
                     (orDefault (domain.IPPoolEnd n) "192.168.254.200")
                     (orDefault (domain.TAPPrefix n) "tap") in
  let imagePaths :=
    match ImagePaths c with
    | [] => ["/var/lib/nomad"; "/tmp"; "/root"; "/opt"; "/var/lib"]
    | l => l
    end in
  let ch := CloudHypervisor c in
  let cloudHypervisor :=
    domain.MkCloudHypervisor (orDefault (domain.Bin ch) "/usr/bin/cloud-hypervisor")
                             (orDefault (domain.RemoteBin ch) "/usr/bin/ch-remote")
                             (orDefault (domain.VirtiofsdBin ch) "/usr/libexec/virtiofsd")
                             (domain.DefaultKernel ch) (domain.DefaultInitramfs ch)
                             (domain.Firmware ch)
                             (orDefault (domain.Seccomp ch) "false")
                             (domain.LogFile ch) in
  MkConfig cloudHypervisor network (VFIO c) (DataDir c) imagePaths (DisableAllocMounts c).

End virt.

(** ** Vocabulary for the further properties *)

Section CapacitySpec.
Context {VMC : Type}.

(** The addresses of the pool [s..e] a scan would not pass over: those
    that are neither the gateway nor allocated. *)
Definition freeAddresses (d : Driver VMC) (s e : Z) : list Z :=
  filter (λ v, skipped d v = false) (seqZ s (e - s + 1)).

End CapacitySpec.

(** The file a guest finds at [path]: the first entry of that path. *)
Definition fileAt (files : list domain.File) (path : string) : option domain.File :=
  List.find (λ f, bool_decide (domain.Path f = path)) files.

(** A small network whose gateway is left to the constructor: the
    subnet 10.0.0.0/24 with the pool 10.0.0.1 to 10.0.0.3.  The driver
    built from it, and the same driver with the two addresses after the
    gateway marked allocated. *)
Definition smallNetwork : domain.Network :=
  domain.MkNetwork "br0" "10.0.0.0/24" "" "10.0.0.1" "10.0.0.3" "tap".

Definition smallDriver : Driver (VMConfig unit) :=
  New (Some smallNetwork) None "/var/lib/nomad".

Definition fullDriver : Driver (VMConfig unit) :=
  set_allocatedIPs smallDriver (<["10.0.0.2" := true]> (<["10.0.0.3" := true]> ∅)).

(** A MAC address in the usual notation: six groups of two lower-case
    hexadecimal digits, separated by colons. *)
Definition isLowerHex (c : ascii) : bool :=
  let n := Z.of_N (N_of_ascii c) in
  ((48 <=? n) && (n <=? 57)) || ((97 <=? n) && (n <=? 102)).

Definition isColon (c : ascii) : bool := Ascii.eqb c ":"%char.

Definition isMAC (s : string) : bool :=
  match String.list_ascii_of_string s with
  | [a1; a2; s1; b1; b2; s2; c1; c2; s3; d1; d2; s4; e1; e2; s5; f1; f2] =>
      forallb isLowerHex [a1; a2; b1; b2; c1; c2; d1; d2; e1; e2; f1; f2]
      && forallb isColon [s1; s2; s3; s4; s5]
  | _ => false
  end.

(** The part of the packet filter the chain calls leave alone: whether
    the tool is installed and which tables there are. *)
Definition same_tables (h h' : iptables.Firewall) : Prop :=
  iptables.installed (iptables.ipt h') = iptables.installed (iptables.ipt h) ∧
  iptables.tables (iptables.ipt h') = iptables.tables (iptables.ipt h).

(** The two chains of the driver exist, in tables the kernel offers. *)
Definition chains_ready (h : iptables.Firewall) : Prop :=
  chnet.iptablesNATTableName ∈ iptables.tables (iptables.ipt h) ∧
  chnet.iptablesFilterTableName ∈ iptables.tables (iptables.ipt h) ∧
  (chnet.iptablesNATTableName, chnet.preroutingIPTablesChainName) ∈ iptables.chains h ∧
  (chnet.iptablesFilterTableName, chnet.forwardIPTablesChainName) ∈ iptables.chains h.

(** The bridge block of the first interface of a build request, and the
    static IP it supplies. *)
Definition requestBridge (req : chnet.VMStartedBuildRequest)
    : option domain.NetworkInterfaceBridgeConfig :=
  match chnet.NetConfig req with
  | Some (Some netInterface :: _) => domain.IfBridge netInterface
  | _ => None
  end.

Definition requestStaticIP (req : chnet.VMStartedBuildRequest) : option string :=
  requestBridge req ≫= λ b, nonEmpty (domain.StaticIP b).

(** The teardown request that hands back a teardown specification. *)
Definition teardownOf (spec : chnet.TeardownSpec) : option chnet.VMTerminatedTeardownRequest :=
  Some (chnet.MkTeardownRequest (Some spec)).

(** A tool that checks the addresses of a rule: the argument of [-d]
    and the host part of the argument of [--to-destination] have to be
    IPv4 addresses. *)
Fixpoint beforeColon (s : string) : string :=
  match s with
  | EmptyString => EmptyString
  | String c rest => if Ascii.eqb c ":"%char then EmptyString else String c (beforeColon rest)
  end.

Fixpoint destinationsParse (args : list string) : bool :=
  match args with
  | [] => true
  | flag :: rest =>
      match rest with
      | [] => true
      | value :: _ =>
          (if bool_decide (flag = "-d")
           then bool_decide (is_Some (netip.ParseAddr value))
           else if bool_decide (flag = "--to-destination")
                then bool_decide (is_Some (netip.ParseAddr (beforeColon value)))
                else true)
          && destinationsParse rest
      end
  end.

(** A host with the usual tables and built-in chains, no rules and that
    tool; a controller on it that finds every host address on [eth0]
    and sees the bridge [br0]; a build request for one forwarded port;
    and the same request for a guest that reports an address that is
    none. *)
Definition freshFirewall : iptables.Firewall :=
  iptables.MkFirewall
    (iptables.MkIPTables true ["filter"; "nat"; "mangle"; "raw"] [])
    [("filter", "INPUT"); ("filter", "FORWARD"); ("filter", "OUTPUT");
     ("nat", "PREROUTING"); ("nat", "INPUT"); ("nat", "OUTPUT"); ("nat", "POSTROUTING")]
    (λ r, destinationsParse (iptables.rulespec r)).

Definition readyFirewall : iptables.Firewall := (chnet.ensureIPTables freshFirewall).1.

Definition exampleController : chnet.Controller :=
  chnet.MkController (Some defaultNetwork) (λ _, Some "eth0") ["lo"; "eth0"; "br0"].

Definition webRequest : chnet.VMStartedBuildRequest :=
  chnet.MkBuildRequest "web"
    (Some [Some (domain.MkInterface (Some (domain.MkBridge "br0" ["http"] "" "" "" [])))])
    (Some (chnet.MkResources (Some [chnet.MkPort "http" 8080 80 "10.0.0.2"])))
    ["192.168.254.10"].

Definition strayRequest : chnet.VMStartedBuildRequest :=
  chnet.MkBuildRequest "web"
    (Some [Some (domain.MkInterface (Some (domain.MkBridge "br0" ["http"] "" "" "" [])))])
    (Some (chnet.MkResources (Some [chnet.MkPort "http" 8080 80 "10.0.0.2"])))
    ["192.168.254.300"].

(** A controller that finds no interface for any host address. *)
Definition blindController : chnet.Controller :=
  chnet.MkController (Some defaultNetwork) (λ _, None) ["lo"; "eth0"; "br0"].

(** An interface entry [Validate] has nothing to say about: a non-nil
    interface whose bridge block, if there is one, has a name. *)
Definition wellNamed (iface : option domain.NetworkInterfaceConfig) : Prop :=
  ∃ c, iface = Some c ∧ ∀ b, domain.IfBridge c = Some b → domain.Name b ≠ "".

(** A plugin configuration in which every field [initDefaults] looks at
    is set. *)
Definition complete (c : virt.Config) : Prop :=
  domain.Bridge (virt.Network c) ≠ "" ∧ domain.SubnetCIDR (virt.Network c) ≠ "" ∧
  domain.Gateway (virt.Network c) ≠ "" ∧ domain.IPPoolStart (virt.Network c) ≠ "" ∧
  domain.IPPoolEnd (virt.Network c) ≠ "" ∧ domain.TAPPrefix (virt.Network c) ≠ "" ∧
  virt.ImagePaths c ≠ [] ∧
  domain.Bin (virt.CloudHypervisor c) ≠ "" ∧ domain.RemoteBin (virt.CloudHypervisor c) ≠ "" ∧
  domain.VirtiofsdBin (virt.CloudHypervisor c) ≠ "" ∧
  domain.Seccomp (virt.CloudHypervisor c) ≠ "".

(** The zero value of the plugin configuration. *)
Definition emptyConfig : virt.Config :=
  virt.MkConfig (domain.MkCloudHypervisor "" "" "" "" "" "" "" "")
                (domain.MkNetwork "" "" "" "" "" "")
                (domain.MkVFIO [] 0 0) "" [] false.

(** How often a rule is in place. *)
Definition copies (r : iptables.rule) (l : list iptables.rule) : nat :=
  length (filter (λ x, x = r) l).

(** A teardown specification whose second rule names a table the host
    does not offer. *)
Definition partialSpec : chnet.TeardownSpec :=
  chnet.MkTeardownSpec [natRule; ["security"; "NOMAD_CH_SEC"; "-j"; "ACCEPT"]; filterRule]
                       "" "br0".

Section AddressSpec.
Context {VMC : Type}.

(** Every registered VM holds an allocated address, and no two
    registered VMs hold the same one. *)
Definition addresses_distinct (d : Driver VMC) : Prop :=
  (∀ name proc, processes d !! name = Some proc → isAllocated d (IP proc) = true) ∧
  (∀ name1 name2 proc1 proc2,
     name1 ≠ name2 → processes d !! name1 = Some proc1 → processes d !! name2 = Some proc2 →
     IP proc1 ≠ IP proc2).

End AddressSpec.

(** A task that asks for two passthrough devices. *)
Definition gpuTask : domain.Config unit :=
  domain.MkConfig "gpu" [] ["0000:01:00.0"; "0000:01:00.1"] [] ().

(* ================================================================== *)
(** * Properties *)

(** ** Sanity checks of the [netip] model *)

Example String_pool_start :
  netip.String (netip.IPv4 3232300554) = "192.168.254.10".
Proof. reflexivity. Qed.

Example ParseAddr_pool_start :
  netip.ParseAddr "192.168.254.10" = Some (netip.IPv4 3232300554).
Proof. reflexivity. Qed.

Example ParseAddr_rejects :
  netip.ParseAddr "192.168.254.300" = None ∧ netip.ParseAddr "1.2.3" = None ∧
  netip.ParseAddr "01.2.3.4" = None ∧ netip.ParseAddr "1..2.3" = None ∧
  netip.ParseAddr "1.2.3.4." = None ∧ netip.ParseAddr "" = None.
Proof. repeat split; reflexivity. Qed.

Example ParsePrefix_default :
  netip.Masked <$> netip.ParsePrefix "192.168.254.7/24"
  = Some (netip.MkPrefix (netip.IPv4 3232300544) 24).
Proof. reflexivity. Qed.

(** ** Sanity checks of the library pieces *)

Example sha256_abc :
  fmt.hexbytes (sha256.Sum256 (utf8.bytes "abc"))
  = "ba7816bf8f01cfea414140de5dae2223b00361a396177a9cb410ff61f20015ad".
Proof. vm_compute. reflexivity. Qed.

Example base64_exports :
  base64.encode (utf8.bytes "export A=value1") = "ZXhwb3J0IEE9dmFsdWUx" ∧
  base64.encode (utf8.bytes "ab") = "YWI=" ∧ base64.encode (utf8.bytes "a") = "YQ==".
Proof. repeat split; vm_compute; reflexivity. Qed.

Example itoa_nanos :
  itoa.FormatInt 1730329200123456789 = "1730329200123456789" ∧
  itoa.FormatInt 0 = "0" ∧ itoa.FormatInt (-42) = "-42".
Proof. repeat split; vm_compute; reflexivity. Qed.

Example sha256_two_blocks :
  fmt.hexbytes (sha256.Sum256 (replicate 56 97))
  = "b35439a4ac6f0948b6d6f9e3c6af0f5f590ce20f1bde7090ef7970686ec6738a" ∧
  fmt.hexbytes (sha256.Sum256 (replicate 70 97))
  = "6bd5e5034855a11241f0dee8fc72850ffd9955b28347a86428b5fa19119f6ad0".
Proof. split; vm_compute; reflexivity. Qed.

(** [TestEnvFileFromMap]: keys sorted, one export per line. *)
Example envFileFromMap_sorted :
  envFileFromMap (<["B" := "value2"]> (<["A" := "value1"]> ∅))
  = Some (domain.MkFile "/etc/profile.d/virt.sh" "777" "b64"
                        "ZXhwb3J0IEE9dmFsdWUxCmV4cG9ydCBCPXZhbHVlMg==").
Proof. vm_compute. reflexivity. Qed.

(** Runes of a [range] loop: a two-byte rune, an invalid byte, a
    truncated sequence. *)
Example range_runes :
  utf8.range_go 0 [195; 169; 120] = [233; 120] ∧
  utf8.range_go 0 [255; 97] = [65533; 97] ∧
  utf8.range_go 0 [226; 130] = [65533; 65533] ∧
  utf8.range_go 0 [240; 159; 152; 128] = [128512].
Proof. repeat split; reflexivity. Qed.

(** ** Bounded loops *)

Section LoopFacts.
Context {St Res : Type}.
Variable body : St → St + Res.

Lemma iter_nat_add (n m : nat) (s : St) :
  iter_nat body (n + m) s =
  match iter_nat body n s with
  | inl s' => iter_nat body m s'
  | inr r => inr r
  end.
Proof.
  revert s. induction n as [|n IH]; intros s; simpl; [done|].
  destruct (body s); [apply IH | done].
Qed.

Lemma iter_pos_nat (p : positive) (s : St) :
  iter_pos body p s = iter_nat body (Pos.to_nat p) s.
Proof.
  revert s. induction p as [p IH|p IH|]; intros s; cbn [iter_pos].
  - rewrite Pos2Nat.inj_xI. cbn [iter_nat]. destruct (body s) as [s'|r]; [|done].
    replace (2 * Pos.to_nat p)%nat with (Pos.to_nat p + Pos.to_nat p)%nat by lia.
    rewrite iter_nat_add, <- IH. destruct (iter_pos body p s'); [apply IH | done].
  - rewrite Pos2Nat.inj_xO.
    replace (2 * Pos.to_nat p)%nat with (Pos.to_nat p + Pos.to_nat p)%nat by lia.
    rewrite iter_nat_add, <- IH. destruct (iter_pos body p s); [apply IH | done].
  - simpl. destruct (body s); done.
Qed.

(** Once the loop has left with a result, more iterations change nothing. *)
Lemma iter_nat_mono (n m : nat) (s : St) (r : Res) :
  (n ≤ m)%nat → iter_nat body n s = inr r → iter_nat body m s = inr r.
Proof.
  intros Hle Hn. replace m with (n + (m - n))%nat by lia.
  rewrite iter_nat_add, Hn. done.
Qed.

End LoopFacts.

(** ** Facts about [netip] *)

Lemma Next_succ (v : Z) :
  0 <= v → v + 1 < 2 ^ 32 → netip.Next (netip.IPv4 v) = netip.IPv4 (v + 1).
Proof.
  intros H0 H1. unfold netip.Next. rewrite Z.mod_small by lia.
  destruct (Z.eqb_spec (v + 1) 0); [lia | done].
Qed.

Lemma Next_valid_succ (v : Z) :
  0 <= v < 2 ^ 32 → netip.IsValid (netip.Next (netip.IPv4 v)) = true →
  netip.Next (netip.IPv4 v) = netip.IPv4 (v + 1) ∧ v + 1 < 2 ^ 32.
Proof.
  intros Hv Hvalid. destruct (decide (v + 1 < 2 ^ 32)) as [Hlt|Hge].
  - split; [by apply Next_succ; lia | done].
  - exfalso. assert (v + 1 = 2 ^ 32) as Heq by lia.
    unfold netip.Next in Hvalid. rewrite Heq, Z.mod_same in Hvalid by lia. done.
Qed.

(** A prefix contains exactly the addresses that agree with it above the
    host bits. *)
Lemma Contains_div (p : netip.Prefix) (pv v : Z) :
  netip.PrefixIsValid p = true → netip.Addr_of p = netip.IPv4 pv →
  netip.Contains p (netip.IPv4 v) = true ↔
  v / 2 ^ (32 - netip.Bits p) = pv / 2 ^ (32 - netip.Bits p).
Proof.
  intros Hvalid Haddr. unfold netip.Contains. rewrite Hvalid, Haddr. simpl.
  unfold netip.PrefixIsValid in Hvalid.
  apply andb_prop in Hvalid as [Hvalid Hle]. apply andb_prop in Hvalid as [_ Hge].
  apply Z.leb_le in Hle, Hge.
  rewrite Z.eqb_eq, Z.shiftr_lxor, Z.lxor_eq_0_iff.
  rewrite !Z.shiftr_div_pow2 by lia. done.
Qed.

(** A prefix is a contiguous range: it contains every address between
    two addresses it contains. *)
Lemma Contains_between (p : netip.Prefix) (s e v : Z) :
  netip.Contains p (netip.IPv4 s) = true → netip.Contains p (netip.IPv4 e) = true →
  s <= v <= e → netip.Contains p (netip.IPv4 v) = true.
Proof.
  intros Hs He Hv.
  assert (netip.PrefixIsValid p = true) as Hvalid.
  { unfold netip.Contains in Hs. by destruct (netip.PrefixIsValid p). }
  destruct (netip.Addr_of p) as [|pv] eqn:Haddr.
  { unfold netip.Contains in Hs. rewrite Hvalid, Haddr in Hs. done. }
  rewrite (Contains_div p pv) in Hs, He |- * by done.
  set (k := 2 ^ (32 - netip.Bits p)) in *.
  assert (0 < k).
  { unfold netip.PrefixIsValid in Hvalid. apply andb_prop in Hvalid as [_ Hle].
    apply Z.leb_le in Hle. apply Z.pow_pos_nonneg; lia. }
  assert (s / k <= v / k) by (apply Z.div_le_mono; lia).
  assert (v / k <= e / k) by (apply Z.div_le_mono; lia).
  lia.
Qed.

(** ** The allocator *)

Section AllocatorFacts.
Context {VMC : Type}.
Local Abbreviation Driver := (Driver VMC).
Implicit Types (d : Driver) (s e v : Z).

Lemma isAllocated_insert d (ip ip' : string) :
  isAllocated (set_allocatedIPs d (<[ip := true]> (allocatedIPs d))) ip' =
  bool_decide (ip = ip') || isAllocated d ip'.
Proof.
  unfold isAllocated. simpl. rewrite lookup_insert.
  case_decide; case_bool_decide; simplify_eq; done.
Qed.

Lemma isAllocated_deallocate d (ip ip' : string) :
  isAllocated (deallocateIP d ip) ip' = negb (bool_decide (ip = ip')) && isAllocated d ip'.
Proof.
  unfold isAllocated, deallocateIP. simpl. rewrite lookup_delete.
  case_decide; case_bool_decide; simplify_eq; done.
Qed.

(** One iteration inside the pool: pass over and advance, stop at the
    pool end, or return the address. *)
Lemma allocateIP_body_in_pool d s e v :
  pool_ok d s e → s <= v <= e →
  allocateIP_body d (netip.IPv4 v) =
  if skipped d v
  then (if bool_decide (v = e) then inr AllocBreak else inl (netip.IPv4 (v + 1)))
  else inr (AllocReturn (netip.String (netip.IPv4 v))).
Proof.
  intros (Hs & He & H0 & Hse & H32 & Hsub) Hv. unfold allocateIP_body, skipped.
  assert (netip.PrefixIsValid (subnet d)
          && negb (netip.Contains (subnet d) (netip.IPv4 v)) = false) as ->.
  { destruct (netip.PrefixIsValid (subnet d)) eqn:Hvalid; [|done].
    destruct (Hsub eq_refl) as [Hcs Hce].
    by rewrite (Contains_between _ s e v). }
  rewrite He.
  assert (bool_decide (netip.IPv4 v = netip.IPv4 e) = bool_decide (v = e)) as ->.
  { apply bool_decide_ext. split; [by intros [= ->] | by intros ->]. }
  assert (bool_decide (v = e) = false → netip.Next (netip.IPv4 v) = netip.IPv4 (v + 1)) as Hnext.
  { intros Hne%bool_decide_eq_false. apply Next_succ; lia. }
  destruct (bool_decide (gatewayIP d = netip.IPv4 v)) eqn:Hgw.
  - apply bool_decide_eq_true in Hgw. rewrite Hgw.
    rewrite bool_decide_eq_true_2 by done. cbn [netip.IsValid andb orb].
    destruct (bool_decide (v = e)) eqn:Hend; [done|]. by rewrite Hnext.
  - apply bool_decide_eq_false in Hgw.
    rewrite (bool_decide_eq_false_2 (netip.IPv4 v = gatewayIP d)) by congruence.
    rewrite andb_false_r. cbn [orb].
    destruct (isAllocated d (netip.String (netip.IPv4 v))); cbn [negb]; [|done].
    destruct (bool_decide (v = e)) eqn:Hend; [done|]. by rewrite Hnext.
Qed.

(** The loop computes [scan] once it has fuel for the rest of the pool. *)
Lemma allocateIP_loop_scan d s e (n : nat) v :
  pool_ok d s e → s <= v → v + Z.of_nat n = e + 1 → (1 ≤ n)%nat →
  iter_nat (allocateIP_body d) n (netip.IPv4 v) = inr (scan d n v).
Proof.
  intros Hok. revert v. induction n as [|n IH]; intros v Hv Hn Hpos; [lia|].
  cbn [iter_nat scan]. rewrite (allocateIP_body_in_pool d s e v) by (done || lia).
  destruct (skipped d v); [|done].
  case_bool_decide as Hend.
  - assert (n = 0%nat) as -> by lia. done.
  - apply IH; lia.
Qed.

Lemma scan_return d (n : nat) v (ip : string) :
  scan d n v = AllocReturn ip →
  ∃ u, ip = netip.String (netip.IPv4 u) ∧ v <= u < v + Z.of_nat n ∧
       skipped d u = false ∧ ∀ t, v <= t < u → skipped d t = true.
Proof.
  revert v. induction n as [|n IH]; intros v; cbn [scan]; [done|].
  destruct (skipped d v) eqn:Hskip.
  - intros (u & -> & Hu & Hfree & Hbefore)%IH. exists u. repeat split; [lia..|done|].
    intros t Ht. destruct (decide (t = v)) as [->|]; [done | apply Hbefore; lia].
  - intros [= <-]. exists v. repeat split; [lia..|done|]. intros t Ht. lia.
Qed.

Lemma scan_break d (n : nat) v :
  scan d n v = AllocBreak → ∀ t, v <= t < v + Z.of_nat n → skipped d t = true.
Proof.
  revert v. induction n as [|n IH]; intros v; cbn [scan]; [intros _ t Ht; lia|].
  destruct (skipped d v) eqn:Hskip; [|done].
  intros Hrest t Ht. destruct (decide (t = v)) as [->|]; [done|].
  apply (IH (v + 1)); [done | lia].
Qed.

Lemma scan_no_error d (n : nat) v (err : error) : scan d n v ≠ AllocError err.
Proof.
  revert v. induction n as [|n IH]; intros v; cbn [scan]; [done|].
  destruct (skipped d v); [apply IH | done].
Qed.

(** On a usable pool the loop always leaves with the result of [scan]. *)
Lemma allocateIP_loop_ok d s e :
  pool_ok d s e → allocateIP_loop d = inr (scan d (Z.to_nat (e - s + 1)) s).
Proof.
  intros Hok. pose proof Hok as (Hs & He & H0 & Hse & H32 & _).
  unfold allocateIP_loop. rewrite iter_pos_nat, Hs. cbn [remaining].
  apply iter_nat_mono with (n := Z.to_nat (e - s + 1)); [lia|].
  apply (allocateIP_loop_scan d s e); [done | lia..].
Qed.

Lemma pool_ok_set_allocatedIPs d s e (m : gmap string bool) :
  pool_ok d s e → pool_ok (set_allocatedIPs d m) s e.
Proof. done. Qed.

Lemma allocateIP_eq d s e :
  pool_ok d s e →
  allocateIP d =
  match scan d (Z.to_nat (e - s + 1)) s with
  | AllocReturn ip => (set_allocatedIPs d (<[ip := true]> (allocatedIPs d)), inl ip)
  | AllocError err => (d, inr err)
  | AllocBreak =>
      (d, inr (ErrNoAvailableIPs (netip.String (netip.IPv4 s)) (netip.String (netip.IPv4 e))))
  end.
Proof.
  intros Hok. unfold allocateIP. rewrite (allocateIP_loop_ok d s e Hok).
  destruct Hok as (-> & -> & _). done.
Qed.

(** A single call on a usable pool. *)
Lemma allocateIP_call_ok d s e :
  pool_ok d s e →
  call_ok s e (d, (allocateIP d).2) ∧
  (allocateIP d).1 =
    match (allocateIP d).2 with
    | inl ip => set_allocatedIPs d (<[ip := true]> (allocatedIPs d))
    | inr _ => d
    end.
Proof.
  intros Hok. rewrite (allocateIP_eq d s e Hok).
  destruct (scan d (Z.to_nat (e - s + 1)) s) as [ip|err|] eqn:Hscan; simpl.
  - split; [|done]. unfold call_ok. simpl.
    apply scan_return in Hscan as (u & -> & Hu & Hfree & Hbefore).
    unfold skipped in Hfree. apply orb_false_elim in Hfree as [Hgw Htaken].
    apply bool_decide_eq_false in Hgw. destruct Hok as (_ & _ & ? & ? & ? & _).
    exists u. repeat split; [lia..|done|done|done].
  - by apply scan_no_error in Hscan.
  - split; [|done]. unfold call_ok. simpl. split; [done|].
    destruct Hok as (_ & _ & ? & ? & ? & _).
    intros u Hu. apply (scan_break _ _ _ Hscan). lia.
Qed.

Lemma allocateTrace_fresh (n : nat) d s e :
  pool_ok d s e →
  NoDup (successes (allocateTrace n d)) ∧
  ∀ ip, ip ∈ successes (allocateTrace n d) → isAllocated d ip = false.
Proof.
  revert d. induction n as [|n IH]; intros d Hok; cbn [allocateTrace].
  { split; [constructor | by intros ip ?%elem_of_nil]. }
  destruct (allocateIP_call_ok d s e Hok) as [Hcall Hstate].
  destruct (allocateIP d) as [d' r]. simpl in Hcall, Hstate.
  assert (pool_ok d' s e) as Hok'.
  { rewrite Hstate. destruct r; [by apply pool_ok_set_allocatedIPs | done]. }
  destruct (IH d' Hok') as [Hnodup Hfresh].
  unfold successes in *. cbn [omap]. destruct r as [ip|err]; simpl.
  - subst d'. destruct Hcall as (v & -> & _ & _ & Hfree & _).
    split.
    + constructor; [|done]. intros Hin%Hfresh.
      rewrite isAllocated_insert, bool_decide_eq_true_2 in Hin by done. done.
    + intros ip [->|Hin]%elem_of_cons; [done|].
      apply Hfresh in Hin. rewrite isAllocated_insert in Hin.
      by apply orb_false_elim in Hin as [_ ?].
  - subst d'. done.
Qed.

Lemma allocateTrace_call_ok (n : nat) d s e :
  pool_ok d s e → Forall (call_ok s e) (allocateTrace n d).
Proof.
  revert d. induction n as [|n IH]; intros d Hok; cbn [allocateTrace]; [constructor|].
  destruct (allocateIP_call_ok d s e Hok) as [Hcall Hstate].
  destruct (allocateIP d) as [d' r]. simpl in Hcall, Hstate.
  constructor; [done|]. apply IH. rewrite Hstate.
  destruct r; [by apply pool_ok_set_allocatedIPs | done].
Qed.

End AllocatorFacts.

(** ** Start-up establishes a usable pool *)

Lemma lor_bound (n a b : Z) :
  0 < n → 0 <= a < 2 ^ n → 0 <= b < 2 ^ n → 0 <= Z.lor a b < 2 ^ n.
Proof.
  intros Hn Ha Hb. split; [apply Z.lor_nonneg; lia|].
  destruct (decide (Z.lor a b = 0)) as [->|Hne]; [apply Z.pow_pos_nonneg; lia|].
  assert (0 < Z.lor a b) by (pose proof (proj2 (Z.lor_nonneg a b)); lia).
  apply Z.log2_lt_pow2; [done|]. rewrite Z.log2_lor by lia.
  assert (Z.log2 a < n).
  { destruct (decide (a = 0)) as [->|]; [by simpl|]. apply Z.log2_lt_pow2; lia. }
  assert (Z.log2 b < n).
  { destruct (decide (b = 0)) as [->|]; [by simpl|]. apply Z.log2_lt_pow2; lia. }
  lia.
Qed.

Lemma is_digit_range (c : ascii) :
  netip.is_digit c = true → 48 <= Z.of_N (N_of_ascii c) <= 57.
Proof. unfold netip.is_digit. intros [?%Z.leb_le ?%Z.leb_le]%andb_prop. lia. Qed.

(** Every octet the scanner produces is a byte. *)
Lemma parseIPv4Fields_bytes (s : string) (first : bool) (st : netip.scan) (l : list Z) :
  Forall (λ x, 0 <= x <= 255) (netip.sc_fields st) → 0 <= netip.sc_val st <= 255 →
  netip.parseIPv4Fields first s st = Some l → Forall (λ x, 0 <= x <= 255) l.
Proof.
  revert first st. induction s as [|c s IH]; intros first st Hfields Hval; simpl.
  - destruct (_ <? 3); [done|]. intros [= <-].
    apply Forall_app; split; [done | constructor; [lia | constructor]].
  - destruct (netip.is_digit c) eqn:Hdigit.
    + apply is_digit_range in Hdigit.
      destruct (_ && _); [done|].
      destruct (255 <? _) eqn:Hbig; [done|]. apply Z.ltb_ge in Hbig.
      apply IH; simpl; [done | lia].
    + destruct (Ascii.eqb c "."); [|done].
      destruct (_ || _); [done|]. destruct (_ =? 3); [done|].
      apply IH; simpl; [|lia]. apply Forall_app; split; [done | constructor; [lia | constructor]].
Qed.

Lemma ParseAddr_wf (s : string) (a : netip.Addr) :
  netip.ParseAddr s = Some a → netip.wf a.
Proof.
  unfold netip.ParseAddr. destruct (netip.firstSep s) as [c|]; [|done].
  destruct (Ascii.eqb c "."); [|done]. unfold netip.parseIPv4.
  destruct (netip.parseIPv4Fields _ _ _) as [l|] eqn:Hparse; [|done].
  apply parseIPv4Fields_bytes in Hparse; [|by constructor|done].
  destruct l as [|o0 [|o1 [|o2 [|o3 [|]]]]]; try done. intros [= <-].
  apply Forall_cons in Hparse as [H0 Hparse]. apply Forall_cons in Hparse as [H1 Hparse].
  apply Forall_cons in Hparse as [H2 Hparse]. apply Forall_cons in Hparse as [H3 _].
  simpl. rewrite !Z.shiftl_mul_pow2 by lia.
  repeat apply lor_bound; lia.
Qed.

Section StartupFacts.
Context {VMC : Type}.
Implicit Types (d : Driver VMC) (nc : domain.Network).

Lemma parseNetwork_pool_wf nc d :
  netip.wf (ipPoolStart d) → netip.wf (ipPoolEnd d) →
  netip.wf (ipPoolStart (parseNetwork nc d)) ∧ netip.wf (ipPoolEnd (parseNetwork nc d)).
Proof.
  intros Hs He. unfold parseNetwork.
  destruct (bool_decide (domain.SubnetCIDR nc ≠ ""));
    [destruct (netip.ParsePrefix _)|];
    (destruct (bool_decide (domain.IPPoolStart nc ≠ ""));
     [destruct (netip.ParseAddr (domain.IPPoolStart nc)) as [a1|] eqn:H1;
      [apply ParseAddr_wf in H1|]|]);
    (destruct (bool_decide (domain.IPPoolEnd nc ≠ ""));
     [destruct (netip.ParseAddr (domain.IPPoolEnd nc)) as [a2|] eqn:H2;
      [apply ParseAddr_wf in H2|]|]);
    (destruct (bool_decide (domain.Gateway nc ≠ ""));
     [destruct (netip.ParseAddr (domain.Gateway nc))|]);
    done.
Qed.

(** After [fitToSubnet] a pool bound is either reset or inside the
    subnet. *)
Lemma fitToSubnet_pool d :
  subnet (fitToSubnet d) = subnet d ∧
  (ipPoolStart (fitToSubnet d) = netip.AddrZero ∨
   ipPoolStart (fitToSubnet d) = ipPoolStart d ∧
   netip.Contains (subnet d) (ipPoolStart d) = true) ∧
  (ipPoolEnd (fitToSubnet d) = netip.AddrZero ∨
   ipPoolEnd (fitToSubnet d) = ipPoolEnd d ∧
   netip.Contains (subnet d) (ipPoolEnd d) = true).
Proof.
  unfold fitToSubnet. cbv zeta.
  set (d1 := if negb (netip.IsValid (gatewayIP d)) then _ else d).
  assert (subnet d1 = subnet d ∧ ipPoolStart d1 = ipPoolStart d ∧ ipPoolEnd d1 = ipPoolEnd d)
    as (Hsub & Hstart & Hend).
  { subst d1. destruct (negb _); [destruct (_ && _)|]; done. }
  clearbody d1. rewrite <- Hsub, <- Hstart, <- Hend. clear Hsub Hstart Hend.
  set (d2 := if netip.IsValid (ipPoolStart d1) && _ then _ else d1).
  assert (subnet d2 = subnet d1 ∧ ipPoolEnd d2 = ipPoolEnd d1 ∧
          (ipPoolStart d2 = netip.AddrZero ∨
           ipPoolStart d2 = ipPoolStart d1 ∧
           netip.Contains (subnet d1) (ipPoolStart d1) = true))
    as (Hsub & Hend & Hstart).
  { subst d2. destruct (ipPoolStart d1) as [|v] eqn:Hs; simpl; [by auto|].
    destruct (netip.Contains (subnet d1) (netip.IPv4 v)) eqn:Hc; simpl; rewrite ?Hs; auto. }
  clearbody d2. rewrite Hsub, Hend.
  destruct (ipPoolEnd d1) as [|v] eqn:He; simpl; [by rewrite Hsub, Hend; auto|].
  destruct (netip.Contains (subnet d1) (netip.IPv4 v)) eqn:Hc; simpl;
    rewrite ?Hsub, ?Hend; auto.
Qed.

(** A driver as the constructor builds it has a usable pool as soon as
    both pool bounds are valid and the start does not exceed the end. *)
Lemma New_pool_ok nc (vfio : option domain.VFIO) (dir : string) (s e : Z) :
  let d : Driver VMC := New (Some nc) vfio dir in
  ipPoolStart d = netip.IPv4 s → ipPoolEnd d = netip.IPv4 e → s <= e → pool_ok d s e.
Proof.
  unfold New, initializeNetworkConfig. cbn [networkConfig].
  set (d0 := MkDriver _ _ _ _ _ _ _ _ _).
  destruct (parseNetwork_pool_wf nc d0) as [Hws Hwe]; [done..|].
  destruct (netip.PrefixIsValid (subnet (parseNetwork nc d0))) eqn:Hvalid.
  - destruct (fitToSubnet_pool (parseNetwork nc d0)) as (Hsub & Hstart & Hend).
    intros Hs He Hse. unfold pool_ok. rewrite Hsub.
    destruct Hstart as [Hz|[Heq Hcs]]; [congruence|].
    destruct Hend as [Hz|[Heq' Hce]]; [congruence|].
    rewrite Hs in Heq. rewrite He in Heq'. rewrite <- Heq in Hws, Hcs.
    rewrite <- Heq' in Hwe, Hce. simpl in Hws, Hwe.
    repeat split; try done; lia.
  - intros Hs He Hse. rewrite Hs in Hws. rewrite He in Hwe. simpl in Hws, Hwe.
    unfold pool_ok. rewrite Hvalid. repeat split; try done; lia.
Qed.

(** So has every driver that passes [validateNetworkConfig]. *)
Lemma validateNetworkConfig_pool_ok d :
  netip.wf (ipPoolStart d) → netip.wf (ipPoolEnd d) →
  validateNetworkConfig d = None → ∃ s e, pool_ok d s e.
Proof.
  intros Hws Hwe. unfold validateNetworkConfig.
  destruct (networkConfig d) as [nc|]; [|done].
  destruct (bool_decide _); [done|].
  destruct (netip.PrefixIsValid (subnet d)); [|done]. simpl.
  destruct (_ || _); [done|].
  destruct (ipPoolStart d) as [|s] eqn:Hs; [done|].
  destruct (ipPoolEnd d) as [|e] eqn:He; [done|]. simpl.
  destruct (netip.Contains (subnet d) (netip.IPv4 s)) eqn:Hcs; [|done].
  destruct (netip.Contains (subnet d) (netip.IPv4 e)) eqn:Hce; [|done]. simpl.
  destruct (e <? s) eqn:Hlt; [done|]. apply Z.ltb_ge in Hlt.
  destruct (s <? e); simpl; (destruct (bool_decide _); [done|]); intros _;
    exists s, e; unfold pool_ok; rewrite Hs, He; simpl in Hws, Hwe;
    repeat split; try done; lia.
Qed.

(** The scan cannot outrun its bound: from a well-formed pool start the
    loop always leaves with a result. *)
Lemma allocateIP_loop_total d (n : nat) (v : Z) :
  0 <= v < 2 ^ 32 → 2 ^ 32 - v <= Z.of_nat n →
  ∃ r, iter_nat (allocateIP_body d) n (netip.IPv4 v) = inr r.
Proof.
  revert v. induction n as [|n IH]; intros v Hv Hn; [lia|]. cbn [iter_nat].
  destruct (allocateIP_body d (netip.IPv4 v)) as [a|r] eqn:Hbody; [|by eexists].
  assert (a = netip.Next (netip.IPv4 v) ∧ netip.IsValid a = true) as [-> Hvalid].
  { unfold allocateIP_body in Hbody.
    repeat case_match; simplify_eq; split; try done; by apply negb_false_iff. }
  apply Next_valid_succ in Hvalid as [-> Hlt]; [|done]. apply IH; lia.
Qed.

Lemma allocateIP_body_no_loop_bound d (m : nat) (a : netip.Addr) :
  iter_nat (allocateIP_body d) m a ≠ inr (AllocError ErrLoopBound).
Proof.
  revert a. induction m as [|m IHm]; intros a; cbn [iter_nat]; [done|].
  destruct (allocateIP_body d a) as [a'|r] eqn:Hbody; [apply IHm|].
  unfold allocateIP_body in Hbody. repeat case_match; simplify_eq; done.
Qed.

Lemma allocateIP_never_loop_bound d :
  netip.wf (ipPoolStart d) → (allocateIP d).2 ≠ inr ErrLoopBound.
Proof.
  intros Hwf. unfold allocateIP.
  destruct (negb (netip.IsValid (ipPoolStart d)) || _) eqn:Hvalid; [done|].
  unfold allocateIP_loop. rewrite iter_pos_nat.
  destruct (ipPoolStart d) as [|v]; [done|]. simpl in Hwf. cbn [remaining].
  destruct (allocateIP_loop_total d (Pos.to_nat (Z.to_pos (2 ^ 32 - v))) v) as [r Hr];
    [done | lia |].
  rewrite Hr. destruct r as [ip|err|]; try done. simpl. intros [= ->].
  by apply allocateIP_body_no_loop_bound in Hr.
Qed.

End StartupFacts.

(** *** C1: the pool walk *)

Section AllocatorClaim.
Context {VMC : Type}.

(** C1.  On a usable pool [s..e] (both bounds valid, [s ≤ e]; a driver
    built by [New] has one as soon as its bounds are valid and ordered,
    [New_pool_ok]), every one
    of any number of consecutive [allocateIP] calls returns the lowest
    address of the pool that is neither the gateway nor already
    allocated: the walk starts at the pool start, passes over the
    gateway and over allocated addresses, and never goes past the pool
    end.  A call fails only with the no-available-IPs error, and only
    when every non-gateway address of the pool is allocated.  The
    addresses returned by the successful calls are pairwise distinct. *)
Theorem allocateIP_walks_pool (d : Driver VMC) (s e : Z) (n : nat) :
  pool_ok d s e →
  Forall (call_ok s e) (allocateTrace n d) ∧ NoDup (successes (allocateTrace n d)).
Proof.
  intros Hok. split.
  - by apply allocateTrace_call_ok.
  - by apply (allocateTrace_fresh n d s e).
Qed.

End AllocatorClaim.

Lemma defaultDriver_pool_ok : pool_ok defaultDriver 3232300554 3232300744.
Proof.
  repeat split; try (vm_compute; reflexivity); try lia; vm_compute; congruence.
Defined.

Lemma allocateIP_walks_pool_witness :
  Forall (call_ok 3232300554 3232300744) (allocateTrace 3 defaultDriver) ∧
  NoDup (successes (allocateTrace 3 defaultDriver)).
Proof.
  apply (allocateIP_walks_pool defaultDriver 3232300554 3232300744 3).
  exact defaultDriver_pool_ok.
Defined.

Example allocateIP_first_three :
  successes (allocateTrace 3 defaultDriver)
  = ["192.168.254.10"; "192.168.254.11"; "192.168.254.12"].
Proof. vm_compute. reflexivity. Qed.

(** ** The lifecycle *)

Section AllocatorFrame.
Context {VMC : Type}.
Local Abbreviation Driver := (Driver VMC).
Implicit Types (d : Driver).

Lemma allocateIP_body_return d (a : netip.Addr) (ip : string) :
  allocateIP_body d a = inr (AllocReturn ip) → isAllocated d ip = false.
Proof.
  unfold allocateIP_body. repeat case_match; intros; simplify_eq.
  by apply negb_true_iff.
Qed.

Lemma iter_allocateIP_body_return d (n : nat) (a : netip.Addr) (ip : string) :
  iter_nat (allocateIP_body d) n a = inr (AllocReturn ip) → isAllocated d ip = false.
Proof.
  revert a. induction n as [|n IH]; intros a; cbn [iter_nat]; [done|].
  destruct (allocateIP_body d a) as [a'|r] eqn:Hbody; [apply IH|].
  intros [= ->]. by eapply allocateIP_body_return.
Qed.

Lemma iter_pos_allocateIP_body_return d (p : positive) (a : netip.Addr) (ip : string) :
  iter_pos (allocateIP_body d) p a = inr (AllocReturn ip) → isAllocated d ip = false.
Proof. rewrite iter_pos_nat. apply iter_allocateIP_body_return. Qed.

(** Whatever the configuration, a call either marks one address that was
    free and returns it, or fails and leaves the driver as it was. *)
Lemma allocateIP_frame d :
  match allocateIP d with
  | (d', inl ip) =>
      isAllocated d ip = false ∧ d' = set_allocatedIPs d (<[ip := true]> (allocatedIPs d))
  | (d', inr _) => d' = d
  end.
Proof.
  unfold allocateIP.
  destruct (negb (netip.IsValid (ipPoolStart d)) || negb (netip.IsValid (ipPoolEnd d)));
    [reflexivity|].
  destruct (allocateIP_loop d) as [a|[ip|err|]] eqn:Hloop; try reflexivity.
  split; [|reflexivity].
  exact (iter_pos_allocateIP_body_return d _ _ ip Hloop).
Qed.

Lemma release_after_take d (ip ip' : string) :
  isAllocated d ip = false →
  isAllocated (deallocateIP (set_allocatedIPs d (<[ip := true]> (allocatedIPs d))) ip) ip'
  = isAllocated d ip'.
Proof.
  intros Hfree. rewrite isAllocated_deallocate, isAllocated_insert.
  case_bool_decide; simplify_eq; simpl; [by rewrite Hfree | done].
Qed.

End AllocatorFrame.

Section LifecycleFacts.
Context {World Payload Other : Type} `{!Host World Payload Other}.
Local Abbreviation Driver := (Driver (VMConfig Payload)).
Local Abbreviation DConfig := (domain.Config Other).
Implicit Types (w : World) (d : Driver) (config : DConfig) (env : gmap string string).

(** The address step either fails without a trace or marks one address
    that was free. *)
Lemma takeIP_frame d config :
  match takeIP d config with
  | (d', inl ip) =>
      isAllocated d ip = false ∧ d' = set_allocatedIPs d (<[ip := true]> (allocatedIPs d))
  | (d', inr _) => d' = d
  end.
Proof.
  unfold takeIP. destruct (staticIP config) as [ip|].
  - destruct (netip.PrefixIsValid (subnet d) && _); [done|].
    destruct (isAllocated d ip) eqn:Hfree; done.
  - pose proof (allocateIP_frame d) as Hframe.
    destruct (allocateIP d) as [d' [ip|err]]; done.
Qed.

(** *** C2: a failed creation leaves no trace in the bookkeeping *)

(** C2.  Whenever [CreateDomain] returns an error, the process registry
    and the allocation set are as they were before the call: the
    address this call took for the VM, from the pool or static, has
    been released again, and no registry entry has been added.  A
    failure at a step comes after the duplicate-name check, so the name
    was not registered before the call and is not registered after
    it. *)
Theorem CreateDomain_error_restores w d config env w' d' (e : error) :
  CreateDomain w d config env = (w', d', RetErr e) →
  processes d' = processes d ∧ ∀ ip, isAllocated d' ip = isAllocated d ip.
Proof.
  unfold CreateDomain. intros Hcreate.
  destruct (bool_decide (is_Some (processes d !! domain.ConfigName config)));
    [by simplify_eq|].
  destruct (os_MkdirAll _ _) as [w1 [|]]; [by simplify_eq|].
  destruct (time_Now w1) as [w2 startedAt].
  pose proof (takeIP_frame d config) as Hframe.
  destruct (takeIP d config) as [d1 [ip0|err]]; [|by simplify_eq].
  destruct Hframe as [Hfree ->].
  assert (∀ w'' e',
            (w'', deallocateIP (set_allocatedIPs d (<[ip0:=true]> (allocatedIPs d))) ip0,
             RetErr e') = (w', d', RetErr e) →
            processes d' = processes d ∧ ∀ ip', isAllocated d' ip' = isAllocated d ip')
    as Hdone.
  { intros w'' e' [= _ <- _]. split; [done|]. intros ip'. by apply release_after_take. }
  destruct (time_Now w2) as [w3 nanos].
  cbn [networkConfig set_allocatedIPs] in Hcreate.
  destruct (networkConfig d) as [nc|]; [|done].
  destruct (createCloudInit _ _ _ _) as [w4 [|]]; [by eapply Hdone|].
  destruct (setupNetworking _ _ _) as [w5 [|]]; [by eapply Hdone|].
  destruct (startVirtiofsd _ _ _) as [[w6 pids] [|]]; [by eapply Hdone|].
  destruct (buildVMConfig _ _ _) as [w7 [vmConfig|]]; [|by eapply Hdone].
  destruct (addVFIODevices _ _ _ _) as [[w8 vmConfig'] [|]]; [by eapply Hdone|].
  destruct (startCHProcess _ _) as [[w9 pid] [|]]; [by eapply Hdone|].
  destruct (createAndBootVM _ _) as [w10 [|]]; [by eapply Hdone|].
  done.
Qed.

End LifecycleFacts.

Lemma CreateDomain_error_restores_witness :
  let r := CreateDomain hostBootFails defaultDriver (plainTask "web") ∅ in
  r.2 = RetErr ErrBoot ∧
  processes r.1.2 = processes defaultDriver ∧
  ∀ ip, isAllocated r.1.2 ip = isAllocated defaultDriver ip.
Proof.
  split; [vm_compute; reflexivity|].
  apply (CreateDomain_error_restores hostBootFails defaultDriver (plainTask "web") ∅
           (CreateDomain hostBootFails defaultDriver (plainTask "web") ∅).1.1 _ ErrBoot).
  vm_compute. reflexivity.
Defined.

(** The duplicate-name rejection comes before every step and touches
    nothing: the call returns an error, and the VM registered earlier
    under the name keeps its entry and its address. *)
Lemma CreateDomain_duplicate_keeps_entry :
  let r := CreateDomain afterWeb.1 afterWeb.2 (plainTask "web") ∅ in
  r.2 = RetErr (ErrAlreadyExists "web") ∧
  (IP <$> processes r.1.2 !! "web") = Some "192.168.254.10" ∧
  isAllocated r.1.2 "192.168.254.10" = true.
Proof. vm_compute. repeat split; reflexivity. Qed.

(** ** Port-forwarding teardown *)

Lemma remove_first_absent (r : iptables.rule) (l : list iptables.rule) :
  r ∉ l → iptables.remove_first r l = l.
Proof.
  induction l as [|x l IH]; [done|]. intros Hnotin. simpl.
  apply not_elem_of_cons in Hnotin as [Hne Hnotin].
  rewrite bool_decide_eq_false_2 by done. by rewrite IH.
Qed.

(** Delete-if-present: the outcome on a rule of a table the kernel
    offers.  No error either way; the host changes only if the rule was
    in place. *)
Lemma DeleteIfExists_known_table (h : iptables.IPTables) (r : iptables.rule) :
  iptables.table r ∈ iptables.tables h →
  iptables.DeleteIfExists h r =
  (if bool_decide (r ∈ iptables.rules h)
   then iptables.MkIPTables (iptables.installed h) (iptables.tables h)
                            (iptables.remove_first r (iptables.rules h))
   else h, None).
Proof.
  intros Htable. unfold iptables.DeleteIfExists, iptables.Exists, iptables.Delete.
  rewrite (bool_decide_eq_true_2 (iptables.table r ∈ iptables.tables h)) by done.
  destruct (bool_decide (r ∈ iptables.rules h)); done.
Qed.

Lemma DeleteIfExists_unknown_table (h : iptables.IPTables) (r : iptables.rule) :
  iptables.table r ∉ iptables.tables h →
  iptables.DeleteIfExists h r = (h, Some (iptables.ErrTable (iptables.table r))).
Proof.
  intros Htable. unfold iptables.DeleteIfExists, iptables.Exists.
  by rewrite bool_decide_eq_false_2.
Qed.

Lemma DeleteIfExists_tables (h : iptables.IPTables) (r : iptables.rule) :
  iptables.tables (iptables.DeleteIfExists h r).1 = iptables.tables h.
Proof.
  destruct (decide (iptables.table r ∈ iptables.tables h)).
  - rewrite DeleteIfExists_known_table by done. by case_bool_decide.
  - by rewrite DeleteIfExists_unknown_table.
Qed.

Lemma teardownLoop_installed (h h1 : iptables.IPTables) (rules : list (list string))
    (errors : list chnet.teardown_error) (res : chnet.teardown_result) :
  chnet.teardownLoop h rules errors = (h1, res) →
  iptables.installed h1 = iptables.installed h.
Proof.
  revert h errors. induction rules as [|rule rules IH]; intros h errors; simpl.
  { by intros [= <- _]. }
  destruct rule as [|t [|c args]]; [by intros [= <- _]..|].
  destruct (iptables.DeleteIfExists h (iptables.MkRule t c args)) as [h' err] eqn:Hdel.
  assert (iptables.installed h' = iptables.installed h) as <-.
  { unfold iptables.DeleteIfExists, iptables.Exists, iptables.Delete in Hdel.
    repeat case_match; simplify_eq; done. }
  destruct err; apply IH.
Qed.

(** Errors are only ever appended. *)
Lemma teardownLoop_errors (h h1 : iptables.IPTables) (rules : list (list string))
    (errors out : list chnet.teardown_error) :
  chnet.teardownLoop h rules errors = (h1, chnet.Returned out) →
  ∃ more, out = errors ++ more.
Proof.
  revert h errors. induction rules as [|rule rules IH]; intros h errors; simpl.
  { intros [= _ <-]. exists []. by rewrite app_nil_r. }
  destruct rule as [|t [|c args]]; [done..|].
  destruct (iptables.DeleteIfExists _ _) as [h' [err|]].
  - intros [more ->]%IH. eexists. by rewrite <- app_assoc.
  - apply IH.
Qed.

(** A run without error: every recorded rule was processable, and the
    tables of the host are as before. *)
Lemma teardownLoop_clean (h h1 : iptables.IPTables) (rules : list (list string))
    (errors : list chnet.teardown_error) :
  chnet.teardownLoop h rules errors = (h1, chnet.Returned []) →
  iptables.tables h1 = iptables.tables h ∧ Forall (processable h) rules.
Proof.
  revert h errors. induction rules as [|rule rules IH]; intros h errors; simpl.
  { intros [= <- _]. split; [done | constructor]. }
  destruct rule as [|t [|c args]]; [done..|].
  pose proof (DeleteIfExists_tables h (iptables.MkRule t c args)) as Htables.
  destruct (decide (t ∈ iptables.tables h)) as [Hknown|Hunknown].
  - rewrite DeleteIfExists_known_table in Htables |- * by done. simpl in Htables.
    intros [Heq Hall]%IH. rewrite Htables in Heq. split; [done|].
    constructor; [by exists t, c, args|].
    eapply Forall_impl; [exact Hall|].
    intros rule (t' & c' & args' & -> & Hin). exists t', c', args'.
    split; [done|]. by rewrite Htables in Hin.
  - rewrite DeleteIfExists_unknown_table by done.
    intros Hrun. apply teardownLoop_errors in Hrun as [more Hmore].
    by destruct errors.
Qed.

(** Processable rules are deleted without error. *)
Lemma teardownLoop_processable (h : iptables.IPTables) (rules : list (list string)) :
  Forall (processable h) rules →
  ∃ h1, chnet.teardownLoop h rules [] = (h1, chnet.Returned []).
Proof.
  revert h. induction rules as [|rule rules IH]; intros h Hall; simpl; [by eexists|].
  apply Forall_cons in Hall as [(t & c & args & -> & Hknown) Hall].
  pose proof (DeleteIfExists_tables h (iptables.MkRule t c args)) as Htables.
  rewrite DeleteIfExists_known_table in Htables |- * by done. simpl in Htables.
  apply IH. eapply Forall_impl; [exact Hall|].
  intros rule (t' & c' & args' & -> & Hin). exists t', c', args'.
  split; [done|]. by rewrite Htables.
Qed.

(** Absent rules are passed over: the host is left as it is. *)
Lemma teardownLoop_absent (h : iptables.IPTables) (rules : list (list string)) :
  Forall (processable h) rules → Forall (absent h) rules →
  chnet.teardownLoop h rules [] = (h, chnet.Returned []).
Proof.
  induction rules as [|rule rules IH]; intros Hproc Habs; simpl; [done|].
  apply Forall_cons in Hproc as [(t & c & args & -> & Hknown) Hproc].
  apply Forall_cons in Habs as [Habsent Habs].
  rewrite DeleteIfExists_known_table by done.
  rewrite bool_decide_eq_false_2 by (by apply Habsent). by apply IH.
Qed.

(** *** C3: teardown can be retried *)

(** C3.  [VMTerminatedTeardown] deletes each recorded rule only if it is
    in place.  First, when the packet-filter tool is installed and every
    recorded rule is one it can process but none is in place on the
    host, the call returns no error and leaves the host as it is.
    Second, whenever a call has returned no error, calling again with
    the same request on the resulting host returns no error either. *)
Theorem VMTerminatedTeardown_retry :
  (∀ h spec,
     Forall (processable h) (chnet.IPTablesRules spec) →
     Forall (absent h) (chnet.IPTablesRules spec) →
     chnet.VMTerminatedTeardown h (Some (chnet.MkTeardownRequest (Some spec)))
     = (h, chnet.Returned [])) ∧
  (∀ h req h1,
     chnet.VMTerminatedTeardown h req = (h1, chnet.Returned []) →
     ∃ h2, chnet.VMTerminatedTeardown h1 req = (h2, chnet.Returned [])).
Proof.
  split.
  - intros h spec Hproc Habs. unfold chnet.VMTerminatedTeardown. simpl.
    destruct (iptables.installed h); simpl; [by apply teardownLoop_absent | done].
  - intros h req h1. unfold chnet.VMTerminatedTeardown.
    destruct req as [req|]; [|intros [= <-]; by eexists].
    destruct req as [req]. destruct req as [spec|]; simpl; [|intros [= <-]; by eexists].
    destruct (iptables.installed h) eqn:Hinst; simpl.
    + intros Hrun. pose proof Hrun as [Htables Hproc]%teardownLoop_clean.
      rewrite (teardownLoop_installed _ _ _ _ _ Hrun), Hinst.
      simpl. apply teardownLoop_processable.
      eapply Forall_impl; [exact Hproc|].
      intros rule (t & c & args & -> & Hin). exists t, c, args.
      split; [done|]. by rewrite Htables.
    + intros [= <-]. rewrite Hinst. by eexists.
Qed.

Lemma VMTerminatedTeardown_retry_witness :
  chnet.VMTerminatedTeardown mappedHost mappedRequest
  = (iptables.MkIPTables true ["filter"; "nat"; "mangle"; "raw"] [], chnet.Returned []) ∧
  ∃ h2,
    chnet.VMTerminatedTeardown
      (iptables.MkIPTables true ["filter"; "nat"; "mangle"; "raw"] []) mappedRequest
    = (h2, chnet.Returned []).
Proof.
  assert (chnet.VMTerminatedTeardown mappedHost mappedRequest
          = (iptables.MkIPTables true ["filter"; "nat"; "mangle"; "raw"] [],
             chnet.Returned [])) as Hfirst by (vm_compute; reflexivity).
  split; [exact Hfirst|].
  exact (proj2 VMTerminatedTeardown_retry mappedHost mappedRequest _ Hfirst).
Defined.

(** ** Derived network settings *)

(** C4 as stated fails on the input of
    [TestDeriveNetworkSettingsOverrides]: the VMM process reports
    192.168.254.15, the task overrides the static IP, and the derived
    address is the override. *)
Lemma deriveNetworkSettings_override_beats_proc :
  let r := deriveNetworkSettings testDriver (Some overridesTask)
                                 (Some (procWithIP "192.168.254.15")) in
  r.2 = true ∧ address r.1 = "10.0.0.50" ∧
  address r.1 ≠ IP (procWithIP "192.168.254.15") ∧
  gateway r.1 = "10.0.0.1" ∧ cidrBits r.1 = 25 ∧
  nameservers r.1 = ["1.1.1.1"; "9.9.9.9"].
Proof. vm_compute. repeat split; try reflexivity. discriminate. Qed.

Example deriveNetworkSettings_defaults :
  deriveNetworkSettings testDriver (Some (plainTask "")) (Some (procWithIP "192.168.254.10"))
  = (MkSettings "192.168.254.10" "192.168.254.1" 24 ["8.8.8.8"; "8.8.4.4"] "eth0", true).
Proof. vm_compute. reflexivity. Qed.

Section DeriveFacts.
Context {VMC Other : Type}.
Implicit Types (d : Driver VMC) (config : option (domain.Config Other))
  (proc : option (VMProcess VMC)).

Lemma default_nonEmpty {A : Type} (f : A → string) (o : option A) :
  default "" (o ≫= λ x, nonEmpty (f x)) = default "" (f <$> o).
Proof.
  destruct o as [x|]; simpl; [|done]. unfold nonEmpty.
  case_bool_decide as Hx; [done | by rewrite Hx].
Qed.

(** What each block does to the four derived fields. *)
Lemma fromProc_fields proc (s : networkSettings) :
  address (fromProc proc s) = default (address s) (proc ≫= λ p, nonEmpty (IP p)) ∧
  gateway (fromProc proc s) = gateway s ∧
  nameservers (fromProc proc s) = nameservers s ∧
  cidrBits (fromProc proc s) = cidrBits s.
Proof.
  unfold fromProc, nonEmpty. destruct proc as [p|]; simpl; [|done].
  by case_bool_decide.
Qed.

Lemma fromDriver_fields d (s : networkSettings) :
  address (fromDriver d s) = address s ∧
  gateway (fromDriver d s) =
    (if netip.IsValid (gatewayIP d) then netip.String (gatewayIP d)
     else default (gateway s) (networkConfig d ≫= λ nc, nonEmpty (domain.Gateway nc))) ∧
  nameservers (fromDriver d s) = nameservers s ∧
  cidrBits (fromDriver d s) =
    (if netip.PrefixIsValid (subnet d) then netip.Bits (subnet d) else cidrBits s).
Proof.
  unfold fromDriver, nonEmpty.
  destruct (netip.PrefixIsValid (subnet d)), (netip.IsValid (gatewayIP d)); try done;
    destruct (networkConfig d) as [nc|]; simpl; try done; by case_bool_decide.
Qed.

Lemma fromBridge_fields (bridge : domain.NetworkInterfaceBridgeConfig) (s : networkSettings) :
  address (fromBridge bridge s) = default (address s) (nonEmpty (domain.StaticIP bridge)) ∧
  gateway (fromBridge bridge s) = default (gateway s) (nonEmpty (domain.BridgeGateway bridge)) ∧
  nameservers (fromBridge bridge s) =
    match domain.DNS bridge with
    | ns :: rest => ns :: rest
    | [] => nameservers s
    end ∧
  cidrBits (fromBridge bridge s) = default (cidrBits s) (netmaskBits bridge).
Proof.
  unfold fromBridge, netmaskBits, nonEmpty.
  destruct (bool_decide (domain.StaticIP bridge ≠ "")),
           (bool_decide (domain.BridgeGateway bridge ≠ "")),
           (bool_decide (domain.Netmask bridge ≠ ""));
    (destruct (strconv.Atoi (domain.Netmask bridge)) as [bits|];
     [destruct ((0 <=? bits) && (bits <=? 32))|]);
    destruct (domain.DNS bridge); done.
Qed.

(** *** C4: precedence of the derived settings *)

(** C4 (as amended).  The per-task static IP override has the highest
    precedence: when the bridge block of the task's first interface
    supplies a non-empty static IP, the derived address is that IP,
    whatever the VMM process record reports; otherwise it is the address
    of the process record; an address is produced exactly when the
    result is non-empty.  For gateway, nameservers and prefix length the
    task override likewise ranks above the driver-wide defaults (the
    configured gateway, 8.8.8.8 and 8.8.4.4, the prefix length of the
    subnet or else 24). *)
Theorem deriveNetworkSettings_precedence d config proc :
  let r := deriveNetworkSettings d config proc in
  address r.1 =
    default (default "" (IP <$> proc)) (bridgeOf config ≫= λ b, nonEmpty (domain.StaticIP b)) ∧
  r.2 = bool_decide (address r.1 ≠ "") ∧
  gateway r.1 =
    default (if netip.IsValid (gatewayIP d) then netip.String (gatewayIP d)
             else default "" (domain.Gateway <$> networkConfig d))
            (bridgeOf config ≫= λ b, nonEmpty (domain.BridgeGateway b)) ∧
  nameservers r.1 =
    match bridgeOf config ≫= λ b, Some (domain.DNS b) with
    | Some (ns :: rest) => ns :: rest
    | _ => ["8.8.8.8"; "8.8.4.4"]
    end ∧
  cidrBits r.1 =
    (let bits :=
       default (if netip.PrefixIsValid (subnet d) then netip.Bits (subnet d) else -1)
               (bridgeOf config ≫= netmaskBits) in
     if bits <? 0 then 24 else bits).
Proof.
  pose proof (fromProc_fields proc (MkSettings "" "" (-1) ["8.8.8.8"; "8.8.4.4"] "eth0"))
    as (Ha1 & Hg1 & Hn1 & Hc1).
  pose proof (fromDriver_fields d
                (fromProc proc (MkSettings "" "" (-1) ["8.8.8.8"; "8.8.4.4"] "eth0")))
    as (Ha2 & Hg2 & Hn2 & Hc2).
  unfold deriveNetworkSettings.
  set (s2 := fromDriver d _) in *.
  set (s3 := match config with Some _ => _ | None => _ end).
  assert (address s3 = default (address s2) (bridgeOf config ≫= λ b, nonEmpty (domain.StaticIP b))
          ∧ gateway s3 = default (gateway s2)
                                 (bridgeOf config ≫= λ b, nonEmpty (domain.BridgeGateway b))
          ∧ nameservers s3 = match bridgeOf config ≫= λ b, Some (domain.DNS b) with
                             | Some (ns :: rest) => ns :: rest
                             | _ => nameservers s2
                             end
          ∧ cidrBits s3 = default (cidrBits s2) (bridgeOf config ≫= netmaskBits))
    as (Ha3 & Hg3 & Hn3 & Hc3).
  { subst s3. unfold bridgeOf.
    destruct config as [cfg|]; [|done].
    destruct (domain.NetworkInterfaces cfg) as [|iface ifaces]; [done|].
    destruct (domain.IfBridge iface) as [bridge|]; [|done].
    apply fromBridge_fields. }
  set (s4 := if cidrBits s3 <? 0 then _ else _).
  assert (address s4 = address s3 ∧ gateway s4 = gateway s3 ∧ nameservers s4 = nameservers s3
          ∧ cidrBits s4 = if cidrBits s3 <? 0 then 24 else cidrBits s3)
    as (Ha4 & Hg4 & Hn4 & Hc4).
  { subst s4. by destruct (cidrBits s3 <? 0). }
  assert (address s4 = default (default "" (IP <$> proc))
                               (bridgeOf config ≫= λ b, nonEmpty (domain.StaticIP b))) as Haddr.
  { rewrite Ha4, Ha3, Ha2, Ha1. simpl. by rewrite default_nonEmpty. }
  assert (gateway s4 =
          default (if netip.IsValid (gatewayIP d) then netip.String (gatewayIP d)
                   else default "" (domain.Gateway <$> networkConfig d))
                  (bridgeOf config ≫= λ b, nonEmpty (domain.BridgeGateway b))) as Hgw.
  { rewrite Hg4, Hg3, Hg2, Hg1. simpl. by rewrite default_nonEmpty. }
  assert (nameservers s4 =
          match bridgeOf config ≫= λ b, Some (domain.DNS b) with
          | Some (ns :: rest) => ns :: rest
          | _ => ["8.8.8.8"; "8.8.4.4"]
          end) as Hns.
  { rewrite Hn4, Hn3, Hn2, Hn1. by repeat case_match. }
  assert (cidrBits s4 =
          (let bits :=
             default (if netip.PrefixIsValid (subnet d) then netip.Bits (subnet d) else -1)
                     (bridgeOf config ≫= netmaskBits) in
           if bits <? 0 then 24 else bits)) as Hcidr.
  { rewrite Hc4, Hc3, Hc2, Hc1. done. }
  cbv zeta. case_bool_decide as Hempty; simpl;
    (split; [exact Haddr|]); (split; [|split; [exact Hgw | split; [exact Hns | exact Hcidr]]]).
  - by rewrite bool_decide_eq_false_2 by (by intros []).
  - by rewrite bool_decide_eq_true_2.
Qed.

End DeriveFacts.

(** ** The shapes of a [CreateDomain] call *)

Section CreateDomainCases.
Context {World Payload Other : Type} `{!Host World Payload Other}.
Local Abbreviation Driver := (Driver (VMConfig Payload)).
Local Abbreviation DConfig := (domain.Config Other).
Implicit Types (w : World) (d : Driver) (config : DConfig) (env : gmap string string).

(** A call ends in one of four ways: an error before or in the address
    step, with the driver untouched; an error after it, with the address
    released; a panic on a driver without network block, with the
    address still marked; or success, with the VM registered under its
    name. *)
Lemma CreateDomain_cases w d config env :
  let r := CreateDomain w d config env in
  (r.1.2 = d ∧ ∃ e, r.2 = RetErr e) ∨
  ∃ ip d1,
    takeIP d config = (d1, inl ip) ∧
    ((r.1.2 = deallocateIP d1 ip ∧ ∃ e, r.2 = RetErr e) ∨
     (r.1.2 = d1 ∧ r.2 = Panic ∧ networkConfig d = None) ∨
     (∃ proc nc nanos,
        r.1.2 = set_processes d1 (<[domain.ConfigName config := proc]> (processes d1)) ∧
        r.2 = RetNil ∧ IP proc = ip ∧ Name proc = domain.ConfigName config ∧
        networkConfig d = Some nc ∧
        TapName proc = tapName (domain.TAPPrefix nc) (domain.ConfigName config) nanos ∧
        MAC proc = generateMAC (domain.ConfigName config) ∧
        processes d !! domain.ConfigName config = None)).
Proof.
  unfold CreateDomain.
  destruct (bool_decide (is_Some (processes d !! domain.ConfigName config))) eqn:Hdup;
    [left; eauto|].
  apply bool_decide_eq_false in Hdup. rewrite <- eq_None_not_Some in Hdup.
  destruct (os_MkdirAll _ _) as [w1 [|]]; [left; eauto|].
  destruct (time_Now w1) as [w2 startedAt].
  pose proof (takeIP_frame d config) as Hframe.
  destruct (takeIP d config) as [d1 [ip0|err]] eqn:Htake; [|left; subst; eauto].
  destruct Hframe as [Hfree Hd1].
  right. exists ip0, d1. split; [done|].
  destruct (time_Now w2) as [w3 nanos].
  assert (networkConfig d1 = networkConfig d) as -> by (by subst d1).
  destruct (networkConfig d) as [nc|]; [|right; left; done].
  destruct (createCloudInit _ _ _ _) as [w4 [|]]; [left; eauto|].
  destruct (setupNetworking _ _ _) as [w5 [|]]; [left; eauto|].
  destruct (startVirtiofsd _ _ _) as [[w6 pids] [|]]; [left; eauto|].
  destruct (buildVMConfig _ _ _) as [w7 [vmConfig|]]; [|left; eauto].
  destruct (addVFIODevices _ _ _ _) as [[w8 vmConfig'] [|]]; [left; eauto|].
  destruct (startCHProcess _ _) as [[w9 pid] [|]]; [left; eauto|].
  destruct (createAndBootVM _ _) as [w10 [|]]; [left; eauto|].
  right; right. eexists _, nc, nanos. simpl. by repeat split.
Qed.

(** No call changes the parsed network configuration. *)
Lemma takeIP_network d config :
  let d1 := (takeIP d config).1 in
  ipPoolStart d1 = ipPoolStart d ∧ ipPoolEnd d1 = ipPoolEnd d ∧
  subnet d1 = subnet d ∧ gatewayIP d1 = gatewayIP d.
Proof.
  pose proof (takeIP_frame d config) as Hframe.
  destruct (takeIP d config) as [d1 [ip|err]]; simpl; [by destruct Hframe as [_ ->] | by subst].
Qed.

Lemma CreateDomain_network w d config env :
  let d' := (CreateDomain w d config env).1.2 in
  ipPoolStart d' = ipPoolStart d ∧ ipPoolEnd d' = ipPoolEnd d ∧
  subnet d' = subnet d ∧ gatewayIP d' = gatewayIP d.
Proof.
  pose proof (takeIP_network d config) as Hnet.
  destruct (CreateDomain_cases w d config env)
    as [[-> _]|(ip & d1 & Htake & [[-> _]|[(-> & _)|(proc & nc & nanos & -> & _)]])];
    try done; by rewrite Htake in Hnet.
Qed.

(** What a call can add to the allocation set: nothing but the address
    its address step took. *)
Lemma CreateDomain_allocated w d config env (key : string) :
  isAllocated (CreateDomain w d config env).1.2 key = true →
  isAllocated d key = true ∨ ∃ d1, takeIP d config = (d1, inl key).
Proof.
  pose proof (takeIP_frame d config) as Hframe.
  destruct (CreateDomain_cases w d config env)
    as [[-> _]|(ip & d1 & Htake & Hcases)]; [by left|].
  rewrite Htake in Hframe |- *. destruct Hframe as [Hfree ->].
  assert (isAllocated (set_allocatedIPs d (<[ip:=true]> (allocatedIPs d))) key = true →
          isAllocated d key = true ∨
          ∃ d1, (set_allocatedIPs d (<[ip:=true]> (allocatedIPs d)), inl ip)
                = (d1, @inl string error key)) as Hins.
  { rewrite isAllocated_insert. case_bool_decide; [subst; eauto | by left]. }
  destruct Hcases as [[-> _]|[(-> & _)|(proc & nc & nanos & -> & _)]].
  - rewrite release_after_take by done. by left.
  - done.
  - done.
Qed.

End CreateDomainCases.

(** ** The allocation invariant *)

Section InvariantFacts.
Context {World Payload Other : Type} `{!Host World Payload Other}.
Local Abbreviation Driver := (Driver (VMConfig Payload)).
Local Abbreviation DConfig := (domain.Config Other).
Implicit Types (w : World) (d : Driver) (config : DConfig) (env : gmap string string).

Lemma same_network_pool_ok d d' s e : same_network d d' → pool_ok d s e → pool_ok d' s e.
Proof. intros (Hs & He & Hsub & Hgw). unfold pool_ok. by rewrite Hs, He, Hsub. Qed.

Lemma same_network_pool_address d d' s e (key : string) :
  same_network d d' → pool_address d s e key → pool_address d' s e key.
Proof. intros (Hs & He & Hsub & Hgw). unfold pool_address. by rewrite Hsub, Hgw. Qed.

Lemma same_network_static_checked d d' (key : string) :
  same_network d d' → static_checked d key → static_checked d' key.
Proof. intros (Hs & He & Hsub & Hgw). unfold static_checked. by rewrite Hsub. Qed.

(** The address step hands out a pool address when the task gives no
    static IP, and otherwise the static IP, after the static check. *)
Lemma takeIP_key d s e config d1 (key : string) :
  pool_ok d s e → takeIP d config = (d1, inl key) →
  (staticIP config = None ∧ pool_address d s e key) ∨
  (staticIP config = Some key ∧ static_checked d key).
Proof.
  intros Hok. unfold takeIP. destruct (staticIP config) as [ip|].
  - destruct (netip.PrefixIsValid (subnet d) && _) eqn:Hcheck; [done|].
    destruct (isAllocated d ip); [done|]. intros [= _ <-]. right. split; [done|].
    intros Hvalid addr Hparse. rewrite Hvalid, Hparse in Hcheck. simpl in Hcheck.
    by apply negb_false_iff.
  - destruct (allocateIP_call_ok d s e Hok) as [Hcall _].
    destruct (allocateIP d) as [d' [ip|err]]; [|done]. intros [= _ <-]. left.
    split; [done|]. destruct Hcall as (v & -> & Hv & Hgw & _).
    exists v. repeat split; [lia..|done|]. intros Hvalid.
    destruct Hok as (_ & _ & _ & _ & _ & Hsub). destruct (Hsub Hvalid) as [Hcs Hce].
    by apply (Contains_between _ s e v).
Qed.

Lemma StopDomain_driver w d (name : string) : (StopDomain w d name).1.2 = d.
Proof.
  unfold StopDomain. destruct (processes d !! name) as [proc|]; [|done].
  by destruct (shutdownVM w proc) as [w1 [|]].
Qed.

Lemma DestroyDomain_driver w d (name : string) :
  (DestroyDomain w d name).1.2 =
  match processes d !! name with
  | Some proc => set_processes (deallocateIP d (IP proc)) (delete name (processes d))
  | None => d
  end.
Proof.
  unfold DestroyDomain. destruct (processes d !! name) as [proc|]; [|done].
  by destruct (shutdownVM w proc) as [w1 failed].
Qed.

(** One call keeps the network configuration and the invariant. *)
Lemma step_inv w d s e (o : @op Other) (statics : list string) :
  (∀ ip, ip ∈ staticIPs [o] → ip ∈ statics) →
  pool_ok d s e → allocation_inv d s e statics →
  same_network d (step (w, d) o).2 ∧ allocation_inv (step (w, d) o).2 s e statics.
Proof.
  intros Hstatics Hok Hinv. destruct o as [config env|name|name]; simpl.
  - pose proof (CreateDomain_network w d config env) as Hnet. split; [done|].
    intros key Hkey. apply CreateDomain_allocated in Hkey as [Hold|[d1 Htake]].
    + destruct (Hinv key Hold) as [Hpool|[Hin Hchk]].
      * left. by eapply same_network_pool_address.
      * right. split; [done|]. by eapply same_network_static_checked.
    + destruct (takeIP_key d s e config d1 key Hok Htake) as [[_ Hpool]|[Hstatic Hchk]].
      * left. by eapply same_network_pool_address.
      * right. split; [|by eapply same_network_static_checked].
        apply Hstatics. unfold staticIPs. simpl. rewrite Hstatic. by left.
  - by rewrite StopDomain_driver.
  - rewrite DestroyDomain_driver. destruct (processes d !! name) as [proc|]; [|done].
    split; [done|]. intros key Hkey.
    assert (isAllocated d key = true) as Hold.
    { change (isAllocated (deallocateIP d (IP proc)) key = true) in Hkey.
      rewrite isAllocated_deallocate in Hkey. by apply andb_prop in Hkey as [_ ?]. }
    exact (Hinv key Hold).
Qed.

Lemma run_inv (ops : list (@op Other)) w d s e (statics : list string) :
  (∀ ip, ip ∈ staticIPs ops → ip ∈ statics) →
  pool_ok d s e → allocation_inv d s e statics →
  allocation_inv (run (w, d) ops).2 s e statics.
Proof.
  revert w d. induction ops as [|o ops IH]; intros w d Hstatics Hok Hinv; [done|].
  unfold run. simpl. destruct (step (w, d) o) as [w' d'] eqn:Hstep.
  assert (same_network d d' ∧ allocation_inv d' s e statics) as [Hnet Hinv'].
  { pose proof (step_inv w d s e o statics) as Hone. rewrite Hstep in Hone.
    apply Hone; [|done..]. intros ip Hin. apply Hstatics.
    unfold staticIPs in *. simpl. destruct o; simpl in *;
      try (by apply elem_of_nil in Hin);
      destruct (staticIP config); [|by apply elem_of_nil in Hin].
    apply list_elem_of_singleton in Hin as ->. by left. }
  apply IH; [|by eapply same_network_pool_ok|done].
  intros ip Hin. apply Hstatics. unfold staticIPs in *. simpl.
  destruct o; simpl; try done. destruct (staticIP config); [by right | done].
Qed.

(** *** C5: what the allocation set can hold *)

(** C5 (as amended).  After any sequence of [CreateDomain], [StopDomain]
    and [DestroyDomain] calls on a driver with a usable pool, started
    from an allocation set of pool addresses, every allocated address is
    either an address of the pool other than the gateway (inside the
    subnet when one is configured), or one of the static IPs the
    creation requests supplied; a static IP bypasses the pool scan and
    is checked neither against the pool bounds nor against the gateway
    (if it parses as an address, the subnet contains it).  In
    particular, when no request supplies a static IP, every allocated
    address lies in the subnet and the pool and is not the gateway. *)
Theorem allocation_invariant w d s e (ops : list (@op Other)) :
  pool_ok d s e → allocation_inv d s e [] →
  allocation_inv (run (w, d) ops).2 s e (staticIPs ops) ∧
  (staticIPs ops = [] →
   ∀ key, isAllocated (run (w, d) ops).2 key = true →
          pool_address (run (w, d) ops).2 s e key).
Proof.
  intros Hok Hinv.
  assert (allocation_inv (run (w, d) ops).2 s e (staticIPs ops)) as Hrun.
  { apply run_inv; [done..|]. intros key Hkey.
    destruct (Hinv key Hkey) as [?|[Hin _]]; [by left | by apply elem_of_nil in Hin]. }
  split; [done|]. intros Hnone key Hkey.
  destruct (Hrun key Hkey) as [?|[Hin _]]; [done|].
  rewrite Hnone in Hin. by apply elem_of_nil in Hin.
Qed.

End InvariantFacts.

Lemma defaultDriver_allocation_inv : allocation_inv defaultDriver 3232300554 3232300744 [].
Proof.
  intros key Hkey. exfalso. unfold isAllocated in Hkey.
  replace (allocatedIPs defaultDriver) with (∅ : gmap string bool) in Hkey
    by (vm_compute; reflexivity).
  by rewrite lookup_empty in Hkey.
Defined.

Lemma allocation_invariant_witness :
  allocation_inv (run (host0, defaultDriver) mixedOps).2 3232300554 3232300744
                 (staticIPs mixedOps) ∧
  (staticIPs mixedOps = [] →
   ∀ key, isAllocated (run (host0, defaultDriver) mixedOps).2 key = true →
          pool_address (run (host0, defaultDriver) mixedOps).2 3232300554 3232300744 key).
Proof.
  apply (allocation_invariant host0 defaultDriver 3232300554 3232300744 mixedOps).
  - exact defaultDriver_pool_ok.
  - exact defaultDriver_allocation_inv.
Defined.

(** C5 as stated fails for the static-IP path: a static IP inside the
    subnet but past the pool end is accepted and allocated, and so is
    the gateway address itself. *)
Lemma static_IP_outside_pool_or_gateway_allocated :
  let past := (CreateDomain host0 defaultDriver (staticTask "db" "192.168.254.250") ∅) in
  let gw := (CreateDomain host0 defaultDriver (staticTask "db" "192.168.254.1") ∅) in
  past.2 = RetNil ∧ isAllocated past.1.2 "192.168.254.250" = true ∧
  netip.ParseAddr "192.168.254.250" = Some (netip.IPv4 3232300794) ∧
  ipPoolEnd past.1.2 = netip.IPv4 3232300744 ∧ 3232300744 < 3232300794 ∧
  gw.2 = RetNil ∧ isAllocated gw.1.2 "192.168.254.1" = true ∧
  netip.String (gatewayIP gw.1.2) = "192.168.254.1".
Proof. vm_compute. repeat split; reflexivity. Qed.

(** ** Static addresses *)

Section StaticFacts.
Context {Payload Other : Type}.
Implicit Types (d : Driver (VMConfig Payload)) (config : domain.Config Other).

(** The static-IP branch of the address step: the request is refused
    when a subnet is configured and the text parses as an address
    outside it, or when the text is already marked allocated; in every
    other case it is accepted as it is. *)
Lemma takeIP_static d config (ip : string) :
  staticIP config = Some ip →
  takeIP d config =
  if netip.PrefixIsValid (subnet d)
     && match netip.ParseAddr ip with
        | Some addr => negb (netip.Contains (subnet d) addr)
        | None => false
        end
  then (d, inr (ErrStaticOutsideSubnet ip))
  else if isAllocated d ip then (d, inr (ErrStaticAllocated ip))
  else (set_allocatedIPs d (<[ip := true]> (allocatedIPs d)), inl ip).
Proof. intros Hstatic. unfold takeIP. by rewrite Hstatic. Qed.

End StaticFacts.

(** *** C6: validation of a static IP *)

(** C6 (the code departs from it).  With the subnet 192.168.254.0/24
    configured, the static IP ["192.168.254.300"] is not the text of any
    address, let alone one inside the subnet; [CreateDomain] nevertheless
    accepts it, registers the VM with it and marks the text allocated.
    A parsable address outside the subnet and an address already
    allocated are refused. *)
Theorem CreateDomain_accepts_unparsable_static_IP :
  let bad := CreateDomain host0 defaultDriver (staticTask "db" "192.168.254.300") ∅ in
  let outside := CreateDomain host0 defaultDriver (staticTask "db" "10.0.0.50") ∅ in
  let taken := CreateDomain afterWeb.1 afterWeb.2 (staticTask "db" "192.168.254.10") ∅ in
  netip.ParseAddr "192.168.254.300" = None ∧
  bad.2 = RetNil ∧
  isAllocated bad.1.2 "192.168.254.300" = true ∧
  (IP <$> processes bad.1.2 !! "db") = Some "192.168.254.300" ∧
  outside.2 = RetErr (ErrStaticOutsideSubnet "10.0.0.50") ∧
  taken.2 = RetErr (ErrStaticAllocated "192.168.254.10").
Proof. vm_compute. repeat split; reflexivity. Qed.

(** ** Stop and destroy *)

Section StopDestroyFacts.
Context {World Payload Other : Type} `{!Host World Payload Other}.
Local Abbreviation Driver := (Driver (VMConfig Payload)).
Implicit Types (w : World) (d : Driver).

(** *** C7: what stop and destroy change *)

(** C7.  For a registered name, [StopDomain] returns no error and leaves
    the driver (registry and allocation set) as it is, while
    [DestroyDomain] returns no error, removes the registry entry of the
    name and nothing else, and removes the VM's IP from the allocation
    set and nothing else.  For a name that is not registered both
    return the not-found error and change neither the host nor the
    driver. *)
Theorem Stop_Destroy_effect w d (name : string) :
  match processes d !! name with
  | Some proc =>
      (StopDomain w d name).1.2 = d ∧ (StopDomain w d name).2 = RetNil ∧
      (DestroyDomain w d name).2 = RetNil ∧
      processes (DestroyDomain w d name).1.2 = delete name (processes d) ∧
      isAllocated (DestroyDomain w d name).1.2 (IP proc) = false ∧
      ∀ ip, ip ≠ IP proc →
            isAllocated (DestroyDomain w d name).1.2 ip = isAllocated d ip
  | None =>
      StopDomain w d name = (w, d, RetErr (ErrNotFound name)) ∧
      DestroyDomain w d name = (w, d, RetErr (ErrNotFound name))
  end.
Proof.
  rewrite StopDomain_driver, DestroyDomain_driver.
  unfold StopDomain, DestroyDomain.
  destruct (processes d !! name) as [proc|]; [|done].
  destruct (shutdownVM w proc) as [w1 failed]. simpl.
  repeat split.
  - change (isAllocated (deallocateIP d (IP proc)) (IP proc) = false).
    rewrite isAllocated_deallocate. by rewrite bool_decide_eq_true_2.
  - intros ip Hne. change (isAllocated (deallocateIP d (IP proc)) ip = isAllocated d ip).
    rewrite isAllocated_deallocate. by rewrite bool_decide_eq_false_2.
Qed.

End StopDestroyFacts.

Example Stop_Destroy_web :
  (IP <$> processes afterWeb.2 !! "web") = Some "192.168.254.10" ∧
  (StopDomain afterWeb.1 afterWeb.2 "web").1.2 = afterWeb.2 ∧
  processes (DestroyDomain afterWeb.1 afterWeb.2 "web").1.2 = ∅ ∧
  isAllocated (DestroyDomain afterWeb.1 afterWeb.2 "web").1.2 "192.168.254.10" = false ∧
  (DestroyDomain afterWeb.1 afterWeb.2 "db").2 = RetErr (ErrNotFound "db").
Proof. vm_compute. repeat split; reflexivity. Qed.

(** ** TAP names and MAC addresses *)

Lemma string_length_app (a b : string) :
  String.length (a +:+ b) = (String.length a + String.length b)%nat.
Proof. induction a as [|c a IH]; simpl; [done | by rewrite IH]. Qed.

Lemma string_length_substring (n : nat) (s : string) :
  (n ≤ String.length s)%nat → String.length (String.substring 0 n s) = n.
Proof.
  revert s. induction n as [|n IH]; intros s Hn; destruct s as [|c s]; simpl in *;
    try done; try lia. rewrite IH; [done | lia].
Qed.

Lemma hexbytes_length (l : list Z) : String.length (fmt.hexbytes l) = (2 * length l)%nat.
Proof.
  unfold fmt.hexbytes. induction l as [|b l IH]; [done|].
  cbn [foldr length]. rewrite string_length_app, IH. unfold fmt.hex02. simpl. lia.
Qed.

Lemma sha256_round_length (st : list Z) (kw : Z * Z) :
  length (sha256.round st kw) = length st.
Proof. unfold sha256.round. by repeat case_match. Qed.

Lemma sha256_block_length (h chunk : list Z) :
  length (sha256.block h chunk) = length h.
Proof.
  unfold sha256.block. rewrite length_zip_with.
  assert (∀ l st, length (fold_left sha256.round l st) = length st) as ->; [|lia].
  induction l as [|kw l IH]; intros st; simpl; [done|].
  by rewrite IH, sha256_round_length.
Qed.

Lemma sha256_blocks_length (fuel : nat) (h msg : list Z) :
  length (sha256.blocks fuel h msg) = length h.
Proof.
  revert h msg. induction fuel as [|fuel IH]; intros h msg; simpl; [done|].
  destruct msg; [done|]. by rewrite IH, sha256_block_length.
Qed.

(** The digest has 32 bytes. *)
Lemma Sum256_length (msg : list Z) : length (sha256.Sum256 msg) = 32%nat.
Proof.
  unfold sha256.Sum256.
  pose proof (sha256_blocks_length (length (sha256.pad msg)) sha256.H0 (sha256.pad msg)) as Hlen.
  destruct (sha256.blocks _ _ _) as [|a [|b [|c [|d [|e [|f [|g [|h [|]]]]]]]]]; done.
Qed.

(** The TAP name is the prefix followed by eight characters. *)
Lemma tapName_length (tapPrefix name : string) (nanos : Z) :
  String.length (tapName tapPrefix name nanos) = (String.length tapPrefix + 8)%nat.
Proof.
  unfold tapName. rewrite string_length_app, string_length_substring; [done|].
  rewrite hexbytes_length, Sum256_length. lia.
Qed.

(** *** C9: length of the TAP interface name *)

(** C9 (the code departs from it).  With the TAP prefix ["nomad-tap"],
    the example of the installation guide, [CreateDomain] succeeds and
    gives the VM a TAP name of 17 characters, two more than an interface
    name may have.  In general the name is the prefix followed by eight
    characters ([tapName_length]), whatever the length of the prefix. *)
Theorem CreateDomain_tap_name_too_long :
  let r := CreateDomain host0 longPrefixDriver (plainTask "web") ∅ in
  r.2 = RetNil ∧
  (TapName <$> processes r.1.2 !! "web") = Some "nomad-tapc4719afa" ∧
  (String.length <$> (TapName <$> processes r.1.2 !! "web")) = Some 17%nat ∧
  (15 < 17)%nat.
Proof. vm_compute. repeat split; try reflexivity; lia. Qed.

(** *** C10: the two MAC derivations agree *)

(** C10.  For every VM name the driver's [generateMAC] and the network
    controller's [generateDeterministicMAC] return the same string: both
    fold the runes of the name with [hash*31 + rune] in a 64-bit [int]
    and print the three low bytes after the prefix 52:54:00. *)
Theorem generateMAC_agrees (name : string) :
  generateMAC name = chnet.generateDeterministicMAC name.
Proof.
  unfold generateMAC, chnet.generateDeterministicMAC. reflexivity.
Qed.

Example generateMAC_web : generateMAC "web" = "52:54:00:01:cb:54".
Proof. vm_compute. reflexivity. Qed.

(** ** The VFIO allowlist *)

(** The rows of [TestMatchesAllowlist]. *)
Example matchesAllowlist_test_table :
  vfio.matchesAllowlist "10de" "2204" ["10de:2204"] = true ∧
  vfio.matchesAllowlist "10de" "2204" ["10de:*"] = true ∧
  vfio.matchesAllowlist "8086" "0d26" ["10de:*"] = false ∧
  vfio.matchesAllowlist "10de" "2204" ["10de:*"; "8086:*"] = true ∧
  vfio.matchesAllowlist "8086" "0d26" ["10de:*"; "8086:*"] = true ∧
  vfio.matchesAllowlist "1002" "67df" ["10de:*"; "8086:*"] = false ∧
  vfio.matchesAllowlist "10de" "2204" [] = false ∧
  vfio.matchesAllowlist "10DE" "2204" ["10de:2204"] = true ∧
  vfio.matchesAllowlist "10DE" "2204" ["10de:*"] = true.
Proof. repeat split; reflexivity. Qed.

(** *** C8: the allowlist matcher *)

(** C8 as stated fails on the empty allowlist: the matcher itself
    answers [false] there (the "empty allowlist" row of
    [TestMatchesAllowlist]). *)
Lemma matchesAllowlist_empty_is_false : vfio.matchesAllowlist "10de" "2204" [] = false.
Proof. reflexivity. Qed.

(** C8 (as amended).  The matcher returns [true] exactly when the
    allowlist contains the pair's [vendor:device] entry or a [vendor:*]
    wildcard for the pair's vendor, compared case-insensitively; on the
    empty allowlist it returns [false].  It is the allowlist test of
    [ValidateDevices] that lets every pair pass when the allowlist is
    empty and consults the matcher otherwise. *)
Theorem matchesAllowlist_spec (vendor device : string) (allowlist : list string) :
  (vfio.matchesAllowlist vendor device allowlist = true ↔
   ∃ entry, entry ∈ allowlist ∧
            (vfio.ToLower entry = vfio.ToLower (vendor +:+ ":" +:+ device) ∨
             vfio.ToLower entry = vfio.ToLower (vendor +:+ ":*"))) ∧
  vfio.matchesAllowlist vendor device [] = false ∧
  vfio.deviceAllowed vendor device [] = true ∧
  (vfio.deviceAllowed vendor device allowlist = true ↔
   allowlist = [] ∨ vfio.matchesAllowlist vendor device allowlist = true).
Proof.
  repeat split; try done.
  - unfold vfio.matchesAllowlist. intros (entry & Hin & Hmatch)%existsb_exists.
    exists entry. split; [by apply list_elem_of_In|].
    apply orb_prop in Hmatch as [Heq|Heq]; apply String.eqb_eq in Heq; eauto.
  - intros (entry & Hin & Hmatch). unfold vfio.matchesAllowlist.
    apply existsb_exists. exists entry. split; [by apply list_elem_of_In|].
    apply orb_true_intro. destruct Hmatch as [->| ->]; rewrite String.eqb_refl; eauto.
  - destruct allowlist; [by left | by right].
  - intros [->|Hmatch]; [done|]. by destruct allowlist.
Qed.

(* ================================================================== *)
(** * Further properties *)

(** ** Address texts round-trip *)

Lemma testbit_byte_at (v s k : Z) :
  0 <= s → 0 <= k →
  Z.testbit (Z.shiftl (Z.land (Z.shiftr v s) 255) s) k
  = Z.testbit v k && bool_decide (s <= k < s + 8).
Proof.
  intros Hs Hk. change 255 with (Z.ones 8).
  rewrite Z.shiftl_spec by lia.
  destruct (decide (k - s < 0)) as [Hneg|Hpos].
  { rewrite Z.testbit_neg_r by lia. rewrite bool_decide_eq_false_2 by lia.
    by rewrite andb_false_r. }
  rewrite Z.land_spec, Z.shiftr_spec, Z.testbit_ones by lia.
  replace (k - s + s) with k by lia. f_equal.
  case_bool_decide; [apply andb_true_intro; split; [apply Z.leb_le|apply Z.ltb_lt]; lia|].
  apply andb_false_iff.
  destruct (decide (k - s < 8)); [lia|]. right. apply Z.ltb_ge. lia.
Qed.

Lemma octets_join (v : Z) :
  0 <= v < 2 ^ 32 →
  Z.lor (Z.lor (Z.lor (Z.shiftl (netip.octet v 0) 24) (Z.shiftl (netip.octet v 1) 16))
               (Z.shiftl (netip.octet v 2) 8)) (netip.octet v 3) = v.
Proof.
  intros Hv. apply Z.bits_inj'. intros k Hk. unfold netip.octet.
  change (8 * (3 - 0)) with 24. change (8 * (3 - 1)) with 16.
  change (8 * (3 - 2)) with 8. change (8 * (3 - 3)) with 0.
  rewrite <- (Z.shiftl_0_r (Z.land (Z.shiftr v 0) 255)).
  rewrite !Z.lor_spec, !testbit_byte_at by lia.
  destruct (decide (k < 32)) as [Hlt|Hge].
  - destruct (Z.testbit v k); simpl; [|done].
    repeat case_bool_decide; simpl; try done; lia.
  - assert (Z.testbit v k = false) as ->; [|done].
    destruct (decide (v = 0)) as [->|Hne]; [apply Z.testbit_0_l|].
    apply Z.bits_above_log2; [lia|].
    assert (Z.log2 v < 32) by (apply Z.log2_lt_pow2; lia). lia.
Qed.

Lemma byte_cases (P : Z → Prop) :
  (∀ m : nat, (m < 256)%nat → P (Z.of_nat m)) → ∀ n, 0 <= n <= 255 → P n.
Proof. intros H n Hn. rewrite <- (Z2Nat.id n) by lia. apply H. lia. Qed.

(** Scanning the decimal text of a byte at the start of a field leaves
    the byte as the value of the field. *)
Lemma parse_octet (n : Z) :
  0 <= n <= 255 → ∃ len : Z, ∀ (first : bool) (fs : list Z) (pd : bool) (rest : string),
  netip.parseIPv4Fields first (netip.appendDecimal n +:+ rest) (netip.Scan 0 0 fs pd)
  = netip.parseIPv4Fields false rest (netip.Scan n len fs false).
Proof.
  intros Hn. pattern n. apply byte_cases; [|done]. clear n Hn.
  intros m Hm.
  exists (if 100 <=? Z.of_nat m then 3 else if 10 <=? Z.of_nat m then 2 else 1).
  intros first fs pd rest.
  do 256 (destruct m as [|m]; [reflexivity|]). lia.
Qed.

Lemma firstSep_octet (n : Z) :
  0 <= n <= 255 → ∀ rest : string,
  netip.firstSep (netip.appendDecimal n +:+ "." +:+ rest) = Some "."%char.
Proof.
  intros Hn. pattern n. apply byte_cases; [|done]. clear n Hn.
  intros m Hm rest.
  do 256 (destruct m as [|m]; [reflexivity|]). lia.
Qed.

Lemma appendDecimal_cons (n : Z) (rest : string) :
  ∃ c t, netip.appendDecimal n +:+ rest = String c t.
Proof.
  unfold netip.appendDecimal. destruct (100 <=? n), (10 <=? n); simpl; eauto.
Qed.

Lemma parse_dot (s : string) (val len : Z) (fs : list Z) :
  (length fs < 3)%nat → (∃ c t, s = String c t) →
  netip.parseIPv4Fields false ("." +:+ s) (netip.Scan val len fs false)
  = netip.parseIPv4Fields false s (netip.Scan 0 0 (fs ++ [val]) true).
Proof.
  intros Hlen (c & t & ->). simpl.
  destruct (Z.eqb_spec (Z.of_nat (length fs)) 3); [lia | done].
Qed.

Lemma string_app_nil_r (s : string) : s +:+ "" = s.
Proof.
  induction s as [|c s IH]; [done|].
  change (String c (s +:+ "") = String c s). by rewrite IH.
Qed.

Lemma octet_byte (v i : Z) : 0 <= netip.octet v i <= 255.
Proof.
  unfold netip.octet. change 255 with (Z.ones 8) at 1 2. rewrite Z.land_ones by lia.
  pose proof (Z.mod_pos_bound (Z.shiftr v (8 * (3 - i))) (2 ^ 8)). lia.
Qed.

(** Parsing the text of an address gives the address back. *)
Lemma ParseAddr_String (a : netip.Addr) :
  netip.IsValid a = true → netip.wf a → netip.ParseAddr (netip.String a) = Some a.
Proof.
  destruct a as [|v]; [done|]. intros _ Hv. simpl in Hv.
  unfold netip.ParseAddr, netip.String.
  rewrite firstSep_octet by apply octet_byte. simpl Ascii.eqb. cbv iota.
  unfold netip.parseIPv4.
  destruct (parse_octet (netip.octet v 0) (octet_byte v 0)) as [l0 ->].
  rewrite parse_dot; [|simpl; lia|apply appendDecimal_cons].
  destruct (parse_octet (netip.octet v 1) (octet_byte v 1)) as [l1 ->].
  rewrite parse_dot; [|simpl; lia|apply appendDecimal_cons].
  destruct (parse_octet (netip.octet v 2) (octet_byte v 2)) as [l2 ->].
  rewrite <- (string_app_nil_r (netip.appendDecimal (netip.octet v 3))).
  rewrite parse_dot; [|simpl; lia|apply appendDecimal_cons].
  destruct (parse_octet (netip.octet v 3) (octet_byte v 3)) as [l3 ->].
  simpl. by rewrite octets_join.
Qed.

Lemma String_inj (u v : Z) :
  0 <= u < 2 ^ 32 → 0 <= v < 2 ^ 32 →
  netip.String (netip.IPv4 u) = netip.String (netip.IPv4 v) → u = v.
Proof.
  intros Hu Hv Heq.
  assert (Some (netip.IPv4 u) = Some (netip.IPv4 v)) as [= ->]; [|done].
  rewrite <- (ParseAddr_String (netip.IPv4 u)), <- (ParseAddr_String (netip.IPv4 v)) by done.
  by rewrite Heq.
Qed.

(** ** How many addresses a pool serves *)

Section Capacity.
Context {VMC : Type}.
Implicit Types (d : Driver VMC) (s e v : Z).

(** Marking the text of address [v] changes what the scan passes over at
    [v] only. *)
Lemma skipped_insert d v u :
  0 <= v < 2 ^ 32 → 0 <= u < 2 ^ 32 →
  skipped (set_allocatedIPs d (<[netip.String (netip.IPv4 v) := true]> (allocatedIPs d))) u
  = bool_decide (u = v) || skipped d u.
Proof.
  intros Hv Hu. unfold skipped. rewrite isAllocated_insert. cbn [gatewayIP set_allocatedIPs].
  assert (bool_decide (netip.String (netip.IPv4 v) = netip.String (netip.IPv4 u))
          = bool_decide (u = v)) as ->.
  { apply bool_decide_ext. split; [by intros ->%String_inj | by intros ->]. }
  by destruct (bool_decide (u = v)), (bool_decide (gatewayIP d = netip.IPv4 u)).
Qed.

Lemma skipped_deallocate d v u :
  0 <= v < 2 ^ 32 → 0 <= u < 2 ^ 32 →
  skipped (deallocateIP d (netip.String (netip.IPv4 v))) u
  = bool_decide (gatewayIP d = netip.IPv4 u)
    || negb (bool_decide (u = v)) && isAllocated d (netip.String (netip.IPv4 u)).
Proof.
  intros Hv Hu. unfold skipped. rewrite isAllocated_deallocate.
  assert (bool_decide (netip.String (netip.IPv4 v) = netip.String (netip.IPv4 u))
          = bool_decide (u = v)) as ->; [|done].
  apply bool_decide_ext. split; [by intros ->%String_inj | by intros ->].
Qed.

Lemma filter_absent (Q : Z → bool) (v : Z) (l : list Z) :
  v ∉ l →
  filter (λ u, (bool_decide (u = v) || Q u) = false) l = filter (λ u, Q u = false) l.
Proof.
  induction l as [|x l IH]; intros Hin; [done|].
  apply not_elem_of_cons in Hin as [Hne Hin]. rewrite !filter_cons.
  rewrite (bool_decide_eq_false_2 (x = v)) by done. cbn [orb].
  rewrite IH by done. done.
Qed.

Lemma filter_remove_one (Q : Z → bool) (v : Z) (l : list Z) :
  NoDup l → v ∈ l → Q v = false →
  S (length (filter (λ u, (bool_decide (u = v) || Q u) = false) l))
  = length (filter (λ u, Q u = false) l).
Proof.
  intros Hnodup. induction Hnodup as [|x l Hx Hnodup IH]; intros Hin HQ.
  { by apply elem_of_nil in Hin. }
  rewrite !filter_cons.
  apply elem_of_cons in Hin as [<-|Hin].
  - rewrite (decide_False (P := (bool_decide (v = v) || Q v) = false)).
    2:{ rewrite bool_decide_eq_true_2 by done. done. }
    rewrite (decide_True (P := Q v = false)) by done.
    simpl. by rewrite filter_absent.
  - assert (x ≠ v) by (intros ->; done).
    rewrite (bool_decide_eq_false_2 (x = v)) by done. cbn [orb].
    destruct (decide (Q x = false)); simpl; rewrite <- IH by done; done.
Qed.

Lemma filter_ext_in (Q1 Q2 : Z → bool) (l : list Z) :
  (∀ x, x ∈ l → Q1 x = Q2 x) →
  filter (λ u, Q1 u = false) l = filter (λ u, Q2 u = false) l.
Proof.
  induction l as [|x l IH]; intros Hext; [done|].
  rewrite !filter_cons, (Hext x) by left. rewrite IH; [done|].
  intros y Hy. apply Hext. by right.
Qed.

(** A successful call uses up one free address; a failed call found
    none. *)
Lemma allocateIP_free_count d s e :
  pool_ok d s e →
  match allocateIP d with
  | (d', inl _) =>
      pool_ok d' s e ∧ S (length (freeAddresses d' s e)) = length (freeAddresses d s e)
  | (d', inr _) => d' = d ∧ freeAddresses d s e = []
  end.
Proof.
  intros Hok. destruct (allocateIP_call_ok d s e Hok) as [Hcall Hstate].
  pose proof Hok as (_ & _ & H0 & Hse & H32 & _).
  destruct (allocateIP d) as [d' [ip|err]]; simpl in Hcall, Hstate.
  - subst d'. split; [by apply pool_ok_set_allocatedIPs|].
    destruct Hcall as (v & -> & Hv & Hgw & Hfree & _). unfold freeAddresses.
    rewrite (filter_ext_in _ (λ u, bool_decide (u = v) || skipped d u)).
    2:{ intros u Hu%elem_of_seqZ. apply skipped_insert; lia. }
    apply filter_remove_one; [apply NoDup_seqZ | apply elem_of_seqZ; lia |].
    cbn [fst] in Hgw, Hfree. unfold skipped. rewrite Hfree. by rewrite bool_decide_eq_false_2.
  - split; [done|]. destruct Hcall as [_ Hall]. unfold freeAddresses.
    destruct (filter _ _) as [|u l] eqn:Hfilter; [done|].
    assert (u ∈ filter (λ v, skipped d v = false) (seqZ s (e - s + 1))) as Hin
      by (rewrite Hfilter; left).
    apply list_elem_of_filter in Hin as [Hfree Hin]. apply elem_of_seqZ in Hin.
    rewrite Hall in Hfree by lia. done.
Qed.

Lemma successes_cons d (r : string + error) (t : list (Driver VMC * (string + error))) :
  successes ((d, r) :: t)
  = match r with inl ip => ip :: successes t | inr _ => successes t end.
Proof. by destruct r. Qed.

(** X1.  On a usable pool, [n] consecutive calls of [allocateIP]
    succeed exactly as often as there are addresses in the pool that are
    neither the gateway nor allocated, and at most [n] times: a pool
    with [k] free addresses serves [k] allocations and no more. *)
Theorem allocateIP_capacity d s e (n : nat) :
  pool_ok d s e →
  length (successes (allocateTrace n d)) = (n `min` length (freeAddresses d s e))%nat.
Proof.
  revert d. induction n as [|n IH]; intros d Hok; [done|]. cbn [allocateTrace].
  pose proof (allocateIP_free_count d s e Hok) as Hcount.
  destruct (allocateIP d) as [d' [ip|err]]; rewrite successes_cons.
  - destruct Hcount as [Hok' Hlen]. cbn [length]. rewrite IH by done. lia.
  - destruct Hcount as [-> Hnil]. rewrite IH by done. rewrite Hnil. simpl. lia.
Qed.

Lemma freeAddresses_nil d s e :
  freeAddresses d s e = [] → ∀ u, s <= u <= e → skipped d u = true.
Proof.
  intros Hnil u Hu. destruct (skipped d u) eqn:Hskip; [done|].
  assert (u ∈ freeAddresses d s e) as Hin.
  { apply list_elem_of_filter. split; [done|]. apply elem_of_seqZ. lia. }
  rewrite Hnil in Hin. by apply elem_of_nil in Hin.
Qed.

(** X2.  Releasing a pool address other than the gateway makes the
    next [allocateIP] succeed with an address of the pool no higher than
    the released one; when the pool was exhausted, it is the released
    address itself. *)
Theorem deallocateIP_allocateIP_reuse d s e v :
  pool_ok d s e → s <= v <= e → gatewayIP d ≠ netip.IPv4 v →
  ∃ u, (allocateIP (deallocateIP d (netip.String (netip.IPv4 v)))).2
       = inl (netip.String (netip.IPv4 u)) ∧
       s <= u <= v ∧ (freeAddresses d s e = [] → u = v).
Proof.
  intros Hok Hv Hgw. pose proof Hok as (_ & _ & H0 & Hse & H32 & _).
  set (d1 := deallocateIP d (netip.String (netip.IPv4 v))).
  assert (pool_ok d1 s e) as Hok1 by (by apply pool_ok_set_allocatedIPs).
  assert (skipped d1 v = false) as Hfree.
  { unfold d1. rewrite skipped_deallocate by lia.
    rewrite (bool_decide_eq_false_2 (gatewayIP d = netip.IPv4 v)) by done.
    by rewrite bool_decide_eq_true_2. }
  destruct (allocateIP_call_ok d1 s e Hok1) as [Hcall _].
  destruct (allocateIP d1).2 as [ip|err]; unfold call_ok in Hcall; cbn [fst snd] in Hcall.
  - destruct Hcall as (u & -> & Hu & Hgwu & Hfreeu & Hbefore).
    assert (u <= v) as Huv.
    { destruct (decide (u <= v)); [done|]. rewrite Hbefore in Hfree by lia. done. }
    exists u. split; [done|]. split; [lia|]. intros Hnil.
    destruct (decide (u = v)) as [|Hne]; [done|]. exfalso.
    pose proof (freeAddresses_nil d s e Hnil u) as Hskip.
    unfold d1 in Hfreeu. rewrite isAllocated_deallocate in Hfreeu.
    rewrite bool_decide_eq_false_2 in Hfreeu.
    2:{ intros Heq%String_inj; [|lia..]. lia. }
    cbn [negb andb] in Hfreeu. unfold skipped in Hskip. rewrite Hfreeu in Hskip.
    rewrite bool_decide_eq_false_2 in Hskip by done. specialize (Hskip ltac:(lia)). done.
  - destruct Hcall as [_ Hall]. rewrite Hall in Hfree by lia. done.
Qed.
End Capacity.

Lemma smallDriver_pool_ok : pool_ok smallDriver 167772161 167772163.
Proof.
  repeat split; try (vm_compute; reflexivity); try lia; vm_compute; congruence.
Defined.

Lemma allocateIP_capacity_witness :
  length (successes (allocateTrace 5 smallDriver))
  = (5 `min` length (freeAddresses smallDriver 167772161 167772163))%nat.
Proof. exact (allocateIP_capacity smallDriver _ _ 5 smallDriver_pool_ok). Defined.

Example allocateIP_small_pool :
  gatewayIP smallDriver = netip.IPv4 167772161 ∧
  freeAddresses smallDriver 167772161 167772163 = [167772162; 167772163] ∧
  successes (allocateTrace 5 smallDriver) = ["10.0.0.2"; "10.0.0.3"].
Proof. vm_compute. repeat split; reflexivity. Qed.

Lemma deallocateIP_allocateIP_reuse_witness :
  ∃ u, (allocateIP (deallocateIP fullDriver (netip.String (netip.IPv4 167772163)))).2
       = inl (netip.String (netip.IPv4 u)) ∧
       167772161 <= u <= 167772163 ∧
       (freeAddresses fullDriver 167772161 167772163 = [] → u = 167772163).
Proof.
  apply (deallocateIP_allocateIP_reuse fullDriver 167772161 167772163 167772163).
  - exact (pool_ok_set_allocatedIPs smallDriver _ _ _ smallDriver_pool_ok).
  - lia.
  - vm_compute. congruence.
Defined.

Example fullDriver_exhausted :
  freeAddresses fullDriver 167772161 167772163 = [] ∧
  (allocateIP fullDriver).2 = inr (ErrNoAvailableIPs "10.0.0.1" "10.0.0.3") ∧
  (allocateIP (deallocateIP fullDriver "10.0.0.3")).2 = inl "10.0.0.3".
Proof. vm_compute. repeat split; reflexivity. Qed.

(** ** What the constructor and the validation establish *)

Section FirstAllocation.
Context {VMC : Type}.
Implicit Types (d : Driver VMC) (nc : domain.Network).

Lemma parseNetwork_frame nc d :
  allocatedIPs (parseNetwork nc d) = allocatedIPs d ∧
  processes (parseNetwork nc d) = processes d ∧
  networkConfig (parseNetwork nc d) = networkConfig d ∧
  ipPoolStart (parseNetwork nc d)
  = (if bool_decide (domain.IPPoolStart nc ≠ "")
     then default (ipPoolStart d) (netip.ParseAddr (domain.IPPoolStart nc))
     else ipPoolStart d) ∧
  gatewayIP (parseNetwork nc d)
  = (if bool_decide (domain.Gateway nc ≠ "")
     then default (gatewayIP d) (netip.ParseAddr (domain.Gateway nc))
     else gatewayIP d) ∧
  subnet (parseNetwork nc d)
  = (if bool_decide (domain.SubnetCIDR nc ≠ "")
     then default (subnet d) (netip.Masked <$> netip.ParsePrefix (domain.SubnetCIDR nc))
     else subnet d).
Proof.
  unfold parseNetwork.
  destruct (bool_decide (domain.SubnetCIDR nc ≠ ""));
    [destruct (netip.ParsePrefix _)|];
    (destruct (bool_decide (domain.IPPoolStart nc ≠ ""));
     [destruct (netip.ParseAddr (domain.IPPoolStart nc))|]);
    (destruct (bool_decide (domain.IPPoolEnd nc ≠ ""));
     [destruct (netip.ParseAddr (domain.IPPoolEnd nc))|]);
    (destruct (bool_decide (domain.Gateway nc ≠ ""));
     [destruct (netip.ParseAddr (domain.Gateway nc))|]);
    done.
Qed.

Lemma fitToSubnet_frame d :
  allocatedIPs (fitToSubnet d) = allocatedIPs d ∧
  processes (fitToSubnet d) = processes d ∧
  networkConfig (fitToSubnet d) = networkConfig d.
Proof.
  unfold fitToSubnet. cbv zeta.
  repeat match goal with |- context [if ?b then _ else _] => destruct b end; done.
Qed.

Lemma New_frame (netConfig : option domain.Network) (vfio : option domain.VFIO) (dir : string) :
  let d : Driver VMC := New netConfig vfio dir in
  allocatedIPs d = ∅ ∧ processes d = ∅ ∧ networkConfig d = netConfig.
Proof.
  unfold New, initializeNetworkConfig. cbn [networkConfig].
  destruct netConfig as [nc|]; [|done].
  set (d0 := MkDriver _ _ _ _ _ _ _ _ _).
  destruct (parseNetwork_frame nc d0) as (Ha & Hp & Hn & _).
  destruct (netip.PrefixIsValid _).
  - destruct (fitToSubnet_frame (parseNetwork nc d0)) as (Ha' & Hp' & Hn').
    by rewrite Ha', Hp', Hn', Ha, Hp, Hn.
  - by rewrite Ha, Hp, Hn.
Qed.

(** Whatever the constructor leaves as pool start is what the configured
    text parses to. *)
Lemma New_ipPoolStart nc (vfio : option domain.VFIO) (dir : string) :
  let d : Driver VMC := New (Some nc) vfio dir in
  netip.IsValid (ipPoolStart d) = true →
  netip.ParseAddr (domain.IPPoolStart nc) = Some (ipPoolStart d).
Proof.
  unfold New, initializeNetworkConfig. cbn [networkConfig].
  set (d0 := MkDriver _ _ _ _ _ _ _ _ _).
  destruct (parseNetwork_frame nc d0) as (_ & _ & _ & Hs & _).
  assert (netip.IsValid (ipPoolStart (parseNetwork nc d0)) = true →
          netip.ParseAddr (domain.IPPoolStart nc) = Some (ipPoolStart (parseNetwork nc d0)))
    as Hparsed.
  { rewrite Hs. destruct (bool_decide _); [|done].
    by destruct (netip.ParseAddr (domain.IPPoolStart nc)). }
  destruct (netip.PrefixIsValid _); [|done].
  destruct (fitToSubnet_pool (parseNetwork nc d0)) as (_ & [->|[-> _]] & _); done.
Qed.

(** X3.  A driver fresh from the constructor that passes
    [validateNetworkConfig] hands out its pool start first: the first
    [allocateIP] returns the text of the address the configured
    [ip_pool_start] parses to. *)
Theorem validated_driver_first_allocation nc (vfio : option domain.VFIO) (dir : string) :
  let d : Driver VMC := New (Some nc) vfio dir in
  validateNetworkConfig d = None →
  netip.ParseAddr (domain.IPPoolStart nc) = Some (ipPoolStart d) ∧
  (allocateIP d).2 = inl (netip.String (ipPoolStart d)).
Proof.
  intros d Hvalid.
  pose proof (New_frame (Some nc) vfio dir) as (Hempty & _ & Hnc).
  pose proof (New_ipPoolStart nc vfio dir) as Hstart.
  pose proof (New_pool_ok (VMC := VMC) nc vfio dir) as Hpool.
  fold d in Hempty, Hnc, Hstart, Hpool. cbv zeta in Hstart, Hpool.
  unfold validateNetworkConfig in Hvalid. rewrite Hnc in Hvalid.
  destruct (bool_decide _); [done|].
  destruct (negb (netip.PrefixIsValid (subnet d))); [done|].
  destruct (_ || _); [done|].
  destruct (ipPoolStart d) as [|s] eqn:Hs; [done|].
  destruct (ipPoolEnd d) as [|e] eqn:He; [done|]. cbn [netip.IsValid negb orb] in Hvalid.
  destruct (_ || _); [done|].
  unfold netip.Compare in Hvalid.
  destruct (e <? s) eqn:Hlt; [done|]. apply Z.ltb_ge in Hlt.
  destruct (s <? e); cbn [Z.ltb Z.compare] in Hvalid;
    (case_bool_decide as Hgw; [done|]).
  all: split; [by apply Hstart|].
  all: specialize (Hpool s e eq_refl eq_refl Hlt).
  all: destruct (allocateIP_call_ok d s e Hpool) as [Hcall _].
  all: assert (skipped d s = false) as Hfree
    by (unfold skipped, isAllocated; rewrite Hempty, lookup_empty;
        by rewrite bool_decide_eq_false_2).
  all: destruct (allocateIP d).2 as [ip|err]; unfold call_ok in Hcall;
    cbn [fst snd] in Hcall;
    [ destruct Hcall as (u & -> & Hu & _ & _ & Hbefore);
      destruct (decide (u = s)) as [->|]; [done|];
      rewrite Hbefore in Hfree by lia; done
    | destruct Hcall as [_ Hall]; rewrite Hall in Hfree by lia; done ].
Qed.


(** X4.  On a driver built by the constructor, [validateNetworkConfig]
    never reports a pool outside the subnet: the constructor has reset
    such a bound, so the validation reports the pool as not configured
    (or an earlier error) instead. *)
Theorem New_reports_no_pool_outside_subnet nc (vfio : option domain.VFIO) (dir : string) :
  validateNetworkConfig (New (VMC := VMC) (Some nc) vfio dir) ≠ Some CfgPoolOutsideSubnet.
Proof.
  unfold New, initializeNetworkConfig. cbn [networkConfig].
  set (d0 := MkDriver _ _ _ _ _ _ _ _ _).
  destruct (netip.PrefixIsValid (subnet (parseNetwork nc d0))) eqn:Hv.
  - destruct (fitToSubnet_pool (parseNetwork nc d0)) as (Hsub & Hstart & Hend).
    set (d := fitToSubnet _) in *. unfold validateNetworkConfig.
    destruct (networkConfig d); [|done].
    destruct (bool_decide _); [done|].
    destruct (negb (netip.PrefixIsValid (subnet d))); [done|].
    destruct (_ || _); [done|].
    destruct (ipPoolStart d) as [|s] eqn:Hs; [done|].
    destruct (ipPoolEnd d) as [|e] eqn:He; [done|]. cbn [netip.IsValid negb orb].
    destruct Hstart as [|[Hs' Hcs]]; [done|]. destruct Hend as [|[He' Hce]]; [done|].
    rewrite Hsub, Hs', Hcs, He', Hce. cbn [negb orb].
    destruct (_ <? 0); [done|]. by destruct (bool_decide _).
  - unfold validateNetworkConfig.
    destruct (networkConfig _); [|done]. destruct (bool_decide _); [done|].
    by rewrite Hv.
Qed.


Lemma ParseAddr_valid (text : string) (a : netip.Addr) :
  netip.ParseAddr text = Some a → netip.IsValid a = true.
Proof.
  unfold netip.ParseAddr, netip.parseIPv4. destruct (netip.firstSep text) as [c|]; [|done].
  destruct (Ascii.eqb c "."); [|done].
  destruct (netip.parseIPv4Fields _ _ _) as [[|o0 [|o1 [|o2 [|o3 [|]]]]]|]; try done.
  by intros [= <-].
Qed.

Lemma ParsePrefix_valid (text : string) (p : netip.Prefix) :
  netip.ParsePrefix text = Some p →
  ∃ pv, netip.Addr_of p = netip.IPv4 pv ∧ 0 <= pv < 2 ^ 32 ∧ 0 <= netip.Bits p <= 32.
Proof.
  unfold netip.ParsePrefix. destruct (netip.splitLast text) as [[addrStr bitsStr]|]; [|done].
  destruct (netip.ParseAddr addrStr) as [ip|] eqn:Hparse; [|done].
  pose proof (ParseAddr_valid _ _ Hparse) as Hvalid. apply ParseAddr_wf in Hparse.
  match goal with |- context [if ?b then _ else _] => destruct b end; [done|].
  destruct (strconv.Atoi bitsStr) as [bits|]; [|done].
  destruct (bits <? 0) eqn:Hlo; [done|]. destruct (32 <? bits) eqn:Hhi; [done|].
  apply Z.ltb_ge in Hlo, Hhi. intros [= <-]. simpl.
  destruct ip as [|pv]; [done|]. eauto.
Qed.

(** The network address of a prefix shorter than 32 bits is followed by
    an address of the prefix. *)
Lemma Masked_next (pv bits : Z) :
  0 <= pv < 2 ^ 32 → 0 <= bits < 32 →
  let n := Z.shiftl (Z.shiftr pv (32 - bits)) (32 - bits) in
  0 <= n ∧ n + 1 < 2 ^ 32 ∧ (n + 1) / 2 ^ (32 - bits) = n / 2 ^ (32 - bits).
Proof.
  intros Hpv Hbits n. subst n.
  rewrite Z.shiftl_mul_pow2, Z.shiftr_div_pow2 by lia.
  set (k := 32 - bits). assert (1 <= k <= 32) as Hk by lia.
  assert (2 <= 2 ^ k) as Hpow.
  { change 2 with (2 ^ 1) at 1. apply Z.pow_le_mono_r; lia. }
  set (q := pv / 2 ^ k).
  assert (0 <= q) by (apply Z.div_pos; lia).
  assert (q * 2 ^ k <= pv) by (unfold q; rewrite Z.mul_comm; apply Z.mul_div_le; lia).
  assert (2 ^ 32 = 2 ^ bits * 2 ^ k) as H32.
  { rewrite <- Z.pow_add_r by lia. f_equal. lia. }
  assert (q < 2 ^ bits).
  { unfold q. apply Z.div_lt_upper_bound; [lia|]. rewrite Z.mul_comm, <- H32. lia. }
  split; [nia|]. split; [nia|].
  rewrite Z.div_mul by lia. symmetry.
  apply (Z.div_unique _ _ q 1); lia.
Qed.

(** X5.  When the subnet parses as an IPv4 prefix and no gateway is
    configured, the constructor sets the gateway to the address after
    the network address for every prefix shorter than 32 bits, and
    leaves it unset for a 32-bit prefix.  No gateway is configured when
    the field is empty, or when its text is not handed to the IPv6
    parser (its first separator is not a colon) and does not parse. *)
Theorem New_default_gateway nc (vfio : option domain.VFIO) (dir : string) (p : netip.Prefix) :
  netip.ParsePrefix (domain.SubnetCIDR nc) = Some p →
  domain.Gateway nc = "" ∨
  (netip.firstSep (domain.Gateway nc) ≠ Some ":"%char ∧
   netip.ParseAddr (domain.Gateway nc) = None) →
  gatewayIP (New (VMC := VMC) (Some nc) vfio dir)
  = if netip.Bits p <? 32 then netip.Next (netip.Addr_of (netip.Masked p))
    else netip.AddrZero.
Proof.
  intros Hprefix Hgw.
  destruct (ParsePrefix_valid _ _ Hprefix) as (pv & Hpv & Hrange & Hbits).
  unfold New, initializeNetworkConfig. cbn [networkConfig].
  set (d0 := MkDriver _ _ _ _ _ _ _ _ _).
  destruct (parseNetwork_frame nc d0) as (_ & _ & _ & _ & Hgate & Hsubnet).
  assert (gatewayIP (parseNetwork nc d0) = netip.AddrZero) as Hzero.
  { rewrite Hgate. destruct Hgw as [->|[_ ->]]; [done|]. by destruct (bool_decide _). }
  assert (netip.PrefixIsValid p = true) as Hvalidp.
  { unfold netip.PrefixIsValid. rewrite Hpv. simpl.
    apply andb_true_intro; split; apply Z.leb_le; lia. }
  assert (netip.Masked p
          = netip.MkPrefix
              (netip.IPv4 (Z.shiftl (Z.shiftr pv (32 - netip.Bits p)) (32 - netip.Bits p)))
              (netip.Bits p)) as Hmasked.
  { unfold netip.Masked. by rewrite Hvalidp, Hpv. }
  assert (subnet (parseNetwork nc d0) = netip.Masked p) as Hsub.
  { rewrite Hsubnet. rewrite bool_decide_eq_true_2; [by rewrite Hprefix|].
    intros Hempty. by rewrite Hempty in Hprefix. }
  assert (netip.PrefixIsValid (netip.Masked p) = true) as Hvalidm.
  { rewrite Hmasked. unfold netip.PrefixIsValid. simpl.
    apply andb_true_intro; split; apply Z.leb_le; lia. }
  rewrite Hsub, Hvalidm.
  assert (gatewayIP (fitToSubnet (parseNetwork nc d0))
          = let next := netip.Next (netip.Addr_of (netip.Masked p)) in
            if netip.IsValid next && netip.Contains (netip.Masked p) next
            then next else netip.AddrZero) as ->.
  { unfold fitToSubnet. rewrite Hzero, Hsub. cbn [netip.IsValid negb]. cbv zeta.
    destruct (netip.IsValid _ && netip.Contains _ _); cbn [gatewayIP set_gatewayIP];
      repeat match goal with |- context [if ?b then _ else _] => destruct b end;
      done. }
  cbv zeta. set (n := Z.shiftl _ _) in Hmasked.
  assert (netip.Addr_of (netip.Masked p) = netip.IPv4 n) as Haddr by (by rewrite Hmasked).
  assert (netip.Bits (netip.Masked p) = netip.Bits p) as Hb by (by rewrite Hmasked).
  rewrite Haddr.
  destruct (netip.Bits p <? 32) eqn:Hlt.
  - apply Z.ltb_lt in Hlt.
    destruct (Masked_next pv (netip.Bits p)) as (Hn0 & Hn32 & Hdiv); [lia..|].
    fold n in Hn0, Hn32, Hdiv. rewrite (Next_succ n) by lia. cbn [netip.IsValid andb].
    assert (netip.Contains (netip.Masked p) (netip.IPv4 (n + 1)) = true) as ->; [|done].
    apply (Contains_div _ n); [done | done |]. by rewrite Hb.
  - apply Z.ltb_ge in Hlt. assert (netip.Bits p = 32) as Hbits32 by lia.
    assert (n = pv) as Hn.
    { unfold n. rewrite Hbits32. change (32 - 32) with 0.
      by rewrite Z.shiftr_0_r, Z.shiftl_0_r. }
    destruct (netip.Next (netip.IPv4 n)) as [|v] eqn:Hnext; [done|].
    cbn [netip.IsValid andb].
    assert (netip.Contains (netip.Masked p) (netip.IPv4 v) = false) as ->; [|done].
    destruct (netip.Contains _ _) eqn:Hc; [|done]. exfalso.
    apply (Contains_div _ n) in Hc; [|done..].
    rewrite Hb, Hbits32 in Hc.
    change (2 ^ (32 - 32)) with 1 in Hc. rewrite !Z.div_1_r in Hc.
    unfold netip.Next in Hnext. destruct (_ =? 0) eqn:H0; [done|].
    injection Hnext as <-. apply Z.eqb_neq in H0.
    assert (n + 1 < 2 ^ 32 ∨ n + 1 = 2 ^ 32) as [Hsmall|Hbig] by lia.
    + rewrite Z.mod_small in Hc by lia. lia.
    + rewrite Hbig, Z.mod_same in H0 by lia. done.
Qed.

End FirstAllocation.

Lemma validated_driver_first_allocation_witness :
  let d : Driver (VMConfig unit) := New (Some defaultNetwork) None "/var/lib/nomad" in
  netip.ParseAddr (domain.IPPoolStart defaultNetwork) = Some (ipPoolStart d) ∧
  (allocateIP d).2 = inl (netip.String (ipPoolStart d)).
Proof.
  apply (validated_driver_first_allocation defaultNetwork None "/var/lib/nomad").
  vm_compute. reflexivity.
Defined.

Lemma New_default_gateway_witness :
  gatewayIP (New (VMC := VMConfig unit) (Some smallNetwork) None "/var/lib/nomad")
  = if netip.Bits (netip.MkPrefix (netip.IPv4 167772160) 24) <? 32
    then netip.Next (netip.Addr_of (netip.Masked (netip.MkPrefix (netip.IPv4 167772160) 24)))
    else netip.AddrZero.
Proof.
  apply (New_default_gateway smallNetwork None "/var/lib/nomad").
  - vm_compute. reflexivity.
  - left. reflexivity.
Defined.

(** ** A successful creation, and what the queries report *)

Section LifecycleExtras.
Context {World Payload Other : Type} `{!Host World Payload Other}.
Local Abbreviation Driver := (Driver (VMConfig Payload)).
Local Abbreviation DConfig := (domain.Config Other).
Implicit Types (w : World) (d : Driver) (config : DConfig) (env : gmap string string).

(** What a successful call leaves behind. *)
Lemma CreateDomain_success w d config env w' d' :
  CreateDomain w d config env = (w', d', RetNil) →
  processes d !! domain.ConfigName config = None ∧
  ∃ proc nc nanos,
    networkConfig d = Some nc ∧
    takeIP d config = (set_allocatedIPs d (<[IP proc := true]> (allocatedIPs d)), inl (IP proc)) ∧
    isAllocated d (IP proc) = false ∧
    Name proc = domain.ConfigName config ∧
    MAC proc = generateMAC (domain.ConfigName config) ∧
    TapName proc = tapName (domain.TAPPrefix nc) (domain.ConfigName config) nanos ∧
    d' = set_processes (set_allocatedIPs d (<[IP proc := true]> (allocatedIPs d)))
                       (<[domain.ConfigName config := proc]> (processes d)).
Proof.
  intros Hcreate.
  pose proof (CreateDomain_cases w d config env) as Hcases. cbv zeta in Hcases.
  pose proof (takeIP_frame d config) as Hframe.
  rewrite Hcreate in Hcases. cbn [fst snd] in Hcases.
  destruct Hcases as [[_ [e He]]|(ip & d1 & Htake & Hcases)]; [done|].
  rewrite Htake in Hframe. destruct Hframe as [Hfree ->].
  destruct Hcases as [[_ [e He]]|[(_ & He & _)|(proc & nc & nanos & Hd' & _ & Hip & Hname & Hnc & Htap & Hmac & Hnew)]];
    [done..|].
  subst ip. split; [done|]. exists proc, nc, nanos. by repeat split.
Qed.

(** X6.  A successful [CreateDomain] registers exactly the named VM:
    the name was not registered before, the registry afterwards is the
    old one with one entry added under that name (so it has one entry
    more), the entry carries the name and the MAC address derived from
    it, and the allocation set has gained the address of the entry,
    which was free, and nothing else. *)
Theorem CreateDomain_success_registers w d config env w' d' :
  CreateDomain w d config env = (w', d', RetNil) →
  processes d !! domain.ConfigName config = None ∧
  ∃ proc,
    processes d' = <[domain.ConfigName config := proc]> (processes d) ∧
    Name proc = domain.ConfigName config ∧
    MAC proc = generateMAC (domain.ConfigName config) ∧
    isAllocated d (IP proc) = false ∧
    (∀ ip, isAllocated d' ip = bool_decide (IP proc = ip) || isAllocated d ip) ∧
    size (processes d') = S (size (processes d)).
Proof.
  intros (Hnew & proc & nc & nanos & _ & _ & Hfree & Hname & Hmac & _ & ->)%CreateDomain_success.
  split; [done|]. exists proc. cbn [processes set_processes].
  repeat split; try done.
  - intros ip. apply isAllocated_insert.
  - by rewrite map_size_insert_None.
Qed.

(** X7.  [DestroyDomain] undoes a successful [CreateDomain]: called for
    the created VM on any host state, it succeeds, and the registry and
    the allocation set are again what they were before the creation. *)
Theorem CreateDomain_DestroyDomain_round_trip w d config env w' d' (w2 : World) :
  CreateDomain w d config env = (w', d', RetNil) →
  let r := DestroyDomain w2 d' (domain.ConfigName config) in
  r.2 = RetNil ∧ processes r.1.2 = processes d ∧
  ∀ ip, isAllocated r.1.2 ip = isAllocated d ip.
Proof.
  intros (Hnew & proc & nc & nanos & _ & _ & Hfree & Hname & Hmac & _ & ->)%CreateDomain_success.
  unfold DestroyDomain. cbn [processes set_processes set_allocatedIPs].
  rewrite lookup_insert_eq. destruct (shutdownVM w2 proc) as [w3 failed].
  cbn [fst snd processes set_processes deallocateIP set_allocatedIPs allocatedIPs].
  split; [done|]. split.
  - by rewrite delete_insert_eq, delete_id.
  - intros ip.
    change (isAllocated
              (deallocateIP (set_allocatedIPs d (<[IP proc:=true]> (allocatedIPs d))) (IP proc))
              ip = isAllocated d ip).
    by apply release_after_take.
Qed.


Lemma String_nonempty (v : Z) : netip.String (netip.IPv4 v) ≠ "".
Proof.
  unfold netip.String.
  destruct (appendDecimal_cons (netip.octet v 0)
              ("." +:+ netip.appendDecimal (netip.octet v 1) +:+ "." +:+
               netip.appendDecimal (netip.octet v 2) +:+ "." +:+
               netip.appendDecimal (netip.octet v 3))) as (c & t & ->).
  done.
Qed.

(** X8.  [GetNetworkInterfaces] reports what [CreateDomain] recorded.
    Before the creation the query fails with the not-found error; after
    a successful creation from a usable pool (no static IP) it returns
    one virtio interface on the driver's bridge, with the TAP name and
    the MAC address of the VM and, as its only address, an address of
    the pool other than the gateway. *)
Theorem GetNetworkInterfaces_after_CreateDomain w d config env w' d' (s e : Z) :
  CreateDomain w d config env = (w', d', RetNil) →
  staticIP config = None → pool_ok d s e →
  GetNetworkInterfaces d (domain.ConfigName config)
  = Failed (ErrNotFound (domain.ConfigName config)) ∧
  ∃ nc nanos v,
    networkConfig d = Some nc ∧ s <= v <= e ∧ gatewayIP d ≠ netip.IPv4 v ∧
    GetNetworkInterfaces d' (domain.ConfigName config)
    = Done [domain.MkNetworkInterface
              (domain.Bridge nc)
              (tapName (domain.TAPPrefix nc) (domain.ConfigName config) nanos)
              (generateMAC (domain.ConfigName config))
              "virtio" "virtio-net" [netip.IPv4 v]].
Proof.
  intros (Hnew & proc & nc & nanos & Hnc & Htake & Hfree & Hname & Hmac & Htap & ->)%CreateDomain_success
         Hstatic Hok.
  split; [unfold GetNetworkInterfaces; by rewrite Hnew|].
  unfold takeIP in Htake. rewrite Hstatic in Htake.
  destruct (allocateIP_call_ok d s e Hok) as [Hcall _].
  destruct (allocateIP d) as [d1 [ip|err]]; [|done].
  injection Htake as _ Hip. subst ip.
  unfold call_ok in Hcall. cbn [fst snd] in Hcall.
  destruct Hcall as (v & Hv & Hrange & Hgw & _).
  exists nc, nanos, v. repeat split; [done|lia|lia|done|].
  unfold GetNetworkInterfaces. cbn [processes set_processes networkConfig set_allocatedIPs].
  rewrite lookup_insert_eq, Hnc, Htap, Hmac, Hv.
  rewrite bool_decide_eq_true_2 by apply String_nonempty.
  destruct Hok as (_ & _ & ? & ? & ? & _).
  rewrite (ParseAddr_String (netip.IPv4 v)); [done | done | simpl; lia].
Qed.

(** X9.  The number of running domains [GetInfo] reports follows the
    lifecycle: a [CreateDomain] raises it by one when it succeeds and
    leaves it unchanged otherwise, [StopDomain] never changes it, and a
    [DestroyDomain] lowers it by one when it succeeds and leaves it
    unchanged otherwise. *)
Theorem GetInfo_counts_registrations (version : option string) w d config env (name : string) :
  let count (d : Driver) := domain.RunningDomains (GetInfo version d) in
  (let r := CreateDomain w d config env in
   count r.1.2 = count d + (if r.2 is RetNil then 1 else 0)) ∧
  (let r := StopDomain w d name in count r.1.2 = count d) ∧
  (let r := DestroyDomain w d name in
   count r.1.2 = count d - (if r.2 is RetNil then 1 else 0)).
Proof.
  cbv zeta. unfold GetInfo. cbn [domain.RunningDomains]. repeat split.
  - pose proof (CreateDomain_cases w d config env) as Hcases. cbv zeta in Hcases.
    pose proof (takeIP_frame d config) as Hframe.
    destruct Hcases as [[-> [e ->]]|(ip & d1 & Htake & Hcases)]; [lia|].
    rewrite Htake in Hframe. destruct Hframe as [_ ->].
    destruct Hcases as [[-> [e ->]]|[(-> & -> & _)|(proc & nc & nanos & -> & -> & _ & _ & _ & _ & _ & Hnew)]];
      cbn [processes set_processes deallocateIP set_allocatedIPs]; [lia..|].
    rewrite map_size_insert_None by done. lia.
  - unfold StopDomain. destruct (processes d !! name) as [proc|]; [|done].
    by destruct (shutdownVM w proc) as [w1 failed].
  - unfold DestroyDomain. destruct (processes d !! name) as [proc|] eqn:Hlookup; [|simpl; lia].
    destruct (shutdownVM w proc) as [w1 failed].
    cbn [fst snd processes set_processes deallocateIP set_allocatedIPs].
    assert (size (processes d) = S (size (delete name (processes d)))) as Hsize.
    { rewrite <- (insert_delete_id (processes d) name proc Hlookup) at 1.
      apply map_size_insert_None, lookup_delete_eq. }
    lia.
Qed.

End LifecycleExtras.

Lemma CreateDomain_web_succeeds :
  CreateDomain host0 defaultDriver (plainTask "web") ∅
  = ((CreateDomain host0 defaultDriver (plainTask "web") ∅).1.1,
     (CreateDomain host0 defaultDriver (plainTask "web") ∅).1.2, RetNil).
Proof. vm_compute. reflexivity. Defined.

Lemma CreateDomain_success_registers_witness :
  let d' := (CreateDomain host0 defaultDriver (plainTask "web") ∅).1.2 in
  processes defaultDriver !! domain.ConfigName (plainTask "web") = None ∧
  ∃ proc,
    processes d' = <[domain.ConfigName (plainTask "web") := proc]> (processes defaultDriver) ∧
    Name proc = domain.ConfigName (plainTask "web") ∧
    MAC proc = generateMAC (domain.ConfigName (plainTask "web")) ∧
    isAllocated defaultDriver (IP proc) = false ∧
    (∀ ip, isAllocated d' ip = bool_decide (IP proc = ip) || isAllocated defaultDriver ip) ∧
    size (processes d') = S (size (processes defaultDriver)).
Proof.
  exact (CreateDomain_success_registers host0 defaultDriver (plainTask "web") ∅ _ _
           CreateDomain_web_succeeds).
Defined.

Lemma CreateDomain_DestroyDomain_round_trip_witness :
  let r := DestroyDomain host0 (CreateDomain host0 defaultDriver (plainTask "web") ∅).1.2
                         (domain.ConfigName (plainTask "web")) in
  r.2 = RetNil ∧ processes r.1.2 = processes defaultDriver ∧
  ∀ ip, isAllocated r.1.2 ip = isAllocated defaultDriver ip.
Proof.
  exact (CreateDomain_DestroyDomain_round_trip host0 defaultDriver (plainTask "web") ∅ _ _
           host0 CreateDomain_web_succeeds).
Defined.

Lemma GetNetworkInterfaces_after_CreateDomain_witness :
  GetNetworkInterfaces defaultDriver (domain.ConfigName (plainTask "web"))
  = Failed (ErrNotFound (domain.ConfigName (plainTask "web"))) ∧
  ∃ nc nanos v,
    networkConfig defaultDriver = Some nc ∧ 3232300554 <= v <= 3232300744 ∧
    gatewayIP defaultDriver ≠ netip.IPv4 v ∧
    GetNetworkInterfaces (CreateDomain host0 defaultDriver (plainTask "web") ∅).1.2
                         (domain.ConfigName (plainTask "web"))
    = Done [domain.MkNetworkInterface
              (domain.Bridge nc)
              (tapName (domain.TAPPrefix nc) (domain.ConfigName (plainTask "web")) nanos)
              (generateMAC (domain.ConfigName (plainTask "web")))
              "virtio" "virtio-net" [netip.IPv4 v]].
Proof.
  exact (GetNetworkInterfaces_after_CreateDomain host0 defaultDriver (plainTask "web") ∅ _ _
           3232300554 3232300744 CreateDomain_web_succeeds eq_refl defaultDriver_pool_ok).
Defined.

Example GetNetworkInterfaces_web :
  GetNetworkInterfaces afterWeb.2 "web"
  = Done [domain.MkNetworkInterface "br0" "tapc4719afa" "52:54:00:01:cb:54"
                                    "virtio" "virtio-net" [netip.IPv4 3232300554]].
Proof. vm_compute. reflexivity. Qed.

(** ** Netmask texts *)

Lemma bits_cases (P : Z → Prop) :
  (∀ m : nat, (m < 33)%nat → P (Z.of_nat m)) → ∀ n, 0 <= n <= 32 → P n.
Proof. intros H n Hn. rewrite <- (Z2Nat.id n) by lia. apply H. lia. Qed.

Lemma prefixBitsToNetmask_eq (bits : Z) :
  prefixBitsToNetmask bits
  = if (0 <=? bits) && (bits <=? 32)
    then netip.String (netip.IPv4 (2 ^ 32 - 2 ^ (32 - bits)))
    else "".
Proof.
  destruct ((0 <=? bits) && (bits <=? 32)) eqn:Hrange.
  - apply andb_prop in Hrange as [Hlo%Z.leb_le Hhi%Z.leb_le].
    pattern bits. apply bits_cases; [|lia]. clear bits Hlo Hhi. intros m Hm.
    do 33 (destruct m as [|m]; [vm_compute; reflexivity|]). lia.
  - unfold prefixBitsToNetmask.
    apply andb_false_iff in Hrange as [Hlo%Z.leb_gt|Hhi%Z.leb_gt].
    + by rewrite (proj2 (Z.ltb_lt bits 0)) by lia.
    + rewrite (proj2 (Z.ltb_lt 32 bits)) by lia. by rewrite orb_true_r.
Qed.

(** X10.  [prefixBitsToNetmask] writes the mask of a prefix length:
    for a length from 0 to 32 the result is the dotted text of the
    address whose leading [bits] bits are set, and parses back to that
    address; for any other length it is empty.  [netmaskDotted] is
    therefore never empty: it is that mask for a length in range and
    255.255.255.0 otherwise. *)
Theorem prefixBitsToNetmask_mask (bits : Z) (n : networkSettings) :
  let inRange (b : Z) := (0 <=? b) && (b <=? 32) in
  let mask (b : Z) := netip.IPv4 (2 ^ 32 - 2 ^ (32 - b)) in
  prefixBitsToNetmask bits = (if inRange bits then netip.String (mask bits) else "") ∧
  netip.ParseAddr (prefixBitsToNetmask bits)
  = (if inRange bits then Some (mask bits) else None) ∧
  netmaskDotted n
  = netip.String (mask (if inRange (cidrBits n) then cidrBits n else 24)).
Proof.
  cbv zeta. split; [apply prefixBitsToNetmask_eq|]. split.
  - rewrite prefixBitsToNetmask_eq.
    destruct ((0 <=? bits) && (bits <=? 32)) eqn:Hrange; [|done].
    apply andb_prop in Hrange as [Hlo%Z.leb_le Hhi%Z.leb_le].
    apply ParseAddr_String; [done|]. simpl.
    assert (0 < 2 ^ (32 - bits)) by (apply Z.pow_pos_nonneg; lia).
    assert (2 ^ (32 - bits) <= 2 ^ 32) by (apply Z.pow_le_mono_r; lia). lia.
  - unfold netmaskDotted. rewrite prefixBitsToNetmask_eq.
    destruct ((0 <=? cidrBits n) && (cidrBits n <=? 32)); [|done].
    by rewrite bool_decide_eq_false_2 by apply String_nonempty.
Qed.

(** X11.  The two mask writers agree on IPv4: on every valid prefix
    whose address is an IPv4 address, [maskStringFromPrefix] (built on
    [net.CIDRMask]) returns what [prefixBitsToNetmask] (built on a
    shift) returns for its length; on an invalid prefix, and on a prefix
    whose address is not IPv4, it returns the empty string. *)
Theorem maskStringFromPrefix_agrees (prefix : netip.Prefix) :
  maskStringFromPrefix prefix
  = if netip.PrefixIsValid prefix && netip.Is4 (netip.Addr_of prefix)
    then prefixBitsToNetmask (netip.Bits prefix) else "".
Proof.
  unfold maskStringFromPrefix. destruct (netip.PrefixIsValid prefix) eqn:Hvalid; [|done].
  cbn [negb andb]. unfold netip.PrefixIsValid in Hvalid.
  apply andb_prop in Hvalid as [Hvalid Hhi%Z.leb_le].
  apply andb_prop in Hvalid as [Haddr Hlo%Z.leb_le].
  destruct (netip.Addr_of prefix) as [|pv]; [done|]. cbn [netip.Is4 negb].
  generalize dependent (netip.Bits prefix). intros bits Hhi Hlo.
  pattern bits. apply bits_cases; [|lia]. clear bits Hlo Hhi. intros m Hm.
  do 33 (destruct m as [|m]; [vm_compute; reflexivity|]). lia.
Qed.

(** ** The guest's files and environment *)

(** X12.  After [upsertFile], the file found at the path of the new
    file is the new file, and the file found at any other path is the
    one found there before. *)
Theorem upsertFile_fileAt (files : list domain.File) (file : domain.File) (path : string) :
  fileAt (upsertFile files file) path
  = if bool_decide (path = domain.Path file) then Some file else fileAt files path.
Proof.
  unfold fileAt. induction files as [|f files IH]; cbn [upsertFile List.find].
  - case_bool_decide as Hp; [by rewrite bool_decide_eq_true_2 | by rewrite bool_decide_eq_false_2].
  - destruct (bool_decide (domain.Path f = domain.Path file)) eqn:Hf; cbn [List.find].
    + apply bool_decide_eq_true in Hf. rewrite Hf.
      case_bool_decide as Hp; [by rewrite bool_decide_eq_true_2 | by rewrite !bool_decide_eq_false_2].
    + apply bool_decide_eq_false in Hf.
      destruct (bool_decide (domain.Path f = path)) eqn:Hfp; [|done].
      apply bool_decide_eq_true in Hfp. rewrite bool_decide_eq_false_2; [done|].
      intros ->. done.
Qed.

Lemma upsertFile_paths (files : list domain.File) (file : domain.File) :
  domain.Path <$> upsertFile files file
  = if bool_decide (domain.Path file ∈ domain.Path <$> files)
    then domain.Path <$> files
    else (domain.Path <$> files) ++ [domain.Path file].
Proof.
  induction files as [|f files IH]; cbn [upsertFile].
  - case_bool_decide as Hin; [by apply elem_of_nil in Hin | done].
  - rewrite (fmap_cons domain.Path f files).
    destruct (bool_decide (domain.Path f = domain.Path file)) eqn:Hf.
    + apply bool_decide_eq_true in Hf. rewrite (fmap_cons domain.Path file files), Hf.
      rewrite bool_decide_eq_true_2; [done | left].
    + apply bool_decide_eq_false in Hf.
      rewrite (fmap_cons domain.Path f (upsertFile files file)), IH.
      destruct (decide (domain.Path file ∈ domain.Path <$> files)) as [Hin|Hin].
      * rewrite !bool_decide_eq_true_2; [done | by right | done].
      * rewrite !bool_decide_eq_false_2; [done | | done].
        intros [Heq|Hin']%elem_of_cons; [by symmetry in Heq | done].
Qed.

(** X13.  [upsertFile] replaces in place or appends: the paths of the
    result are the old paths when the new path was among them, and the
    old paths followed by the new one otherwise.  A list in which every
    path occurs once stays such a list. *)
Theorem upsertFile_keeps_paths_unique (files : list domain.File) (file : domain.File) :
  (domain.Path <$> upsertFile files file
   = if bool_decide (domain.Path file ∈ domain.Path <$> files)
     then domain.Path <$> files
     else (domain.Path <$> files) ++ [domain.Path file]) ∧
  (NoDup (domain.Path <$> files) → NoDup (domain.Path <$> upsertFile files file)).
Proof.
  split; [apply upsertFile_paths|]. rewrite upsertFile_paths. intros Hnodup.
  case_bool_decide as Hin; [done|].
  apply NoDup_app. split; [done|]. split; [|apply NoDup_singleton].
  intros p Hp ->%list_elem_of_singleton. done.
Qed.

Section EnvFacts.
Context {VMC Other : Type}.
Implicit Types (d : Driver VMC) (config : option (domain.Config Other))
  (proc : option (VMProcess VMC)) (env : gmap string string).

Lemma deriveNetworkSettings_nameservers d config proc :
  nameservers (deriveNetworkSettings d config proc).1 ≠ [].
Proof.
  unfold deriveNetworkSettings. cbv zeta.
  set (s0 := MkSettings _ _ _ _ _).
  destruct (fromProc_fields proc s0) as (_ & _ & Hns1 & _).
  destruct (fromDriver_fields d (fromProc proc s0)) as (_ & _ & Hns2 & _).
  set (s2 := fromDriver d (fromProc proc s0)) in *.
  assert (nameservers s2 ≠ []) as Hs2 by (by rewrite Hns2, Hns1).
  set (s3 := match config with Some _ => _ | None => _ end).
  assert (nameservers s3 ≠ []) as Hs3.
  { subst s3. destruct config as [cfg|]; [|done].
    destruct (domain.NetworkInterfaces cfg) as [|iface rest]; [done|].
    destruct (domain.IfBridge iface) as [bridge|]; [|done].
    destruct (fromBridge_fields bridge s2) as (_ & _ & -> & _).
    by destruct (domain.DNS bridge). }
  clearbody s3.
  destruct (cidrBits s3 <? 0); destruct (bool_decide _); done.
Qed.

Lemma envFileFromMap_is_Some env : env ≠ ∅ → is_Some (envFileFromMap env).
Proof. intros Hne. unfold envFileFromMap. by rewrite bool_decide_eq_false_2. Qed.

(** X16.  The environment [CreateDomain] hands to the guest.  When
    [deriveNetworkSettings] produces an address, the environment built
    from the settings maps [VM_IP] to the address and [VM_CIDR] to the
    prefix length in decimal; [VM_GATEWAY] is the gateway, and is
    removed, even if the caller supplied one, when no gateway is known;
    [VM_DNS] is always set, since the derived nameserver list is never
    empty; every other variable of the caller is kept; and the
    environment file is always produced.  When no address is produced
    the address is empty. *)
Theorem CreateDomain_environment d config proc env :
  match deriveNetworkSettings d config proc with
  | (settings, true) =>
      let env' := settingsEnv env settings in
      address settings ≠ "" ∧
      env' !! "VM_IP" = Some (address settings) ∧
      env' !! "VM_CIDR" = Some (itoa.FormatInt (cidrBits settings)) ∧
      env' !! "VM_GATEWAY" = nonEmpty (gateway settings) ∧
      env' !! "VM_DNS" = Some (gostr.Join (nameservers settings) " ") ∧
      (∀ k, k ∉ ["VM_IP"; "VM_CIDR"; "VM_GATEWAY"; "VM_DNS"] → env' !! k = env !! k) ∧
      is_Some (envFileFromMap env')
  | (settings, false) => address settings = ""
  end.
Proof.
  pose proof (deriveNetworkSettings_nameservers d config proc) as Hns.
  assert ((deriveNetworkSettings d config proc).2
          = negb (bool_decide (address (deriveNetworkSettings d config proc).1 = ""))) as Hok.
  { unfold deriveNetworkSettings. cbv zeta.
    match goal with |- context [bool_decide (address ?s = "")] =>
      destruct (bool_decide (address s = "")) eqn:Hb end; simpl; by rewrite Hb. }
  destruct (deriveNetworkSettings d config proc) as [settings ok]. cbn [fst snd] in *.
  subst ok. case_bool_decide as Haddr; cbn [negb]; [done|].
  cbv zeta. unfold settingsEnv, nonEmpty, cidrString.
  destruct (nameservers settings) as [|ns rest] eqn:Hlist; [done|].
  assert (∀ (m : gmap string string) k,
            (if bool_decide (gateway settings ≠ "")
             then <["VM_GATEWAY" := gateway settings]> m else delete "VM_GATEWAY" m) !! k
            = if bool_decide (k = "VM_GATEWAY")
              then (if bool_decide (gateway settings ≠ "") then Some (gateway settings) else None)
              else m !! k) as Hgw.
  { intros m k. destruct (bool_decide (gateway settings ≠ ""));
      [rewrite lookup_insert | rewrite lookup_delete];
      case_decide; case_bool_decide; simplify_eq; done. }
  repeat split.
  - done.
  - rewrite lookup_insert_ne by done. rewrite Hgw. rewrite bool_decide_eq_false_2 by done.
    rewrite lookup_insert_ne by done. by rewrite lookup_insert_eq.
  - rewrite lookup_insert_ne by done. rewrite Hgw. rewrite bool_decide_eq_false_2 by done.
    by rewrite lookup_insert_eq.
  - rewrite lookup_insert_ne by done. rewrite Hgw. by rewrite bool_decide_eq_true_2.
  - by rewrite lookup_insert_eq.
  - intros k Hk. rewrite !not_elem_of_cons in Hk. destruct Hk as (? & ? & ? & ? & _).
    rewrite lookup_insert_ne by done. rewrite Hgw. rewrite bool_decide_eq_false_2 by done.
    by rewrite !lookup_insert_ne by done.
  - apply envFileFromMap_is_Some. intros Hempty.
    apply (f_equal (λ m : gmap string string, m !! "VM_DNS")) in Hempty.
    by rewrite lookup_insert_eq, lookup_empty in Hempty.
Qed.

End EnvFacts.

(** ** MAC addresses *)

(** X14.  The derived MAC address does not identify the VM: for every
    continuation [rest], the names that start with Aa and with BB and
    continue with [rest] get the same address, from the driver and from
    the network controller alike. *)
Theorem generateMAC_collides (rest : string) :
  generateMAC ("Aa" +:+ rest) = generateMAC ("BB" +:+ rest) ∧
  chnet.generateDeterministicMAC ("Aa" +:+ rest)
  = chnet.generateDeterministicMAC ("BB" +:+ rest).
Proof. split; reflexivity. Qed.

Lemma hexdigit_isLowerHex (n : Z) : 0 <= n < 16 → isLowerHex (fmt.hexdigit n) = true.
Proof.
  intros Hn. rewrite <- (Z2Nat.id n) by lia.
  assert (Z.to_nat n < 16)%nat as Hm by lia. revert Hm. generalize (Z.to_nat n). intros m Hm.
  do 16 (destruct m as [|m]; [reflexivity|]). lia.
Qed.

Lemma isMAC_digits (h1 h2 h3 h4 h5 h6 : ascii) :
  isMAC ("52:54:00:" +:+ String h1 (String h2 EmptyString) +:+ ":" +:+
         String h3 (String h4 EmptyString) +:+ ":" +:+ String h5 (String h6 EmptyString))
  = forallb isLowerHex [h1; h2; h3; h4; h5; h6].
Proof.
  unfold isMAC.
  change (String.list_ascii_of_string _)
    with ["5"; "2"; ":"; "5"; "4"; ":"; "0"; "0"; ":"; h1; h2; ":"; h3; h4; ":"; h5; h6]%char.
  cbv beta iota. cbn [forallb].
  generalize (isLowerHex h1), (isLowerHex h2), (isLowerHex h3),
             (isLowerHex h4), (isLowerHex h5), (isLowerHex h6).
  intros [] [] [] [] [] []; reflexivity.
Qed.

(** X15.  For every VM name, overflowing hash included, [generateMAC]
    returns a well-formed MAC address: six groups of two lower-case
    hexadecimal digits separated by colons, the first three groups
    being 52:54:00. *)
Theorem generateMAC_wellformed (vmName : string) :
  isMAC (generateMAC vmName) = true ∧
  String.substring 0 9 (generateMAC vmName) = "52:54:00:".
Proof.
  unfold generateMAC. set (hash := fold_left _ _ _).
  unfold to_byte, fmt.hex02. split; [|reflexivity].
  rewrite isMAC_digits. cbn [forallb].
  rewrite !hexdigit_isLowerHex;
    [reflexivity | try (apply Z.mod_pos_bound; lia);
                   try (split; [apply Z.div_pos|apply Z.div_lt_upper_bound];
                        try lia; apply Z.mod_pos_bound; lia) ..].
Qed.

(** ** Device passthrough *)

Section VFIOFacts.
Context {World Payload Other : Type} `{!Host World Payload Other}.
Implicit Types (w : World) (d : Driver (VMConfig Payload)) (config : domain.Config Other)
  (vmConfig : VMConfig Payload).

Lemma vfioDeviceConfigs_shape (groupPaths : list string) :
  DevicePath <$> vfioDeviceConfigs groupPaths = groupPaths ∧
  Forall (λ dev, IOMMU dev = true ∧ PCISegment dev = 0) (vfioDeviceConfigs groupPaths).
Proof.
  unfold vfioDeviceConfigs.
  assert (∀ (f : nat → nat),
            DevicePath <$> imap (λ i groupPath,
                MkDevice groupPath ("vfio-" +:+ itoa.FormatInt (Z.of_nat (f i))) true 0)
              groupPaths = groupPaths ∧
            Forall (λ dev, IOMMU dev = true ∧ PCISegment dev = 0)
              (imap (λ i groupPath,
                 MkDevice groupPath ("vfio-" +:+ itoa.FormatInt (Z.of_nat (f i))) true 0)
               groupPaths)) as Hgen.
  { induction groupPaths as [|p l IH]; intros f; [by split|].
    cbn [imap]. destruct (IH (f ∘ S)) as [Hpaths Hall]. split.
    - rewrite fmap_cons. cbn [DevicePath]. f_equal. exact Hpaths.
    - constructor; [done|]. exact Hall. }
  apply (Hgen id).
Qed.

(** X17.  [addVFIODevices].  Without passthrough devices the call does
    nothing and succeeds.  A failed call leaves the VMM configuration as
    it was.  A successful call with devices leaves a complete platform
    section (segment count, IOMMU segments and address width all set,
    values that were already set being kept) and appends, after the
    existing devices, exactly one entry per group path the host
    reported for the bound devices, in that order: entry [i] has the
    [i]-th group path, the id [vfio-i], sits behind the IOMMU and is on
    segment 0.  The rest of the configuration is left alone. *)
Theorem addVFIODevices_effect w d config vmConfig :
  let r := addVFIODevices w d config vmConfig in
  let vmConfig' := r.1.2 in
  let devices := domain.VFIODevices config in
  let allowlist := match vfioConfig d with Some v => domain.Allowlist v | None => [] end in
  let w1 := (vfio_ValidateDevices w devices allowlist).1 in
  let w2 := (vfio_CheckIOMMUGroups w1 devices).1 in
  let w3 := (vfio_BindDevices w2 devices).1 in
  (devices = [] → r = (w, vmConfig, false)) ∧
  (r.2 = true → vmConfig' = vmConfig) ∧
  (r.2 = false → devices ≠ [] →
   ∃ platform groupPaths added,
     (vfio_GetVFIOGroupPaths w3 devices).2 = Some groupPaths ∧
     Platform vmConfig' = Some platform ∧
     NumPCISegments platform ≠ 0 ∧ IOMMUSegments platform ≠ [] ∧
     PlatformIOMMUAddressWidth platform ≠ 0 ∧
     (∀ old, Platform vmConfig = Some old →
        (NumPCISegments old ≠ 0 → NumPCISegments platform = NumPCISegments old) ∧
        (IOMMUSegments old ≠ [] → IOMMUSegments platform = IOMMUSegments old) ∧
        (PlatformIOMMUAddressWidth old ≠ 0 →
         PlatformIOMMUAddressWidth platform = PlatformIOMMUAddressWidth old)) ∧
     Devices vmConfig' = Devices vmConfig ++ added ∧
     length added = length groupPaths ∧
     (∀ (i : nat) groupPath,
        groupPaths !! i = Some groupPath →
        added !! i
        = Some (MkDevice groupPath ("vfio-" +:+ itoa.FormatInt (Z.of_nat i)) true 0)) ∧
     Forall (λ dev, IOMMU dev = true ∧ PCISegment dev = 0) added ∧
     VMPayload vmConfig' = VMPayload vmConfig).
Proof.
  cbv zeta. unfold addVFIODevices.
  destruct (domain.VFIODevices config) as [|dev devs] eqn:Hdevs.
  { split; [done|]. split; [done|]. intros _ Hne. done. }
  split; [done|].
  destruct (vfio_ValidateDevices _ _ _) as [w1 [|]]; [by split|].
  cbn [fst].
  destruct (vfio_CheckIOMMUGroups _ _) as [w2 [|]]; [by split|].
  cbn [fst].
  destruct (vfio_BindDevices _ _) as [w3 [|]]; [by split|].
  cbn [fst].
  destruct (vfio_GetVFIOGroupPaths _ _) as [w4 [groupPaths|]]; [|by split].
  cbn [fst snd]. split; [done|]. intros _ _.
  destruct (vfioDeviceConfigs_shape groupPaths) as [_ Hall].
  eexists _, groupPaths, (vfioDeviceConfigs groupPaths). cbn [Platform Devices VMPayload].
  split; [reflexivity|].
  split; [reflexivity|]. cbn [NumPCISegments IOMMUSegments PlatformIOMMUAddressWidth].
  split.
  { destruct (NumPCISegments _ =? 0) eqn:Hz; [|by apply Z.eqb_neq in Hz].
    destruct (vfioConfig d) as [v|]; [|done].
    destruct (0 <? domain.PCISegments v) eqn:Hpos; [apply Z.ltb_lt in Hpos; lia | done]. }
  split; [by destruct (IOMMUSegments _)|].
  split.
  { destruct (PlatformIOMMUAddressWidth _ =? 0) eqn:Hz; [|by apply Z.eqb_neq in Hz].
    destruct (vfioConfig d) as [v|]; [|done].
    destruct (0 <? domain.IOMMUAddressWidth v) eqn:Hpos; [apply Z.ltb_lt in Hpos; lia | done]. }
  split.
  { intros old Hold. rewrite Hold. simpl. repeat split.
    - intros Hne. by rewrite (proj2 (Z.eqb_neq _ _) Hne).
    - intros Hne. by destruct (IOMMUSegments old).
    - intros Hne. by rewrite (proj2 (Z.eqb_neq _ _) Hne). }
  split; [done|].
  split; [unfold vfioDeviceConfigs; by rewrite length_imap|].
  split; [|by split].
  intros i groupPath Hpath. unfold vfioDeviceConfigs.
  by rewrite list_lookup_imap, Hpath.
Qed.

End VFIOFacts.

(** Two devices on a host that reports one group path per device. *)
Example addVFIODevices_two_devices :
  addVFIODevices host0 defaultDriver gpuTask (MkVMConfig None [] ())
  = (host0,
     MkVMConfig (Some (MkPlatform 1 [0] 48))
                [MkDevice "0000:01:00.0" "vfio-0" true 0;
                 MkDevice "0000:01:00.1" "vfio-1" true 0] (),
     false).
Proof. vm_compute. reflexivity. Qed.

(** ** The network controller: addresses as numbers *)

Lemma to_byte_land (x : Z) : to_byte x = Z.land x 255.
Proof. unfold to_byte. change 255 with (Z.ones 8). by rewrite Z.land_ones by lia. Qed.

Lemma shiftl_byte_small (b k : Z) :
  0 <= b <= 255 → 0 <= k <= 24 → Z.shiftl b k mod 2 ^ 32 = Z.shiftl b k.
Proof.
  intros Hb Hk. rewrite Z.shiftl_mul_pow2 by lia. apply Z.mod_small.
  assert (0 < 2 ^ k) by (apply Z.pow_pos_nonneg; lia).
  assert (2 ^ k <= 2 ^ 24) by (apply Z.pow_le_mono_r; lia).
  change (2 ^ 32) with (256 * 2 ^ 24). nia.
Qed.

(** X18.  [ipv4ToUint32] and [uint32ToIPv4] are inverse to each other:
    a 32-bit value becomes the address with that value, an address
    becomes its value, and converting there and back gives the value
    again.  On the zero [Addr] the conversion to a number panics. *)
Theorem ipv4_uint32_round_trip (val : Z) :
  0 <= val < 2 ^ 32 →
  chnet.uint32ToIPv4 val = netip.IPv4 val ∧
  chnet.ipv4ToUint32 (netip.IPv4 val) = Some val ∧
  chnet.ipv4ToUint32 (chnet.uint32ToIPv4 val) = Some val ∧
  chnet.ipv4ToUint32 netip.AddrZero = None.
Proof.
  intros Hval.
  assert (chnet.uint32ToIPv4 val = netip.IPv4 val) as Hto.
  { unfold chnet.uint32ToIPv4, netip.AddrFrom4.
    rewrite !to_byte_land.
    change (Z.land (Z.shiftr val 24) 255) with (netip.octet val 0).
    change (Z.land (Z.shiftr val 16) 255) with (netip.octet val 1).
    change (Z.land (Z.shiftr val 8) 255) with (netip.octet val 2).
    change (Z.land val 255) with (netip.octet val 3).
    by rewrite octets_join. }
  assert (chnet.ipv4ToUint32 (netip.IPv4 val) = Some val) as Hfrom.
  { unfold chnet.ipv4ToUint32, netip.As4.
    rewrite !shiftl_byte_small by (try apply octet_byte; lia).
    by rewrite octets_join. }
  repeat split; try done. by rewrite Hto.
Qed.

Lemma ipv4_uint32_round_trip_witness :
  chnet.uint32ToIPv4 3232300554 = netip.IPv4 3232300554 ∧
  chnet.ipv4ToUint32 (netip.IPv4 3232300554) = Some 3232300554 ∧
  chnet.ipv4ToUint32 (chnet.uint32ToIPv4 3232300554) = Some 3232300554 ∧
  chnet.ipv4ToUint32 netip.AddrZero = None.
Proof. apply (ipv4_uint32_round_trip 3232300554). lia. Defined.

(** ** The network controller: chain set-up *)

Lemma ListChains_elem (h : iptables.Firewall) (t c : string) (l : list string) :
  iptables.ListChains h t = Some l → (c ∈ l ↔ (t, c) ∈ iptables.chains h).
Proof.
  unfold iptables.ListChains. case_bool_decide; [|done]. intros [= <-].
  rewrite list_elem_of_fmap. split.
  - intros ([t' c'] & -> & [Ht Hin]%list_elem_of_filter). simpl in *. by subst t'.
  - intros Hin. exists (t, c). split; [done|]. by apply list_elem_of_filter.
Qed.

Lemma ensureIPTablesChain_ok (h h' : iptables.Firewall) (t c : string) (created : bool) :
  chnet.ensureIPTablesChain h t c = (h', created, None) →
  same_tables h h' ∧ t ∈ iptables.tables (iptables.ipt h) ∧
  (t, c) ∈ iptables.chains h' ∧
  (∀ tc, tc ∈ iptables.chains h → tc ∈ iptables.chains h') ∧
  iptables.rules (iptables.ipt h') = iptables.rules (iptables.ipt h).
Proof.
  unfold chnet.ensureIPTablesChain.
  destruct (iptables.ListChains h t) as [l|] eqn:Hlist; [|done].
  assert (t ∈ iptables.tables (iptables.ipt h)) as Ht.
  { unfold iptables.ListChains in Hlist. by case_bool_decide. }
  pose proof (ListChains_elem h t c l Hlist) as Helem.
  case_bool_decide as Hin.
  { intros [= <- <-]. repeat split; try done. by apply Helem. }
  unfold iptables.NewChain. rewrite bool_decide_eq_true_2 by done. cbn [negb].
  rewrite bool_decide_eq_false_2 by (by rewrite <- Helem).
  intros [= <- <-]. cbn [iptables.ipt iptables.chains]. repeat split; try done.
  - apply elem_of_app. right. left.
  - intros tc Htc. apply elem_of_app. by left.
Qed.

Lemma ensureIPTablesChain_present (h : iptables.Firewall) (t c : string) :
  t ∈ iptables.tables (iptables.ipt h) → (t, c) ∈ iptables.chains h →
  chnet.ensureIPTablesChain h t c = (h, false, None).
Proof.
  intros Ht Hc. unfold chnet.ensureIPTablesChain.
  destruct (iptables.ListChains h t) as [l|] eqn:Hlist.
  - rewrite bool_decide_eq_true_2; [done|]. by apply (ListChains_elem h t c l Hlist).
  - unfold iptables.ListChains in Hlist. by rewrite bool_decide_eq_true_2 in Hlist.
Qed.

Lemma Insert_ok (h h' : iptables.Firewall) (t c : string) (pos : Z) (spec : list string) :
  iptables.Insert h t c pos spec = (h', None) →
  same_tables h h' ∧ iptables.chains h' = iptables.chains h.
Proof.
  unfold iptables.Insert.
  destruct (negb (iptables.accepts h _)); [done|].
  destruct (negb (bool_decide (t ∈ _))); [done|].
  destruct (negb (bool_decide ((t, c) ∈ _))); [done|].
  destruct (iptables.insert_at _ _ _) as [l|]; [|done].
  intros [= <-]. by split.
Qed.

Lemma ensureIPTables_ready (h h' : iptables.Firewall) :
  chnet.ensureIPTables h = (h', None) →
  same_tables h h' ∧ (iptables.installed (iptables.ipt h) = true → chains_ready h').
Proof.
  unfold chnet.ensureIPTables at 1.
  destruct (iptables.installed (iptables.ipt h)) eqn:Hinst; cbn [negb].
  2:{ intros [= <-]. by split. }
  destruct (chnet.ensureIPTablesChain h _ _) as [[h1 natCreated] [e|]] eqn:Hnat; [done|].
  apply ensureIPTablesChain_ok in Hnat as ([Hi1 Ht1] & Hnat_t & Hnat_c & Hkeep1 & _).
  destruct (if natCreated then _ else _) as [h2 [e|]] eqn:Hjump1; [done|].
  assert (same_tables h1 h2 ∧ iptables.chains h2 = iptables.chains h1) as ([Hi2 Ht2] & Hc2).
  { destruct natCreated; [by apply Insert_ok in Hjump1|]. by injection Hjump1 as <-. }
  destruct (chnet.ensureIPTablesChain h2 _ _) as [[h3 filterCreated] [e|]] eqn:Hfil; [done|].
  apply ensureIPTablesChain_ok in Hfil as ([Hi3 Ht3] & Hfil_t & Hfil_c & Hkeep3 & _).
  destruct (if filterCreated then _ else _) as [h4 [e|]] eqn:Hjump2; [done|].
  assert (same_tables h3 h4 ∧ iptables.chains h4 = iptables.chains h3) as ([Hi4 Ht4] & Hc4).
  { destruct filterCreated; [by apply Insert_ok in Hjump2|]. by injection Hjump2 as <-. }
  intros [= <-].
  split; [split; congruence|]. intros _. unfold chains_ready.
  repeat split.
  - by rewrite Ht4, Ht3, Ht2, Ht1.
  - by rewrite Ht4, Ht3.
  - rewrite Hc4. apply Hkeep3. by rewrite Hc2.
  - by rewrite Hc4.
Qed.

(** X19.  [Init] is idempotent: after a call that returned no error, a
    second call returns no error and leaves the packet filter exactly
    as the first call left it (no second chain, no second jump rule).
    If the packet-filter tool is installed, both chains of the driver
    exist after the first call. *)
Theorem ensureIPTables_idempotent (h h' : iptables.Firewall) :
  chnet.ensureIPTables h = (h', None) →
  chnet.ensureIPTables h' = (h', None) ∧
  (iptables.installed (iptables.ipt h) = true → chains_ready h').
Proof.
  intros Hinit. destruct (ensureIPTables_ready h h' Hinit) as [[Hi Ht] Hready].
  split; [|done]. unfold chnet.ensureIPTables. rewrite Hi.
  destruct (iptables.installed (iptables.ipt h)) eqn:Hinst; cbn [negb]; [|done].
  destruct (Hready eq_refl) as (Hnat & Hfil & Hprt & Hfw).
  by rewrite !ensureIPTablesChain_present.
Qed.

Lemma ensureIPTables_fresh : chnet.ensureIPTables freshFirewall = (readyFirewall, None).
Proof. reflexivity. Defined.

Lemma ensureIPTables_idempotent_witness :
  chnet.ensureIPTables readyFirewall = (readyFirewall, None) ∧
  (iptables.installed (iptables.ipt freshFirewall) = true → chains_ready readyFirewall).
Proof. exact (ensureIPTables_idempotent freshFirewall readyFirewall ensureIPTables_fresh). Defined.

Example ensureIPTables_jump_rules :
  iptables.rules (iptables.ipt readyFirewall)
  = [iptables.MkRule "filter" "FORWARD" ["-j"; "NOMAD_CH_FW"];
     iptables.MkRule "nat" "PREROUTING" ["-j"; "NOMAD_CH_PRT"]].
Proof. vm_compute. reflexivity. Qed.

(** ** The network controller: building and tearing down port forwarding *)

Lemma Append_ok (h h' : iptables.Firewall) (t c : string) (spec : list string) :
  iptables.Append h t c spec = (h', None) →
  t ∈ iptables.tables (iptables.ipt h) ∧
  h' = iptables.set_rules h (iptables.rules (iptables.ipt h) ++ [iptables.MkRule t c spec]).
Proof.
  unfold iptables.Append. destruct (iptables.accepts h _); cbn [negb]; [|done].
  case_bool_decide as Ht; cbn [negb]; [|done].
  case_bool_decide as Hc; cbn [negb]; [|done]. by intros [= <-].
Qed.

(** A failed [Append] leaves the host alone; the tool rejected the
    rule, or the table or the chain is missing. *)
Lemma Append_failed (h h' : iptables.Firewall) (t c : string) (spec : list string)
    (e : iptables.chain_error) :
  iptables.Append h t c spec = (h', Some e) →
  h' = h ∧
  ((e = iptables.ErrBadRule (iptables.MkRule t c spec) ∧
    iptables.accepts h (iptables.MkRule t c spec) = false) ∨
   t ∉ iptables.tables (iptables.ipt h) ∨ (t, c) ∉ iptables.chains h).
Proof.
  unfold iptables.Append. destruct (iptables.accepts h _) eqn:Hacc; cbn [negb].
  2:{ intros [= <- <-]. auto. }
  case_bool_decide as Ht; cbn [negb]; [|intros [= <-]; auto].
  case_bool_decide as Hc; cbn [negb]; [done|]. intros [= <-]. auto.
Qed.

(** A recorded rule with its table and chain in front, as the rule it
    stands for. *)
Lemma ruleOf_preRouteArgs (p : chnet.AllocatedPortMapping) (iface ip : string) :
  ruleOf (chnet.preRouteArgs p iface ip)
  = iptables.MkRule chnet.iptablesNATTableName chnet.preroutingIPTablesChainName
                    (drop 2 (chnet.preRouteArgs p iface ip)).
Proof. done. Qed.

Lemma ruleOf_filterArgs (p : chnet.AllocatedPortMapping) (ip : string) :
  ruleOf (chnet.filterArgs p ip)
  = iptables.MkRule chnet.iptablesFilterTableName chnet.forwardIPTablesChainName
                    (drop 2 (chnet.filterArgs p ip)).
Proof. done. Qed.

(** What a successful run of the loop has done: it has appended the
    rules it reports, in order, and nothing else. *)
Lemma configureLoop_done (c : chnet.Controller) (ports : list chnet.AllocatedPortMapping)
    (ip : string) (labels : list string) (h h' : iptables.Firewall)
    (cache : gmap string string) (acc rules : list (list string)) :
  chnet.configureLoop c ports ip labels h cache acc = (h', Done rules) →
  ∃ added,
    rules = acc ++ added ∧
    h' = iptables.set_rules h (iptables.rules (iptables.ipt h) ++ (ruleOf <$> added)) ∧
    Forall (processable (iptables.ipt h)) added.
Proof.
  revert h cache acc. induction labels as [|label labels IH]; intros h cache acc.
  { cbn [chnet.configureLoop]. intros [= <- <-]. exists []. rewrite !app_nil_r.
    split; [done|]. split; [by destruct h as [[? ? ?] ? ?]|constructor]. }
  cbn [chnet.configureLoop].
  destruct (chnet.Get ports label) as [p|]; [|apply IH].
  destruct (match cache !! chnet.HostIP p with Some _ => _ | None => _ end)
    as [[iface cache']|]; [|done].
  destruct (iptables.Append h _ _ _) as [h1 [e|]] eqn:Hpre; [done|].
  apply Append_ok in Hpre as [Hnat ->].
  destruct (iptables.Append _ _ _ _) as [h2 [e|]] eqn:Hfil; [done|].
  apply Append_ok in Hfil as [Hfilter ->].
  intros (added & -> & -> & Hall)%IH.
  exists (chnet.preRouteArgs p iface ip :: chnet.filterArgs p ip :: added).
  split; [by rewrite <- !app_assoc|]. split.
  - unfold iptables.set_rules. cbn [iptables.ipt iptables.rules iptables.installed
      iptables.tables iptables.chains]. rewrite !fmap_cons, <- !app_assoc. done.
  - constructor; [by eexists _, _, _|]. constructor; [by eexists _, _, _|]. exact Hall.
Qed.

Lemma remove_first_perm (r : iptables.rule) (l : list iptables.rule) :
  r ∈ l → r :: iptables.remove_first r l ≡ₚ l.
Proof.
  induction l as [|x l IH]; intros Hin; [by apply elem_of_nil in Hin|].
  cbn [iptables.remove_first]. case_bool_decide as Hx; [by subst|].
  apply elem_of_cons in Hin as [->|Hin]; [done|].
  rewrite Permutation_swap. by rewrite IH.
Qed.

Lemma remove_first_fresh (r : iptables.rule) (base rest : list iptables.rule) :
  r ∉ base → iptables.remove_first r (base ++ r :: rest) = base ++ rest.
Proof.
  induction base as [|x base IH]; intros Hfresh; cbn [iptables.remove_first app].
  - by rewrite bool_decide_eq_true_2.
  - apply not_elem_of_cons in Hfresh as [Hne Hfresh].
    rewrite bool_decide_eq_false_2 by congruence. by rewrite IH.
Qed.

(** Deleting, in order, rules that are in place: no error, and each
    deletion removes one copy. *)
Lemma teardownLoop_added (g : iptables.IPTables) (base : list iptables.rule)
    (added : list (list string)) (errors : list chnet.teardown_error) :
  Forall (processable g) added →
  iptables.rules g ≡ₚ base ++ (ruleOf <$> added) →
  ∃ l, chnet.teardownLoop g added errors
       = (iptables.MkIPTables (iptables.installed g) (iptables.tables g) l,
          chnet.Returned errors) ∧
       l ≡ₚ base ∧
       (iptables.rules g = base ++ (ruleOf <$> added) →
        Forall (λ rule, ruleOf rule ∉ base) added → l = base).
Proof.
  revert g. induction added as [|rule added IH]; intros g Hall Hperm.
  { cbn [chnet.teardownLoop]. exists (iptables.rules g). split; [by destruct g|].
    rewrite app_nil_r in Hperm. split; [done|]. intros Heq _. by rewrite app_nil_r in Heq. }
  apply Forall_cons in Hall as [(t & ch & args & -> & Ht) Hall].
  cbn [chnet.teardownLoop]. rewrite fmap_cons in Hperm. cbn [ruleOf] in Hperm.
  set (r := iptables.MkRule t ch args) in *.
  assert (r ∈ iptables.rules g) as Hin.
  { rewrite Hperm. apply elem_of_app. right. left. }
  unfold iptables.DeleteIfExists, iptables.Exists.
  rewrite (bool_decide_eq_true_2 (iptables.table r ∈ iptables.tables g)) by done.
  rewrite (bool_decide_eq_true_2 (r ∈ iptables.rules g)) by done.
  unfold iptables.Delete.
  rewrite (bool_decide_eq_true_2 (iptables.table r ∈ iptables.tables g)) by done.
  rewrite (bool_decide_eq_true_2 (r ∈ iptables.rules g)) by done.
  set (g' := iptables.MkIPTables _ _ _).
  destruct (IH g') as (l & Hloop & Hl & Hexact).
  { exact Hall. }
  { subst g'. cbn [iptables.rules]. apply (Permutation_cons_inv (a := r)).
    rewrite remove_first_perm by done. rewrite Hperm. by rewrite Permutation_middle. }
  exists l. split; [exact Hloop|]. split; [done|].
  intros Heq Hfresh. apply Forall_cons in Hfresh as [Hr Hfresh]. apply Hexact; [|done].
  subst g'. cbn [iptables.rules]. rewrite Heq, fmap_cons. cbn [ruleOf]. fold r.
  by apply remove_first_fresh.
Qed.

Lemma set_rules_id (h : iptables.Firewall) :
  iptables.set_rules h (iptables.rules (iptables.ipt h) ++ []) = h.
Proof. destruct h as [[? ? ?] ? ?]. unfold iptables.set_rules. simpl. by rewrite app_nil_r. Qed.

Lemma configureIPTables_done (c : chnet.Controller) (h h' : iptables.Firewall)
    (res : chnet.Resources) (cfg : option domain.NetworkInterfaceBridgeConfig)
    (ip : string) (rules : list (list string)) :
  chnet.configureIPTables c h res cfg ip = (h', Done rules) →
  h' = iptables.set_rules h (iptables.rules (iptables.ipt h) ++ (ruleOf <$> rules)) ∧
  Forall (processable (iptables.ipt h)) rules ∧
  (iptables.installed (iptables.ipt h) = false → rules = []).
Proof.
  unfold chnet.configureIPTables.
  destruct (iptables.installed (iptables.ipt h)); cbn [negb].
  2:{ intros [= <- <-]. by rewrite set_rules_id. }
  destruct cfg as [cfg|]; [|done].
  destruct (domain.Ports cfg) as [|label labels].
  { intros [= <- <-]. by rewrite set_rules_id. }
  destruct (chnet.Ports res) as [ports|]; [|done].
  intros (added & -> & -> & Hall)%configureLoop_done. done.
Qed.

(** What a build that returns a response has done to the host. *)
Lemma firstGuestIP_nonempty (req : chnet.VMStartedBuildRequest) (ip : string) :
  chnet.firstGuestIP req = Some ip → ip ≠ "".
Proof.
  unfold chnet.firstGuestIP. destruct (chnet.GuestIPs req) as [|g l]; [done|].
  case_bool_decide; by intros [= <-].
Qed.

(** What a build that returns a response has done to the host. *)
Lemma VMStartedBuild_done (c : chnet.Controller) (h h' : iptables.Firewall)
    (req : option chnet.VMStartedBuildRequest) (resp : chnet.VMStartedBuildResponse) :
  chnet.VMStartedBuild c h req = (h', Done resp) →
  match chnet.RespTeardownSpec resp with
  | None => h' = h ∧ chnet.DriverNetwork resp = None
  | Some spec =>
      h' = iptables.set_rules h
             (iptables.rules (iptables.ipt h) ++ (ruleOf <$> chnet.IPTablesRules spec)) ∧
      Forall (processable (iptables.ipt h)) (chnet.IPTablesRules spec) ∧
      (iptables.installed (iptables.ipt h) = false → chnet.IPTablesRules spec = []) ∧
      ∃ r ip, req = Some r ∧ chnet.DriverNetwork resp = Some ip ∧
              ip = default (default "" (requestStaticIP r)) (chnet.firstGuestIP r) ∧ ip ≠ ""
  end.
Proof.
  unfold chnet.VMStartedBuild. destruct req as [req|]; [|done].
  destruct (chnet.NetConfig req) as [netConfig|] eqn:Hnc; [|by intros [= <- <-]].
  destruct (chnet.ReqResources req) as [res|]; [|by intros [= <- <-]].
  destruct netConfig as [|[netInterface|] rest]; [by intros [= <- <-]|..|done].
  cbv zeta.
  destruct (match domain.IfBridge netInterface with Some _ => _ | None => _ end)
    as [bridgeName|]; [|done].
  destruct (bool_decide (bridgeName = "")); [done|].
  destruct (negb (chnet.bridgeExists c bridgeName)); [done|].
  destruct (chnet.firstGuestIP req) as [guest|] eqn:Hguest.
  - destruct (chnet.configureIPTables c h res _ guest) as [h1 [rules|e|]] eqn:Hconf; [|done..].
    intros [= <- <-]. cbn [chnet.RespTeardownSpec chnet.IPTablesRules chnet.DriverNetwork].
    apply configureIPTables_done in Hconf as (-> & Hall & Hnone).
    split; [done|]. split; [done|]. split; [done|]. exists req, guest. rewrite Hguest.
    repeat split; try done. by apply (firstGuestIP_nonempty req).
  - destruct (domain.IfBridge netInterface) as [b|] eqn:Hb; [|done].
    case_bool_decide as Hne; [|done].
    destruct (chnet.configureIPTables c h res _ _) as [h1 [rules|e|]] eqn:Hconf; [|done..].
    intros [= <- <-]. cbn [chnet.RespTeardownSpec chnet.IPTablesRules chnet.DriverNetwork].
    apply configureIPTables_done in Hconf as (-> & Hall & Hnone).
    split; [done|]. split; [done|]. split; [done|]. exists req, (domain.StaticIP b). rewrite Hguest.
    unfold requestStaticIP, requestBridge. rewrite Hnc, Hb. simpl.
    unfold nonEmpty. by rewrite bool_decide_eq_true_2.
Qed.

(** X21.  The teardown undoes the build.  When [VMStartedBuild] returns
    a response with a teardown specification, [VMTerminatedTeardown]
    called with that specification on the host the build left returns
    no error (and does not panic: every recorded rule has its table and
    chain), leaves tables and chains as they were before the build, and
    leaves the rules that were in place before the build, each as often
    as before; if none of the recorded rules was in place before the
    build, the rule list is exactly the one before the build.  A
    response without specification means the host was not touched. *)
Theorem VMStartedBuild_teardown_round_trip (c : chnet.Controller) (h h' : iptables.Firewall)
    (req : option chnet.VMStartedBuildRequest) (resp : chnet.VMStartedBuildResponse) :
  chnet.VMStartedBuild c h req = (h', Done resp) →
  match chnet.RespTeardownSpec resp with
  | None => h' = h
  | Some spec =>
      iptables.chains h' = iptables.chains h ∧
      ∃ l, chnet.VMTerminatedTeardown (iptables.ipt h') (teardownOf spec)
           = (iptables.MkIPTables (iptables.installed (iptables.ipt h))
                                  (iptables.tables (iptables.ipt h)) l,
              chnet.Returned []) ∧
           l ≡ₚ iptables.rules (iptables.ipt h) ∧
           (Forall (λ rule, ruleOf rule ∉ iptables.rules (iptables.ipt h))
                   (chnet.IPTablesRules spec) →
            l = iptables.rules (iptables.ipt h))
  end.
Proof.
  intros Hbuild%VMStartedBuild_done.
  destruct (chnet.RespTeardownSpec resp) as [spec|]; [|by destruct Hbuild].
  destruct Hbuild as (-> & Hall & Hnone & _). split; [done|].
  unfold chnet.VMTerminatedTeardown, teardownOf. cbn [chnet.Spec].
  cbn [iptables.ipt iptables.set_rules iptables.installed].
  destruct (iptables.installed (iptables.ipt h)) eqn:Hinst; cbn [negb].
  - destruct (teardownLoop_added
                (iptables.MkIPTables true (iptables.tables (iptables.ipt h))
                   (iptables.rules (iptables.ipt h) ++ (ruleOf <$> chnet.IPTablesRules spec)))
                (iptables.rules (iptables.ipt h)) (chnet.IPTablesRules spec) [])
      as (l & Hloop & Hperm & Hexact); [exact Hall | done |].
    exists l. split; [exact Hloop|]. split; [done|]. intros Hfresh. by apply Hexact.
  - rewrite (Hnone eq_refl). rewrite app_nil_r. eexists. split; [reflexivity|]. by split.
Qed.

(** X20.  The guest address of [VMStartedBuild].  The address handed
    back is never empty; it is the first address the virtualizer
    reported whenever that is not empty, even if the task configures a
    static IP, and the static IP of the first interface otherwise.
    The lease look-up branch never yields an address: it fails with the
    no-address error, which therefore means that neither source had
    one.  A response without address, and every failure other than a
    port-mapping failure, leaves the host untouched. *)
Theorem VMStartedBuild_address (c : chnet.Controller) (h : iptables.Firewall)
    (req : chnet.VMStartedBuildRequest) :
  match chnet.VMStartedBuild c h (Some req) with
  | (h', Done resp) =>
      match chnet.DriverNetwork resp with
      | Some ip =>
          ip ≠ "" ∧
          ip = default (default "" (requestStaticIP req)) (chnet.firstGuestIP req)
      | None => h' = h ∧ chnet.RespTeardownSpec resp = None
      end
  | (h', Failed e) =>
      match e with
      | chnet.ErrPortMapping _ => True
      | chnet.ErrNoGuestIP name =>
          h' = h ∧ name = chnet.DomainName req ∧
          chnet.firstGuestIP req = None ∧ requestStaticIP req = None
      | _ => h' = h
      end
  | (h', Panics) => True
  end.
Proof.
  destruct (chnet.VMStartedBuild c h (Some req)) as [h' [resp|e|]] eqn:Hbuild; [| |done].
  - apply VMStartedBuild_done in Hbuild.
    destruct (chnet.RespTeardownSpec resp) as [spec|].
    + destruct Hbuild as (_ & _ & _ & r & ip & [= <-] & -> & -> & Hne). by split.
    + destruct Hbuild as [-> ->]. done.
  - revert Hbuild. unfold chnet.VMStartedBuild, requestStaticIP, requestBridge.
    destruct (chnet.NetConfig req) as [netConfig|]; [|done].
    destruct (chnet.ReqResources req) as [res|]; [|done].
    destruct netConfig as [|[netInterface|] rest]; [done|..|done].
    cbv zeta.
    destruct (match domain.IfBridge netInterface with Some _ => _ | None => _ end)
      as [bridgeName|]; [|done].
    destruct (bool_decide (bridgeName = "")); [by intros [= <- <-]|].
    destruct (negb (chnet.bridgeExists c bridgeName)); [by intros [= <- <-]|].
    destruct (chnet.firstGuestIP req) as [guest|] eqn:Hguest.
    + destruct (chnet.configureIPTables c h res _ guest) as [h1 [rules|e'|]]; [done| |done].
      by intros [= <- <-].
    + destruct (domain.IfBridge netInterface) as [b|]; [|by intros [= <- <-]].
      cbn [mbind option_bind]. unfold nonEmpty.
      case_bool_decide as Hstatic; [|by intros [= <- <-]].
      destruct (chnet.configureIPTables c h res _ _) as [h1 [rules|e'|]]; [done| |done].
      by intros [= <- <-].
Qed.

Lemma chains_ready_set_rules (h : iptables.Firewall) (l : list iptables.rule) :
  chains_ready h → chains_ready (iptables.set_rules h l).
Proof. done. Qed.

Lemma configureLoop_failed (c : chnet.Controller) (ports : list chnet.AllocatedPortMapping)
    (ip : string) (labels : list string) (h h' : iptables.Firewall)
    (cache : gmap string string) (acc : list (list string)) (e : chnet.configure_error) :
  chains_ready h →
  chnet.configureLoop c ports ip labels h cache acc = (h', Failed e) →
  (∃ hostIP, e = chnet.ErrIdentifyInterface hostIP) ∨
  (∃ r, e = chnet.ErrAppend (iptables.ErrBadRule r) ∧ iptables.accepts h r = false).
Proof.
  revert h cache acc. induction labels as [|label labels IH]; intros h cache acc Hready; [done|].
  cbn [chnet.configureLoop].
  destruct (chnet.Get ports label) as [p|]; [|by apply IH].
  destruct (match cache !! chnet.HostIP p with Some _ => _ | None => _ end)
    as [[iface cache']|]; [|intros [= <- <-]; eauto].
  pose proof Hready as (Hnat & Hfil & Hprt & Hfw).
  destruct (iptables.Append h _ _ _) as [h1 [e1|]] eqn:Hpre.
  { apply Append_failed in Hpre as [_ [[-> Hacc]|[?|?]]]; [|done..].
    intros [= <- <-]. right. eauto. }
  apply Append_ok in Hpre as [_ ->].
  destruct (iptables.Append _ _ _ _) as [h2 [e2|]] eqn:Hfilter.
  { apply Append_failed in Hfilter as [_ [[-> Hacc]|[?|?]]]; [|done..].
    intros [= <- <-]. right. eauto. }
  apply Append_ok in Hfilter as [_ ->].
  intros Hloop. by apply IH in Hloop.
Qed.

(** X22.  After a successful [Init], port mapping cannot fail for want
    of a table or a chain: if [VMStartedBuild], run on the host [Init]
    left, fails to configure the port mapping, then either the
    interface of a host address could not be identified, or the tool
    rejected a rule for its arguments (the reserved host address and
    the guest address go into the rules unchecked). *)
Theorem VMStartedBuild_after_Init (c : chnet.Controller) (h0 h h' : iptables.Firewall)
    (req : option chnet.VMStartedBuildRequest) (e : chnet.configure_error) :
  chnet.Init h0 = (h, None) →
  chnet.VMStartedBuild c h req = (h', Failed (chnet.ErrPortMapping e)) →
  (∃ hostIP, e = chnet.ErrIdentifyInterface hostIP) ∨
  (∃ r, e = chnet.ErrAppend (iptables.ErrBadRule r) ∧ iptables.accepts h r = false).
Proof.
  intros [[Hinst _] Hready]%ensureIPTables_ready.
  assert (∀ res cfg ip,
            chnet.configureIPTables c h res cfg ip = (h', Failed e) →
            (∃ hostIP, e = chnet.ErrIdentifyInterface hostIP) ∨
            (∃ r, e = chnet.ErrAppend (iptables.ErrBadRule r) ∧ iptables.accepts h r = false))
    as Hconf.
  { intros res cfg ip. unfold chnet.configureIPTables.
    destruct (iptables.installed (iptables.ipt h)) eqn:Hi; cbn [negb]; [|done].
    destruct cfg as [cfg|]; [|done]. destruct (domain.Ports cfg) as [|label labels]; [done|].
    destruct (chnet.Ports res) as [ports|]; [|done].
    apply configureLoop_failed. apply Hready. by rewrite <- Hinst. }
  unfold chnet.VMStartedBuild. destruct req as [req|]; [|done].
  destruct (chnet.NetConfig req) as [netConfig|]; [|done].
  destruct (chnet.ReqResources req) as [res|]; [|done].
  destruct netConfig as [|[netInterface|] rest]; [done|..|done].
  cbv zeta.
  destruct (match domain.IfBridge netInterface with Some _ => _ | None => _ end)
    as [bridgeName|]; [|done].
  destruct (bool_decide (bridgeName = "")); [done|].
  destruct (negb (chnet.bridgeExists c bridgeName)); [done|].
  destruct (chnet.firstGuestIP req) as [guest|].
  - destruct (chnet.configureIPTables c h res _ guest) as [h1 [rules|e'|]] eqn:Hc; [done| |done].
    intros [= <- <-]. by eapply Hconf.
  - destruct (domain.IfBridge netInterface) as [b|]; [|done].
    case_bool_decide as Hstatic; [|done].
    destruct (chnet.configureIPTables c h res _ _) as [h1 [rules|e'|]] eqn:Hc; [done| |done].
    intros [= <- <-]. by eapply Hconf.
Qed.

Lemma VMStartedBuild_web :
  chnet.VMStartedBuild exampleController readyFirewall (Some webRequest)
  = ((chnet.VMStartedBuild exampleController readyFirewall (Some webRequest)).1,
     Done (chnet.MkBuildResponse
             (Some "192.168.254.10")
             (Some (chnet.MkTeardownSpec [natRule; filterRule] "" "br0")))).
Proof. reflexivity. Defined.

Lemma VMStartedBuild_teardown_round_trip_witness :
  let h' := (chnet.VMStartedBuild exampleController readyFirewall (Some webRequest)).1 in
  let spec := chnet.MkTeardownSpec [natRule; filterRule] "" "br0" in
  iptables.chains h' = iptables.chains readyFirewall ∧
  ∃ l, chnet.VMTerminatedTeardown (iptables.ipt h') (teardownOf spec)
       = (iptables.MkIPTables (iptables.installed (iptables.ipt readyFirewall))
                              (iptables.tables (iptables.ipt readyFirewall)) l,
          chnet.Returned []) ∧
       l ≡ₚ iptables.rules (iptables.ipt readyFirewall) ∧
       (Forall (λ rule, ruleOf rule ∉ iptables.rules (iptables.ipt readyFirewall))
               (chnet.IPTablesRules spec) →
        l = iptables.rules (iptables.ipt readyFirewall)).
Proof.
  exact (VMStartedBuild_teardown_round_trip exampleController readyFirewall _
           (Some webRequest) _ VMStartedBuild_web).
Defined.

Example VMStartedBuild_web_rules :
  iptables.rules (iptables.ipt
    (chnet.VMStartedBuild exampleController readyFirewall (Some webRequest)).1)
  = iptables.rules (iptables.ipt readyFirewall) ++ [ruleOf natRule; ruleOf filterRule].
Proof. vm_compute. reflexivity. Qed.

Lemma VMStartedBuild_blind :
  chnet.VMStartedBuild blindController readyFirewall (Some webRequest)
  = (readyFirewall,
     Failed (chnet.ErrPortMapping (chnet.ErrIdentifyInterface "10.0.0.2"))).
Proof. reflexivity. Defined.

(** A guest address that is none: the tool rejects the first rule, and
    the host is left as it was. *)
Lemma VMStartedBuild_stray :
  chnet.VMStartedBuild exampleController readyFirewall (Some strayRequest)
  = (readyFirewall,
     Failed (chnet.ErrPortMapping
               (chnet.ErrAppend
                  (iptables.ErrBadRule
                     (ruleOf (chnet.preRouteArgs (chnet.MkPort "http" 8080 80 "10.0.0.2")
                                                 "eth0" "192.168.254.300")))))).
Proof. reflexivity. Defined.

Lemma VMStartedBuild_after_Init_witness :
  (∃ hostIP,
     chnet.ErrAppend
       (iptables.ErrBadRule
          (ruleOf (chnet.preRouteArgs (chnet.MkPort "http" 8080 80 "10.0.0.2")
                                      "eth0" "192.168.254.300")))
     = chnet.ErrIdentifyInterface hostIP) ∨
  (∃ r,
     chnet.ErrAppend
       (iptables.ErrBadRule
          (ruleOf (chnet.preRouteArgs (chnet.MkPort "http" 8080 80 "10.0.0.2")
                                      "eth0" "192.168.254.300")))
     = chnet.ErrAppend (iptables.ErrBadRule r) ∧
     iptables.accepts readyFirewall r = false).
Proof.
  exact (VMStartedBuild_after_Init exampleController freshFirewall readyFirewall readyFirewall
           (Some strayRequest) _ ensureIPTables_fresh VMStartedBuild_stray).
Defined.

Example VMStartedBuild_without_Init :
  (chnet.VMStartedBuild exampleController freshFirewall (Some webRequest)).2
  = Failed (chnet.ErrPortMapping
              (chnet.ErrAppend (iptables.ErrNoChain "nat" "NOMAD_CH_PRT"))).
Proof. vm_compute. reflexivity. Qed.

(** ** Teardown with failing rules *)

Lemma copies_cons (r x : iptables.rule) (l : list iptables.rule) :
  copies r (x :: l) = ((if bool_decide (x = r) then 1 else 0) + copies r l)%nat.
Proof. unfold copies. rewrite filter_cons. case_decide; case_bool_decide; done. Qed.

Lemma copies_remove_first (r r0 : iptables.rule) (l : list iptables.rule) :
  copies r (iptables.remove_first r0 l)
  = if bool_decide (r = r0) then pred (copies r l) else copies r l.
Proof.
  induction l as [|x l IH]; cbn [iptables.remove_first].
  { by case_bool_decide. }
  destruct (bool_decide (x = r0)) eqn:Hx.
  - apply bool_decide_eq_true in Hx. subst x. rewrite copies_cons.
    case_bool_decide as Hr.
    + subst r. by rewrite bool_decide_eq_true_2.
    + rewrite bool_decide_eq_false_2 by congruence. done.
  - apply bool_decide_eq_false in Hx. rewrite !copies_cons, IH.
    case_bool_decide as Hr; [|done]. subst r0.
    rewrite bool_decide_eq_false_2 by done. done.
Qed.

Lemma teardownLoop_counts (g : iptables.IPTables) (rules : list (list string))
    (errors : list chnet.teardown_error) :
  Forall (λ rule, (2 ≤ length rule)%nat) rules →
  ∃ g' more,
    chnet.teardownLoop g rules errors = (g', chnet.Returned (errors ++ more)) ∧
    iptables.tables g' = iptables.tables g ∧
    chnet.err_table <$> more
    = filter (λ t, t ∉ iptables.tables g) (iptables.table ∘ ruleOf <$> rules) ∧
    ∀ r, copies r (iptables.rules g')
         = if bool_decide (iptables.table r ∈ iptables.tables g)
           then (copies r (iptables.rules g) - copies r (ruleOf <$> rules))%nat
           else copies r (iptables.rules g).
Proof.
  revert g errors. induction rules as [|rule rules IH]; intros g errors Hall.
  { exists g, []. rewrite app_nil_r. cbn [chnet.teardownLoop]. repeat split; try done.
    intros r. case_bool_decide; [|done].
    change (copies r (ruleOf <$> [])) with 0%nat. lia. }
  apply Forall_cons in Hall as [Hlen Hall].
  destruct rule as [|t [|c args]]; [simpl in Hlen; lia..|].
  cbn [chnet.teardownLoop]. rewrite !fmap_cons. cbn [ruleOf compose iptables.table].
  set (r0 := iptables.MkRule t c args).
  destruct (decide (t ∈ iptables.tables g)) as [Hknown|Hunknown].
  - rewrite DeleteIfExists_known_table by done.
    set (g1 := if bool_decide (r0 ∈ iptables.rules g) then _ else g).
    assert (iptables.tables g1 = iptables.tables g) as Htables.
    { subst g1. by case_bool_decide. }
    assert (∀ r, copies r (iptables.rules g1)
                 = if bool_decide (r = r0) then pred (copies r (iptables.rules g))
                   else copies r (iptables.rules g)) as Hg1.
    { intros r. subst g1. case_bool_decide as Hin.
      - cbn [iptables.rules]. apply copies_remove_first.
      - rewrite <- (remove_first_absent r0 (iptables.rules g)) at 1 by done.
        apply copies_remove_first. }
    destruct (IH g1 errors Hall) as (g' & more & Hloop & Ht & Herr & Hcount).
    exists g', more. split; [done|]. split; [congruence|]. split.
    + rewrite filter_cons_False by (intros ?; done). by rewrite Htables in Herr.
    + intros r. rewrite Hcount, Htables, Hg1, copies_cons.
      case_bool_decide as Hr; case_bool_decide as Heq; subst;
        rewrite ?bool_decide_eq_true_2 by done;
        rewrite ?bool_decide_eq_false_2 by congruence; try lia.
      exfalso. by apply Hr.
  - rewrite DeleteIfExists_unknown_table by done.
    change (iptables.table r0) with t.
    destruct (IH g (errors ++ [chnet.MkTeardownError t c (iptables.ErrTable t)]) Hall)
      as (g' & more & Hloop & Ht & Herr & Hcount).
    exists g', (chnet.MkTeardownError t c (iptables.ErrTable t) :: more).
    split; [by rewrite Hloop, <- app_assoc|]. split; [done|]. split.
    + rewrite filter_cons_True by done. rewrite fmap_cons. cbn [chnet.err_table].
      by rewrite Herr.
    + intros r. rewrite Hcount, copies_cons.
      case_bool_decide as Hr; [|done].
      rewrite bool_decide_eq_false_2; [done|]. intros <-. done.
Qed.

(** X25.  [VMTerminatedTeardown] ploughs on.  With the packet-filter
    tool installed and every recorded rule carrying at least a table
    and a chain, the call returns (it does not panic), with one error
    per recorded rule whose table the host does not offer, in the order
    of the rules; the tables of the host are unchanged; every rule of a
    table the host offers is in place as often as before minus the
    number of times it is recorded (but not less than zero), whether
    recorded before or after a failing rule; and rules of other tables
    are left as they are. *)
Theorem VMTerminatedTeardown_ploughs_on (h : iptables.IPTables) (spec : chnet.TeardownSpec) :
  iptables.installed h = true →
  Forall (λ rule, (2 ≤ length rule)%nat) (chnet.IPTablesRules spec) →
  ∃ h' errors,
    chnet.VMTerminatedTeardown h (teardownOf spec) = (h', chnet.Returned errors) ∧
    iptables.tables h' = iptables.tables h ∧
    chnet.err_table <$> errors
    = filter (λ t, t ∉ iptables.tables h)
             (iptables.table ∘ ruleOf <$> chnet.IPTablesRules spec) ∧
    ∀ r, copies r (iptables.rules h')
         = if bool_decide (iptables.table r ∈ iptables.tables h)
           then (copies r (iptables.rules h)
                 - copies r (ruleOf <$> chnet.IPTablesRules spec))%nat
           else copies r (iptables.rules h).
Proof.
  intros Hinst Hall. unfold chnet.VMTerminatedTeardown, teardownOf. cbn [chnet.Spec].
  rewrite Hinst. cbn [negb].
  destruct (teardownLoop_counts h (chnet.IPTablesRules spec) [] Hall)
    as (h' & more & Hloop & Ht & Herr & Hcount).
  exists h', more. done.
Qed.

Lemma VMTerminatedTeardown_ploughs_on_witness :
  ∃ h' errors,
    chnet.VMTerminatedTeardown mappedHost (teardownOf partialSpec)
    = (h', chnet.Returned errors) ∧
    iptables.tables h' = iptables.tables mappedHost ∧
    chnet.err_table <$> errors
    = filter (λ t, t ∉ iptables.tables mappedHost)
             (iptables.table ∘ ruleOf <$> chnet.IPTablesRules partialSpec) ∧
    ∀ r, copies r (iptables.rules h')
         = if bool_decide (iptables.table r ∈ iptables.tables mappedHost)
           then (copies r (iptables.rules mappedHost)
                 - copies r (ruleOf <$> chnet.IPTablesRules partialSpec))%nat
           else copies r (iptables.rules mappedHost).
Proof.
  apply (VMTerminatedTeardown_ploughs_on mappedHost partialSpec).
  - reflexivity.
  - repeat constructor; simpl; lia.
Defined.

Example VMTerminatedTeardown_partial :
  chnet.VMTerminatedTeardown mappedHost (teardownOf partialSpec)
  = (iptables.MkIPTables true ["filter"; "nat"; "mangle"; "raw"] [],
     chnet.Returned
       [chnet.MkTeardownError "security" "NOMAD_CH_SEC" (iptables.ErrTable "security")]).
Proof. vm_compute. reflexivity. Qed.

(** ** Task interfaces and plugin defaults *)

Lemma validateLoop_spec (i : nat) (l : list (option domain.NetworkInterfaceConfig))
    (errors : list net.validate_error) :
  match net.validateLoop i l errors with
  | None => None ∈ l
  | Some errors' =>
      (None ∉ l) ∧ ∃ extra, errors' = errors ++ extra ∧ (extra = [] ↔ Forall wellNamed l)
  end.
Proof.
  revert i errors. induction l as [|[c|] l IH]; intros i errors; cbn [net.validateLoop].
  - split; [apply not_elem_of_nil|]. exists []. by rewrite app_nil_r.
  - set (errors1 := match domain.IfBridge c with Some _ => _ | None => _ end).
    assert (∃ add, errors1 = errors ++ add ∧ (add = [] ↔ wellNamed (Some c)))
      as (add & -> & Hadd).
    { subst errors1. unfold wellNamed. destruct (domain.IfBridge c) as [b|] eqn:Hb.
      - case_bool_decide as Hname.
        + eexists. split; [done|]. split; [done|].
          intros (c' & [= <-] & Hc). by destruct (Hc b).
        + exists []. rewrite app_nil_r. split; [done|]. split; [|done].
          intros _. exists c. split; [done|]. intros b' Hb'. congruence.
      - exists []. rewrite app_nil_r. split; [done|]. split; [|done].
        intros _. exists c. split; [done|]. intros b' Hb'. congruence. }
    specialize (IH (S i) (errors ++ add)).
    destruct (net.validateLoop (S i) l (errors ++ add)) as [errors'|].
    + destruct IH as (Hnil & extra & -> & Hextra). split.
      { intros [?|?]%elem_of_cons; done. }
      exists (add ++ extra). rewrite app_assoc. split; [done|].
      rewrite Forall_cons, <- Hadd, <- Hextra. split.
      * by intros [-> ->]%app_eq_nil.
      * by intros [-> ->].
    + by right.
  - left.
Qed.

(** X23.  [NetworkInterfacesConfig.Validate] returns no error exactly
    when there is at most one interface and every interface with a
    bridge block names the bridge.  A nil list is accepted; a nil
    interface in the list makes the call panic, and nothing else
    does. *)
Theorem Validate_accepts_iff (l : list (option domain.NetworkInterfaceConfig)) :
  net.Validate None = Done [] ∧
  (net.Validate (Some l) = Panics ↔ None ∈ l) ∧
  (net.Validate (Some l) = Done [] ↔ (length l ≤ 1)%nat ∧ Forall wellNamed l).
Proof.
  split; [done|]. unfold net.Validate.
  pose proof (validateLoop_spec 0 l (if (1 <? length l)%nat then [net.ErrOnlyOneInterface] else []))
    as Hloop.
  destruct (net.validateLoop _ _ _) as [errors'|].
  - destruct Hloop as (Hnil & extra & -> & Hextra).
    split; [done|]. split.
    + intros [= Heq]. apply app_eq_nil in Heq as [Hone ->]. split; [|by apply Hextra].
      destruct (1 <? length l)%nat eqn:Hlen; [done|]. by apply Nat.ltb_ge in Hlen.
    + intros [Hlen Hall]. apply Hextra in Hall as ->.
      by rewrite (proj2 (Nat.ltb_ge 1 (length l))) by lia.
  - split; [done|]. split; [done|]. intros [Hlen Hall].
    rewrite Forall_forall in Hall. destruct (Hall None Hloop) as (c & ? & _). done.
Qed.

(** X24.  [initDefaults] completes a plugin configuration and changes
    nothing that is set: afterwards every field it looks at is
    non-empty, a configuration in which they all were is returned
    unchanged, and applying it twice is the same as applying it once. *)
Theorem initDefaults_completes (c : virt.Config) :
  complete (virt.initDefaults c) ∧
  (complete c → virt.initDefaults c = c) ∧
  virt.initDefaults (virt.initDefaults c) = virt.initDefaults c.
Proof.
  assert (∀ v f, f ≠ "" → virt.orDefault v f ≠ "") as Hor.
  { intros v f Hf. unfold virt.orDefault. by case_bool_decide. }
  assert (∀ v f, v ≠ "" → virt.orDefault v f = v) as Hkeep.
  { intros v f Hv. unfold virt.orDefault. by rewrite bool_decide_eq_false_2. }
  assert (complete (virt.initDefaults c)) as Hcomplete.
  { unfold complete, virt.initDefaults. cbn.
    repeat split; try (by apply Hor). by destruct (virt.ImagePaths c). }
  assert (∀ c', complete c' → virt.initDefaults c' = c') as Hfix.
  { intros [[] [] ? ? paths ?] (?&?&?&?&?&?&?&?&?&?&?). cbn in *.
    unfold virt.initDefaults. cbn. rewrite !Hkeep by done. by destruct paths. }
  split; [done|]. split; [apply Hfix|]. by apply Hfix.
Qed.

Example initDefaults_validates :
  virt.Network (virt.initDefaults emptyConfig) = defaultNetwork ∧
  validateNetworkConfig
    (New (VMC := VMConfig unit) (Some (virt.Network (virt.initDefaults emptyConfig))) None "")
  = None.
Proof. vm_compute. split; reflexivity. Qed.

(** ** Registered VMs hold distinct addresses *)

Section AddressFacts.
Context {World Payload Other : Type} `{!Host World Payload Other}.
Local Abbreviation Driver := (Driver (VMConfig Payload)).
Implicit Types (w : World) (d : Driver).

(** The property only looks at the registry and at which addresses are
    marked. *)
Lemma addresses_distinct_ext d d' :
  processes d' = processes d → (∀ ip, isAllocated d ip = true → isAllocated d' ip = true) →
  addresses_distinct d → addresses_distinct d'.
Proof.
  intros Hp Ha [Hheld Hdistinct]. split.
  - intros name proc Hlookup. rewrite Hp in Hlookup. apply Ha. by eapply Hheld.
  - intros n1 n2 p1 p2 Hne H1 H2. rewrite Hp in H1, H2. by eapply Hdistinct.
Qed.

Lemma step_addresses_distinct w d (o : @op Other) :
  addresses_distinct d → addresses_distinct (step (w, d) o).2.
Proof.
  intros Hinv. destruct o as [config env|name|name]; cbn [step fst snd].
  - pose proof (CreateDomain_cases w d config env) as Hcases. cbv zeta in Hcases.
    pose proof (takeIP_frame d config) as Hframe.
    destruct Hcases as [[-> _]|(ip & d1 & Htake & Hcases)]; [done|].
    rewrite Htake in Hframe. destruct Hframe as [Hfree ->].
    destruct Hcases as [[-> _]|[(-> & _)|(proc & nc & nanos & -> & _ & Hip & _ & _ & _ & _ & Hnew)]].
    + apply (addresses_distinct_ext d); [done| |done].
      intros ip' Hip'. by rewrite release_after_take.
    + apply (addresses_distinct_ext d); [done| |done].
      intros ip' Hip'. rewrite isAllocated_insert, Hip'. by rewrite orb_true_r.
    + destruct Hinv as [Hheld Hdistinct]. subst ip. split.
      * intros name p. cbn [processes set_processes]. rewrite lookup_insert.
        case_decide as Hname.
        -- intros [= <-].
           change (isAllocated (set_allocatedIPs d (<[IP proc:=true]> (allocatedIPs d)))
                               (IP proc) = true).
           rewrite isAllocated_insert. by rewrite bool_decide_eq_true_2.
        -- intros Hp.
           change (isAllocated (set_allocatedIPs d (<[IP proc:=true]> (allocatedIPs d)))
                               (IP p) = true).
           rewrite isAllocated_insert, (Hheld name p Hp). by rewrite orb_true_r.
      * intros n1 n2 p1 p2 Hne. cbn [processes set_processes]. rewrite !lookup_insert.
        case_decide as H1; case_decide as H2; subst.
        -- done.
        -- intros [= <-] Hp2 Heq. apply Hheld in Hp2. congruence.
        -- intros Hp1 [= <-] Heq. apply Hheld in Hp1. congruence.
        -- by apply Hdistinct.
  - by rewrite StopDomain_driver.
  - rewrite DestroyDomain_driver. destruct (processes d !! name) as [proc|] eqn:Hproc; [|done].
    destruct Hinv as [Hheld Hdistinct]. split.
    + intros name' p. cbn [processes set_processes]. rewrite lookup_delete.
      case_decide as Hname; [done|]. intros Hp.
      change (isAllocated (deallocateIP d (IP proc)) (IP p) = true).
      rewrite isAllocated_deallocate, (Hheld name' p Hp).
      rewrite bool_decide_eq_false_2; [done|]. by apply (Hdistinct name name').
    + intros n1 n2 p1 p2 Hne. cbn [processes set_processes]. rewrite !lookup_delete.
      case_decide; [done|]. case_decide; [done|]. by apply Hdistinct.
Qed.

(** X26. Whatever sequence of CreateDomain, StopDomain and DestroyDomain
    calls runs on a driver in which every registered VM holds an
    allocated address and no two registered VMs share one, the same
    holds afterwards: the driver never hands one address to two
    registered VMs, and never releases the address of a VM that is
    still registered. *)
Theorem lifecycle_addresses_distinct w d (ops : list (@op Other)) :
  addresses_distinct d → addresses_distinct (run (w, d) ops).2.
Proof.
  revert w d. induction ops as [|o ops IH]; intros w d Hinv; [done|].
  unfold run. cbn [fold_left]. destruct (step (w, d) o) as [w1 d1] eqn:Hstep.
  apply IH. change d1 with (w1, d1).2. rewrite <- Hstep. by apply step_addresses_distinct.
Qed.

End AddressFacts.

Lemma defaultDriver_addresses_distinct : addresses_distinct defaultDriver.
Proof.
  split.
  - intros name proc. change (processes defaultDriver) with (∅ : gmap string (VMProcess (VMConfig unit))).
    by rewrite lookup_empty.
  - intros name1 name2 proc1 proc2 _.
    change (processes defaultDriver) with (∅ : gmap string (VMProcess (VMConfig unit))).
    by rewrite lookup_empty.
Qed.

Lemma lifecycle_addresses_distinct_witness :
  addresses_distinct defaultDriver ∧
  addresses_distinct (run (host0, defaultDriver) mixedOps).2.
Proof.
  split; [exact defaultDriver_addresses_distinct|].
  apply (lifecycle_addresses_distinct host0 defaultDriver mixedOps).
  exact defaultDriver_addresses_distinct.
Defined.
